(** * Sluzby-denni-planovani: daily service-revenue target for a branch

    A shallow embedding of the calculation core of the application
    ([src/utils/dateUtils.ts], [src/App.tsx], [src/types.ts]) and the
    properties its specification states about it.

    Conventions of the embedding:
    - a JavaScript [number] is an IEEE 754 binary64 value, here Rocq's
      primitive [float]; the integers the calendar code computes with
      (years, months, days of the month, loop counters, tallies) are exact
      in binary64 and are kept in [Z];
    - a JavaScript string is its sequence of UTF-16 code units;
    - a [Date] object is its time value in milliseconds, read in local
      time (the time-zone offset is taken as already applied), without the
      range limit of [TimeClip];
    - the ambient clock, [localStorage] and the state of the [App]
      component live in one [World], threaded by a small state monad. *)

From Stdlib Require Import ZArith Lia Floats String Ascii.
From Equations Require Import Equations.
From stdpp Require Import base option list gmap sorting.

Set Warnings "-inexact-float".
Local Open Scope Z_scope.

(** ** Strings *)

Definition char16 : Type := N.
Definition jsstring : Type := list char16.

(** String methods the program calls. *)

Module Str.

(** The code units of an ASCII literal. *)
Definition lit (s : String.string) : jsstring :=
  map (fun a => Ascii.N_of_ascii a) (String.list_ascii_of_string s).
Arguments lit s%_string.

Definition isWhiteSpace (c : char16) : bool :=
  match c with
  | 0x09 | 0x0A | 0x0B | 0x0C | 0x0D | 0x20 | 0xA0 | 0x1680
  | 0x2028 | 0x2029 | 0x202F | 0x205F | 0x3000 | 0xFEFF => true
  | _ => (0x2000 <=? c) && (c <=? 0x200A)
  end%N.

Fixpoint trimStart (s : jsstring) : jsstring :=
  match s with
  | c :: r => if isWhiteSpace c then trimStart r else s
  | [] => []
  end.

Definition trimEnd (s : jsstring) : jsstring := rev (trimStart (rev s)).

Definition trim (s : jsstring) : jsstring := trimEnd (trimStart s).

Definition removeWhiteSpace (s : jsstring) : jsstring :=
  List.filter (fun c => negb (isWhiteSpace c)) s.

Fixpoint replaceFirst (a b : char16) (s : jsstring) : jsstring :=
  match s with
  | c :: r => if (c =? a)%N then b :: r else c :: replaceFirst a b r
  | [] => []
  end.

Fixpoint startsWith (p s : jsstring) : bool :=
  match p, s with
  | [], _ => true
  | a :: p', c :: s' => (a =? c)%N && startsWith p' s'
  | _ :: _, [] => false
  end.

Fixpoint uintDigits (u : Decimal.uint) : jsstring :=
  match u with
  | Decimal.Nil => []
  | Decimal.D0 r => 48%N :: uintDigits r
  | Decimal.D1 r => 49%N :: uintDigits r
  | Decimal.D2 r => 50%N :: uintDigits r
  | Decimal.D3 r => 51%N :: uintDigits r
  | Decimal.D4 r => 52%N :: uintDigits r
  | Decimal.D5 r => 53%N :: uintDigits r
  | Decimal.D6 r => 54%N :: uintDigits r
  | Decimal.D7 r => 55%N :: uintDigits r
  | Decimal.D8 r => 56%N :: uintDigits r
  | Decimal.D9 r => 57%N :: uintDigits r
  end.

(** Decimal digits of a natural number, most significant first. *)
Definition decimal (n : Z) : jsstring := uintDigits (N.to_uint (Z.to_N n)).

End Str.

(** ** Numbers: conversions and the built-ins [parseFloat], [isNaN],
    [Math.round] and "Number::toString" of ECMA-262 *)

Module Num.
Import Str.

Definition signed (neg : bool) (x : float) : float := if neg then (- x)%float else x.

(** The Number value of the integer [z]. *)
Definition ofZ (z : Z) : float := SF2Prim (binary_normalize prec emax z 0 false).

(** The Number value (round to nearest, ties to even) of [m * 10^e],
    for [0 <= m]. *)
Definition ofDecimal (neg : bool) (m e : Z) : float :=
  if m =? 0 then signed neg 0%float
  else if 309 <=? e + Z.log2 m / 4 then signed neg infinity
  else if e + (Z.log2 m / 3 + 1) <=? -325 then signed neg 0%float
  else if 0 <=? e then signed neg (SF2Prim (binary_normalize prec emax (m * 10 ^ e) 0 false))
  else
    let d := 10 ^ (- e) in
    let sh := Z.max 0 (56 + Z.log2_up d - Z.log2 m) in
    let n := m * 2 ^ sh in
    let q := n / d in
    let sticky := if n mod d =? 0 then 0 else 1 in
    signed neg (SF2Prim (binary_normalize prec emax (2 * q + sticky) (- sh - 1) false)).

Definition isDigit (c : char16) : bool := ((48 <=? c) && (c <=? 57))%N.

(** Reads a run of decimal digits: its value after [acc], its length after
    [n], and the rest of the string. *)
Fixpoint readDigits (s : jsstring) (acc n : Z) : Z * Z * jsstring :=
  match s with
  | c :: r => if isDigit c then readDigits r (10 * acc + (Z.of_N c - 48)) (n + 1)
              else (acc, n, s)
  | [] => (acc, n, [])
  end.

(** The exponent part [e] / [E], optional sign, digits; 0 when absent or
    without digits. *)
Definition readExponent (s : jsstring) : Z :=
  match s with
  | c :: r =>
      if ((c =? 101) || (c =? 69))%N then
        let '(neg, r') :=
          match r with
          | 45%N :: r' => (true, r')
          | 43%N :: r' => (false, r')
          | _ => (false, r)
          end in
        let '(v, n, _) := readDigits r' 0 0 in
        if n =? 0 then 0 else if neg then - v else v
      else 0
  | [] => 0
  end.

Definition parseFloat (input : jsstring) : float :=
  let s := trimStart input in
  let '(neg, s) :=
    match s with
    | 45%N :: r => (true, r)
    | 43%N :: r => (false, r)
    | _ => (false, s)
    end in
  if startsWith (lit "Infinity") s then signed neg infinity
  else
    let '(ip, ni, s1) := readDigits s 0 0 in
    let '(m, nf, s2) :=
      match s1 with
      | 46%N :: r => readDigits r ip 0
      | _ => (ip, 0, s1)
      end in
    if (ni =? 0) && (nf =? 0) then nan
    else ofDecimal neg m (readExponent s2 - nf).

Definition isNaN (x : float) : bool := negb (x =? x)%float.

(** The integer nearest to [sm * 2^e], for [e < 0]: the floor of
    [sm * 2^e + 1/2], so that a tie goes to the larger integer. *)
Definition roundHalfUp (sm e : Z) : Z := (2 * sm + 2 ^ (- e)) / 2 ^ (1 - e).

(** [Math.round]: a number that is not finite or has no fraction bits is
    returned as it is; a result of 0 keeps the sign of the argument. *)
Definition Math_round (n : float) : float :=
  match Prim2SF n with
  | S754_finite s m e =>
      if 0 <=? e then n
      else
        let sm := if s then Z.neg m else Z.pos m in
        let r := roundHalfUp sm e in
        if r =? 0 then signed s 0%float else ofZ r
  | _ => n
  end.

(** [compare10 a b n]: the comparison of [a / b] with [10 ^ n]. *)
Definition compare10 (a b n : Z) : comparison :=
  if 0 <=? n then a ?= 10 ^ n * b else a * 10 ^ (- n) ?= b.

Fixpoint raise10 (fuel : nat) (a b n : Z) : Z :=
  match fuel with
  | O => n
  | S f => match compare10 a b n with Lt => n | _ => raise10 f a b (n + 1) end
  end.

Fixpoint lower10 (fuel : nat) (a b n : Z) : Z :=
  match fuel with
  | O => n
  | S f => match compare10 a b (n - 1) with Lt => lower10 f a b (n - 1) | _ => n end
  end.

(** The [n] with [10^(n-1) <= a/b < 10^n]. *)
Definition magnitude10 (a b : Z) : Z :=
  let n0 := (Z.log2 a - Z.log2 b) * 30103 / 100000 in
  lower10 8 a b (raise10 8 a b n0).

(** Shortest digits: the [(s, n)] of "Number::toString" with [k] digits, tried
    for [k] = [k], [k+1], ... *)
Fixpoint shortest (fuel : nat) (x : float) (a b n k : Z) : Z * Z :=
  match fuel with
  | O => (0, n)
  | S f =>
      let '(a', b') := if 0 <=? n - k then (a, b * 10 ^ (n - k)) else (a * 10 ^ (k - n), b) in
      let lo := a' / b' in
      let rem := a' mod b' in
      let hi := lo + 1 in
      let okLo := (ofDecimal false lo (n - k) =? x)%float in
      let okHi := (ofDecimal false hi (n - k) =? x)%float in
      let pickHi := if hi =? 10 ^ k then (10 ^ (k - 1), n + 1) else (hi, n) in
      if rem =? 0 then (lo, n)
      else if okLo && okHi then
        match 2 * rem ?= b' with
        | Lt => (lo, n)
        | Gt => pickHi
        | Eq => if Z.even lo then (lo, n) else pickHi
        end
      else if okLo then (lo, n)
      else if okHi then pickHi
      else shortest f x a b n (k + 1)
  end.

Definition zeros (n : Z) : jsstring := replicate (Z.to_nat n) 48%N.

Definition Number_toString (x : float) : jsstring :=
  match Prim2SF x with
  | S754_nan => lit "NaN"
  | S754_zero _ => lit "0"
  | S754_infinity s => if s then lit "-Infinity" else lit "Infinity"
  | S754_finite sg m e =>
      let '(a, b) := if 0 <=? e then (Z.pos m * 2 ^ e, 1) else (Z.pos m, 2 ^ (- e)) in
      let '(s, n) := shortest 17 (abs x) a b (magnitude10 a b) 1 in
      let ds := decimal s in
      let k := Z.of_nat (length ds) in
      let body :=
        if (k <=? n) && (n <=? 21) then ds ++ zeros (n - k)
        else if (0 <? n) && (n <=? 21) then
          take (Z.to_nat n) ds ++ lit "." ++ drop (Z.to_nat n) ds
        else if (-6 <? n) && (n <=? 0) then lit "0." ++ zeros (- n) ++ ds
        else
          let ex := (if 0 <=? n - 1 then lit "+" else lit "-") ++ decimal (Z.abs (n - 1)) in
          if k =? 1 then ds ++ lit "e" ++ ex
          else take 1 ds ++ lit "." ++ drop 1 ds ++ lit "e" ++ ex in
      (if sg then lit "-" else []) ++ body
  end.

End Num.

(** ** Values of type [any]: the cells of a parsed sheet *)

Inductive JSValue : Type :=
| JSUndefined
| JSNull
| JSBoolean (b : bool)
| JSNumber (n : float)
| JSString (s : jsstring).

Module Val.
Import Str Num.

Definition ToBoolean (v : JSValue) : bool :=
  match v with
  | JSUndefined | JSNull => false
  | JSBoolean b => b
  | JSNumber n => negb ((n =? 0)%float || isNaN n)
  | JSString s => match s with [] => false | _ :: _ => true end
  end.

(** [String(v)], and [v.toString()] where [v] is neither [undefined] nor
    [null]. *)
Definition ToString (v : JSValue) : jsstring :=
  match v with
  | JSUndefined => lit "undefined"
  | JSNull => lit "null"
  | JSBoolean b => if b then lit "true" else lit "false"
  | JSNumber n => Number_toString n
  | JSString s => s
  end.

(** [row[i]]: [undefined] past the end of the array. *)
Definition index (row : list JSValue) (i : nat) : JSValue :=
  default JSUndefined (row !! i).

End Val.

(** ** The built-in [Date] of ECMAScript (ECMA-262, "Time Values and Time
    Range", "Date Objects"), as far as the program calls it. *)

Module ES.

Definition msPerDay : Z := 86400000.

Definition Day (t : Z) : Z := t / msPerDay.

Definition DaysInYear (y : Z) : Z :=
  if negb (y mod 4 =? 0) then 365
  else if negb (y mod 100 =? 0) then 366
  else if negb (y mod 400 =? 0) then 365
  else 366.

Definition DayFromYear (y : Z) : Z :=
  365 * (y - 1970) + (y - 1969) / 4 - (y - 1901) / 100 + (y - 1601) / 400.

Definition TimeFromYear (y : Z) : Z := msPerDay * DayFromYear y.

(** ECMA-262 defines the year of a time value as the largest [y] with
    [TimeFromYear y <= t].  It is computed here from the mean length of a
    Gregorian year (146097 days in 400 years), corrected by one year either
    way; [YearFromDay_spec] below proves that this is that largest [y]. *)
Definition YearFromDay (d : Z) : Z :=
  let y := 1970 + (400 * d) / 146097 in
  if DayFromYear (y + 1) <=? d then y + 1
  else if DayFromYear y <=? d then y
  else y - 1.

Definition YearFromTime (t : Z) : Z := YearFromDay (Day t).

Definition InLeapYear (t : Z) : Z :=
  if DaysInYear (YearFromTime t) =? 366 then 1 else 0.

Definition DayWithinYear (t : Z) : Z := Day t - DayFromYear (YearFromTime t).

Definition MonthFromTime (t : Z) : Z :=
  let d := DayWithinYear t in
  let l := InLeapYear t in
  if d <? 31 then 0
  else if d <? 59 + l then 1
  else if d <? 90 + l then 2
  else if d <? 120 + l then 3
  else if d <? 151 + l then 4
  else if d <? 181 + l then 5
  else if d <? 212 + l then 6
  else if d <? 243 + l then 7
  else if d <? 273 + l then 8
  else if d <? 304 + l then 9
  else if d <? 334 + l then 10
  else 11.

Definition DateFromTime (t : Z) : Z :=
  let d := DayWithinYear t in
  let l := InLeapYear t in
  match MonthFromTime t with
  | 0 => d + 1
  | 1 => d - 30
  | 2 => d - 58 - l
  | 3 => d - 89 - l
  | 4 => d - 119 - l
  | 5 => d - 150 - l
  | 6 => d - 180 - l
  | 7 => d - 211 - l
  | 8 => d - 242 - l
  | 9 => d - 272 - l
  | 10 => d - 303 - l
  | _ => d - 333 - l
  end.

Definition WeekDay (t : Z) : Z := (Day t + 4) mod 7.

Definition MakeTime (hour min sec ms : Z) : Z :=
  hour * 3600000 + min * 60000 + sec * 1000 + ms.

(** Day within the year on which month [mn] (0..11) starts; [l] is 1 in a
    leap year and 0 otherwise. *)
Definition monthStart (mn l : Z) : Z :=
  match mn with
  | 0 => 0
  | 1 => 31
  | 2 => 59 + l
  | 3 => 90 + l
  | 4 => 120 + l
  | 5 => 151 + l
  | 6 => 181 + l
  | 7 => 212 + l
  | 8 => 243 + l
  | 9 => 273 + l
  | 10 => 304 + l
  | _ => 334 + l
  end.

(** [MakeDay]: the day number of the first of month [mn] of year [ym], plus
    [date - 1]; months outside 0..11 and dates outside the month carry over. *)
Definition MakeDay (year month date : Z) : Z :=
  let ym := year + month / 12 in
  let mn := month mod 12 in
  let l := if DaysInYear ym =? 366 then 1 else 0 in
  DayFromYear ym + monthStart mn l + date - 1.

Definition MakeDate (day time : Z) : Z := day * msPerDay + time.

(** A [Date] object, as its local time value. *)
Definition Date : Type := Z.

(** [new Date(year, month, date)]: a year from 0 to 99 stands for
    1900 + year. *)
Definition Date_new (year month date : Z) : Date :=
  let yr := if (0 <=? year) && (year <=? 99) then 1900 + year else year in
  MakeDate (MakeDay yr month date) (MakeTime 0 0 0 0).

Definition getFullYear (d : Date) : Z := YearFromTime d.
Definition getMonth (d : Date) : Z := MonthFromTime d.
Definition getDate (d : Date) : Z := DateFromTime d.
Definition getDay (d : Date) : Z := WeekDay d.

End ES.

(** ** [src/types.ts] *)

Record CalculationResult : Type := {
  branchName : jsstring;
  revenueRR : float;
  planAsrServicesRevenue : float;
  serviceAsistRevenue : float;
  daysRemaining : Z;
  weekdaysRemaining : Z;
  weekendsRemaining : Z;
  isTodayWeekend : bool;
  finalValue : float;
  rawRow : list JSValue
}.

(** ** The world of the program and its effects *)

(** An entry of [manualOverrides]: each field is optional. *)
Module Override.
Record t : Type := {
  serviceAsistRevenue : option float;
  revenueRR : option float
}.
Definition empty : t := {| serviceAsistRevenue := None; revenueRR := None |}.
End Override.

(** The messages [setError] is called with:
    "Soubor je příliš krátký. Záhlaví musí být na 5. řádku.",
    "Nepodařilo se najít všechny sloupce. Zkontrolujte názvy v Excelu na
    5. řádku." and "Chyba při nahrávání.". *)
Inductive ErrorMessage : Type :=
| FileTooShort
| ColumnsNotFound
| UploadFailed.

(** The [useState] cells of the [App] component. *)
Record AppState : Type := {
  allCalculations : list CalculationResult;
  selectedBranch : jsstring;
  manualOverrides : gmap jsstring Override.t;
  isProcessing : bool;
  error : option ErrorMessage;
  fileName : option jsstring;
  defaultBranch : option jsstring;
  weekendWeight : float
}.

Record World : Type := {
  clock : ES.Date;                       (* what [new Date()] returns *)
  localStorage : gmap jsstring jsstring;
  app : AppState
}.

Definition Eff (A : Type) : Type := World -> A * World.

#[global] Instance Eff_ret : MRet Eff := fun A x w => (x, w).

#[global] Instance Eff_bind : MBind Eff :=
  fun A B f m w => let '(x, w') := m w in f x w'.

Definition run {A : Type} (m : Eff A) (w : World) : A := fst (m w).
Definition exec {A : Type} (m : Eff A) (w : World) : World := snd (m w).

(** [new Date()] *)
Definition Date_now : Eff ES.Date := fun w => (clock w, w).

Definition localStorage_getItem (key : jsstring) : Eff (option jsstring) :=
  fun w => (localStorage w !! key, w).

Definition localStorage_setItem (key value : jsstring) : Eff unit :=
  fun w => (tt, {| clock := clock w;
                   localStorage := <[key := value]> (localStorage w);
                   app := app w |}).

Definition getState : Eff AppState := fun w => (app w, w).

Definition setState (f : AppState -> AppState) : Eff unit :=
  fun w => (tt, {| clock := clock w; localStorage := localStorage w; app := f (app w) |}).

Definition setAllCalculations (v : list CalculationResult) : Eff unit :=
  setState (fun s =>
    {| allCalculations := v; selectedBranch := selectedBranch s;
       manualOverrides := manualOverrides s; isProcessing := isProcessing s;
       error := error s; fileName := fileName s; defaultBranch := defaultBranch s;
       weekendWeight := weekendWeight s |}).

Definition setSelectedBranch (v : jsstring) : Eff unit :=
  setState (fun s =>
    {| allCalculations := allCalculations s; selectedBranch := v;
       manualOverrides := manualOverrides s; isProcessing := isProcessing s;
       error := error s; fileName := fileName s; defaultBranch := defaultBranch s;
       weekendWeight := weekendWeight s |}).

(** [setManualOverrides(prev => f prev)] *)
Definition setManualOverrides
    (f : gmap jsstring Override.t -> gmap jsstring Override.t) : Eff unit :=
  setState (fun s =>
    {| allCalculations := allCalculations s; selectedBranch := selectedBranch s;
       manualOverrides := f (manualOverrides s); isProcessing := isProcessing s;
       error := error s; fileName := fileName s; defaultBranch := defaultBranch s;
       weekendWeight := weekendWeight s |}).

Definition setIsProcessing (v : bool) : Eff unit :=
  setState (fun s =>
    {| allCalculations := allCalculations s; selectedBranch := selectedBranch s;
       manualOverrides := manualOverrides s; isProcessing := v;
       error := error s; fileName := fileName s; defaultBranch := defaultBranch s;
       weekendWeight := weekendWeight s |}).

Definition setError (v : option ErrorMessage) : Eff unit :=
  setState (fun s =>
    {| allCalculations := allCalculations s; selectedBranch := selectedBranch s;
       manualOverrides := manualOverrides s; isProcessing := isProcessing s;
       error := v; fileName := fileName s; defaultBranch := defaultBranch s;
       weekendWeight := weekendWeight s |}).

Definition setFileName (v : option jsstring) : Eff unit :=
  setState (fun s =>
    {| allCalculations := allCalculations s; selectedBranch := selectedBranch s;
       manualOverrides := manualOverrides s; isProcessing := isProcessing s;
       error := error s; fileName := v; defaultBranch := defaultBranch s;
       weekendWeight := weekendWeight s |}).

Definition setDefaultBranch (v : option jsstring) : Eff unit :=
  setState (fun s =>
    {| allCalculations := allCalculations s; selectedBranch := selectedBranch s;
       manualOverrides := manualOverrides s; isProcessing := isProcessing s;
       error := error s; fileName := fileName s; defaultBranch := v;
       weekendWeight := weekendWeight s |}).

Definition setWeekendWeight (v : float) : Eff unit :=
  setState (fun s =>
    {| allCalculations := allCalculations s; selectedBranch := selectedBranch s;
       manualOverrides := manualOverrides s; isProcessing := isProcessing s;
       error := error s; fileName := fileName s; defaultBranch := defaultBranch s;
       weekendWeight := v |}).

(** ** [src/utils/dateUtils.ts] *)

(** [RemainingDaysInfo]: the object [getRemainingDaysInfo] returns. *)
Module RemainingDaysInfo.
Record t : Type := {
  total : Z;
  weekdays : Z;
  weekends : Z;
  isTodayWeekend : bool
}.
End RemainingDaysInfo.

Module dateUtils.
Import ES.

(** The loop [for (let d = currentDay; d <= lastDay; d++)], with the two
    tallies it updates.  The built-ins stay folded while the equations of
    the loop are derived. *)

#[local] Opaque Date_new getDay.

Equations? getRemainingDaysInfo_loop (year month lastDay d weekdays weekends : Z)
  : Z * Z by wf (Z.to_nat (lastDay + 1 - d)) lt :=
  getRemainingDaysInfo_loop year month lastDay d weekdays weekends
    with Z_le_gt_dec d lastDay := {
    | left _ =>
        let date := Date_new year month d in
        let dayOfWeek := getDay date in
        if (dayOfWeek =? 0) || (dayOfWeek =? 6)
        then getRemainingDaysInfo_loop year month lastDay (d + 1) weekdays (weekends + 1)
        else getRemainingDaysInfo_loop year month lastDay (d + 1) (weekdays + 1) weekends
    | right _ => (weekdays, weekends) }.
Proof. all: lia. Qed.

#[local] Transparent Date_new getDay.

Definition getRemainingDaysInfo : Eff RemainingDaysInfo.t :=
  now ← Date_now;
  let year := getFullYear now in
  let month := getMonth now in
  let lastDay := getDate (Date_new year (month + 1) 0) in
  let currentDay := getDate now in
  let '(weekdays, weekends) :=
    getRemainingDaysInfo_loop year month lastDay currentDay 0 0 in
  let isTodayWeekend := (getDay now =? 0) || (getDay now =? 6) in
  mret {| RemainingDaysInfo.total := (lastDay - currentDay) + 1;
          RemainingDaysInfo.weekdays := weekdays;
          RemainingDaysInfo.weekends := weekends;
          RemainingDaysInfo.isTodayWeekend := isTodayWeekend |}.

Definition getDaysRemainingInMonth : Eff Z :=
  now ← Date_now;
  let year := getFullYear now in
  let month := getMonth now in
  let lastDay := getDate (Date_new year (month + 1) 0) in
  let currentDay := getDate now in
  let remaining := (lastDay - currentDay) + 1 in
  mret (if 0 <? remaining then remaining else 1).

End dateUtils.

(** ** [src/App.tsx] *)

Module App.
Import Str Num Val.
Local Open Scope float_scope.

(** [a ?? b] *)
Definition nullish {A : Type} (a : option A) (b : A) : A :=
  match a with
  | Some v => v
  | None => b
  end.

(** The arithmetic of [filteredResult], under the names of its constants. *)

Definition weightedDays (daysInfo : RemainingDaysInfo.t) (weekendWeight : float) : float :=
  ofZ (RemainingDaysInfo.weekdays daysInfo)
  + (weekendWeight * ofZ (RemainingDaysInfo.weekends daysInfo)).

Definition remainingTotalRevenue
    (currentRevenueRR planAsrServicesRevenue currentServiceAsist : float) : float :=
  (currentRevenueRR * planAsrServicesRevenue) - currentServiceAsist.

Definition recalculatedFinalValue (weightedDays remainingTotalRevenue : float) : float :=
  if 0 <? weightedDays then remainingTotalRevenue / weightedDays else 0.

(** [filteredResult]: [null] is [None]. *)
Definition filteredResult : Eff (option CalculationResult) :=
  s ← getState;
  if negb (ToBoolean (JSString (selectedBranch s))) then mret None
  else
    match List.find (fun c => bool_decide (branchName c = selectedBranch s))
                    (allCalculations s) with
    | None => mret None
    | Some baseData =>
        let branchOverrides := manualOverrides s !! selectedBranch s in
        let currentServiceAsist :=
          nullish (branchOverrides ≫= Override.serviceAsistRevenue)
                  (serviceAsistRevenue baseData) in
        let currentRevenueRR :=
          nullish (branchOverrides ≫= Override.revenueRR) (revenueRR baseData) in
        daysInfo ← dateUtils.getRemainingDaysInfo;
        let weightedDays := weightedDays daysInfo (weekendWeight s) in
        let remainingTotalRevenue :=
          remainingTotalRevenue currentRevenueRR (planAsrServicesRevenue baseData)
                                currentServiceAsist in
        let recalculatedFinalValue :=
          recalculatedFinalValue weightedDays remainingTotalRevenue in
        mret (Some {| branchName := branchName baseData;
                      revenueRR := currentRevenueRR;
                      planAsrServicesRevenue := planAsrServicesRevenue baseData;
                      serviceAsistRevenue := currentServiceAsist;
                      daysRemaining := daysRemaining baseData;
                      weekdaysRemaining := weekdaysRemaining baseData;
                      weekendsRemaining := weekendsRemaining baseData;
                      isTodayWeekend := isTodayWeekend baseData;
                      finalValue := recalculatedFinalValue;
                      rawRow := rawRow baseData |})
    end.

Record ProgressStats : Type := {
  percent : float;
  target : float
}.

Definition progressStats (filteredResult : option CalculationResult) : ProgressStats :=
  match filteredResult with
  | None => {| percent := 0; target := 0 |}
  | Some filteredResult =>
      let target := revenueRR filteredResult * planAsrServicesRevenue filteredResult in
      let current := serviceAsistRevenue filteredResult in
      let percent := if 0 <? target then (current / target) * 100 else 0 in
      {| percent := percent; target := target |}
  end.

(** [parseVal], the helper of the ingestion loop. *)
Definition parseVal (val : JSValue) : float :=
  match val with
  | JSNumber n => n
  | _ =>
      if negb (ToBoolean val) then 0
      else
        let cleaned := replaceFirst 44%N 46%N (removeWhiteSpace (ToString val)) in
        let num := parseFloat cleaned in
        if isNaN num then 0 else num
  end.

(** [row[colIdxBranch]?.toString().trim()]: [undefined] is [None]. *)
Definition branchVal (row : list JSValue) (colIdxBranch : nat) : option jsstring :=
  match index row colIdxBranch with
  | JSUndefined | JSNull => None
  | v => Some (trim (ToString v))
  end.

(** The body of the loop [for (let i = 5; i < rows.length; i++)] of
    [processFile], as its effect on [results]. *)
Definition processFile_row (daysInfo : RemainingDaysInfo.t)
    (colIdxBranch colIdxRevRR colIdxServAsist colIdxPlanAsr : nat)
    (results : list CalculationResult) (row : list JSValue) : list CalculationResult :=
  match branchVal row colIdxBranch with
  | Some ((_ :: _) as branchVal) =>
      let revRR := Math_round (parseVal (index row colIdxRevRR)) in
      let planAsr := parseVal (index row colIdxPlanAsr) in
      let serAsist := Math_round (parseVal (index row colIdxServAsist)) in
      if (revRR =? 0) && (planAsr =? 0) then results
      else
        results ++ [ {| branchName := branchVal;
                        revenueRR := revRR;
                        planAsrServicesRevenue := planAsr;
                        serviceAsistRevenue := serAsist;
                        daysRemaining := RemainingDaysInfo.total daysInfo;
                        weekdaysRemaining := RemainingDaysInfo.weekdays daysInfo;
                        weekendsRemaining := RemainingDaysInfo.weekends daysInfo;
                        isTodayWeekend := RemainingDaysInfo.isTodayWeekend daysInfo;
                        finalValue := 0;
                        rawRow := row |} ]
  | _ => results
  end.

Definition processFile_loop (daysInfo : RemainingDaysInfo.t)
    (colIdxBranch colIdxRevRR colIdxServAsist colIdxPlanAsr : nat)
    (rows : list (list JSValue)) : list CalculationResult :=
  fold_left (processFile_row daysInfo colIdxBranch colIdxRevRR colIdxServAsist colIdxPlanAsr)
            (drop 5 rows) [].

(** [processFile], from the rows [XLSX.utils.sheet_to_json] returned on:
    [rows] are those rows and the four [colIdx] the results of
    [findColIndex] on [rows[4]] (-1 when no header cell matches). *)
Definition processFile (name : jsstring) (rows : list (list JSValue))
    (colIdxBranch colIdxRevRR colIdxServAsist colIdxPlanAsr : Z) : Eff unit :=
  setIsProcessing true;;
  setError None;;
  setFileName (Some name);;
  setAllCalculations [];;
  setManualOverrides (fun _ => ∅);;
  setSelectedBranch [];;
  if (Z.of_nat (length rows) <? 5)%Z then
    setError (Some FileTooShort);;
    setIsProcessing false
  else if ((colIdxBranch =? -1) || (colIdxRevRR =? -1)
           || (colIdxServAsist =? -1) || (colIdxPlanAsr =? -1))%Z then
    setError (Some ColumnsNotFound);;
    setIsProcessing false;;
    setIsProcessing false
  else
    daysInfo ← dateUtils.getRemainingDaysInfo;
    let results :=
      processFile_loop daysInfo (Z.to_nat colIdxBranch) (Z.to_nat colIdxRevRR)
                       (Z.to_nat colIdxServAsist) (Z.to_nat colIdxPlanAsr) rows in
    setAllCalculations results;;
    saved ← localStorage_getItem (lit "defaultBranch");
    match saved with
    | Some ((_ :: _) as saved') =>
        if existsb (fun r => bool_decide (branchName r = saved')) results
        then setSelectedBranch saved'
        else setSelectedBranch []
    | _ => setSelectedBranch []
    end;;
    setIsProcessing false.

(** The initial values of the [useState] cells. *)
Definition initialState (storage : gmap jsstring jsstring) : AppState :=
  {| allCalculations := [];
     selectedBranch := [];
     manualOverrides := ∅;
     isProcessing := false;
     error := None;
     fileName := None;
     defaultBranch := storage !! lit "defaultBranch";
     weekendWeight :=
       match storage !! lit "weekendWeight" with
       | Some ((_ :: _) as saved) => parseFloat saved
       | _ => 0.6
       end |}.

Inductive OverrideField : Type :=
| field_serviceAsistRevenue
| field_revenueRR.

(** [{ ...entry, [field]: newValue }] *)
Definition Override_set (field : OverrideField) (newValue : float)
    (entry : Override.t) : Override.t :=
  match field with
  | field_serviceAsistRevenue =>
      {| Override.serviceAsistRevenue := Some newValue;
         Override.revenueRR := Override.revenueRR entry |}
  | field_revenueRR =>
      {| Override.serviceAsistRevenue := Override.serviceAsistRevenue entry;
         Override.revenueRR := Some newValue |}
  end.

Definition handleUpdateOverride (field : OverrideField) (newValue : float) : Eff unit :=
  s ← getState;
  if negb (ToBoolean (JSString (selectedBranch s))) then mret tt
  else
    setManualOverrides (fun prev =>
      <[ selectedBranch s :=
           Override_set field newValue
             (nullish (prev !! selectedBranch s) Override.empty) ]> prev).

Definition handleSetDefaultBranch : Eff unit :=
  s ← getState;
  if ToBoolean (JSString (selectedBranch s)) then
    localStorage_setItem (lit "defaultBranch") (selectedBranch s);;
    setDefaultBranch (Some (selectedBranch s))
  else mret tt.

End App.

(** * Vocabulary of the specification *)

(** The Gregorian calendar, stated independently of the day numbers of
    ECMA-262. *)

Module Gregorian.
(** The leap-year rule of the Gregorian calendar. *)
Definition isLeapYear (y : Z) : bool :=
  (y mod 4 =? 0) && (negb (y mod 100 =? 0) || (y mod 400 =? 0)).

(** Length of month [m] (0 = January ... 11 = December) of year [y]. *)
Definition daysInMonth (y m : Z) : Z :=
  match m with
  | 0 | 2 | 4 | 6 | 7 | 9 | 11 => 31
  | 3 | 5 | 8 | 10 => 30
  | _ => if isLeapYear y then 29 else 28
  end.

(** Day of the week of a calendar date by Zeller's congruence, numbered as
    [getDay] does: 0 = Sunday, 1 = Monday, ..., 6 = Saturday. *)
Definition dayOfWeek (y m d : Z) : Z :=
  let y' := if m <? 2 then y - 1 else y in
  let m' := if m <? 2 then m + 13 else m + 1 in
  let K := y' mod 100 in
  let J := y' / 100 in
  (d + 13 * (m' + 1) / 5 + K + K / 4 + J / 4 + 5 * J + 6) mod 7.
End Gregorian.

(** Saturday or Sunday. *)
Definition isWeekend (dayOfWeek : Z) : bool := (dayOfWeek =? 0) || (dayOfWeek =? 6).

(** Monday to Friday. *)
Definition isWeekday (dayOfWeek : Z) : bool := (1 <=? dayOfWeek) && (dayOfWeek <=? 5).

(** How many of the days [from], [from + 1], ..., [to] satisfy [p]. *)
Definition countDays (p : Z -> bool) (from to : Z) : Z :=
  Z.of_nat (length (List.filter p (seqZ from (to - from + 1)))).

(** The years the [Date] constructor reads as 1900 + year.  The system
    clock does not show them; the calendar properties are stated for the
    other years. *)
Definition twoDigitYear (y : Z) : bool := (0 <=? y) && (y <=? 99).

(** What the Calendar Analyzer is to return at the clock reading [now]. *)
Definition remainingDays (now : ES.Date) : RemainingDaysInfo.t :=
  let y := ES.getFullYear now in
  let m := ES.getMonth now in
  let currentDay := ES.getDate now in
  let lastDay := Gregorian.daysInMonth y m in
  {| RemainingDaysInfo.total := lastDay - currentDay + 1;
     RemainingDaysInfo.weekdays :=
       countDays (fun d => isWeekday (Gregorian.dayOfWeek y m d)) currentDay lastDay;
     RemainingDaysInfo.weekends :=
       countDays (fun d => isWeekend (Gregorian.dayOfWeek y m d)) currentDay lastDay;
     RemainingDaysInfo.isTodayWeekend := isWeekend (Gregorian.dayOfWeek y m currentDay) |}.

(** The ingested figures of the selected branch: the [baseData] that
    [filteredResult] looks up. *)
Definition baseData (s : AppState) : option CalculationResult :=
  List.find (fun c => bool_decide (branchName c = selectedBranch s)) (allCalculations s).

(** The entry of the override set for the selected branch. *)
Definition branchOverrides (s : AppState) : option Override.t :=
  manualOverrides s !! selectedBranch s.

(** The branch names of the data rows of a sheet, as the ingestion loop
    reads them: trimmed, and absent for an empty cell. *)
Definition sheetBranchNames (colIdxBranch : nat) (rows : list (list JSValue)) : list jsstring :=
  omap (fun row => App.branchVal row colIdxBranch) (drop 5 rows).

(** Worlds for the examples: the clock at local noon of a calendar day. *)
Definition localNoon (year month date : Z) : ES.Date :=
  ES.MakeDate (ES.MakeDay year month date) (ES.MakeTime 12 0 0 0).

Definition worldAt (now : ES.Date) (s : AppState) : World :=
  {| clock := now; localStorage := ∅; app := s |}.

Definition world_2024_02_10 : World := worldAt (localNoon 2024 1 10) (App.initialState ∅).

Definition world_2023_02_10 : World := worldAt (localNoon 2023 1 10) (App.initialState ∅).

(** Sheets for the examples: four rows above the header row, the header
    row, then the data rows; the columns are found at 0, 1, 2 and 3. *)
Definition sheet (dataRows : list (list JSValue)) : list (list JSValue) :=
  [ []; []; []; [];
    [ JSString (Str.lit "BranchName"); JSString (Str.lit "Revenue RR");
      JSString (Str.lit "Service Asist Revenue");
      JSString (Str.lit "Plan ASR Services/Revenue") ] ]
  ++ dataRows.

(** The world after the report [dataRows] is loaded at [now] with weekend
    weight [weight] and [branch] is selected. *)
Definition loaded (now : ES.Date) (weight : float) (dataRows : list (list JSValue))
    (branch : jsstring) : World :=
  exec (setWeekendWeight weight;;
        App.processFile (Str.lit "report.xlsx") (sheet dataRows) 0 1 2 3;;
        setSelectedBranch branch)
       (worldAt now (App.initialState ∅)).

(** Saturday 20 July 2024: 8 weekdays and 4 weekend days remain. *)
Definition scenarioWorld : World :=
  loaded (localNoon 2024 6 20) 0.6
         [ [ JSString (Str.lit "A"); JSNumber 10; JSNumber 200; JSNumber 50 ] ]
         (Str.lit "A").

Definition scenarioDays : RemainingDaysInfo.t :=
  {| RemainingDaysInfo.total := 12;
     RemainingDaysInfo.weekdays := 8;
     RemainingDaysInfo.weekends := 4;
     RemainingDaysInfo.isTodayWeekend := true |}.

(** A branch whose target is 1000 and whose achieved revenue is 1500. *)
Definition overTargetWorld : World :=
  loaded (localNoon 2024 6 20) 0.6
         [ [ JSString (Str.lit "A"); JSNumber 10; JSNumber 1500; JSNumber 100 ] ]
         (Str.lit "A").

(** Saturday 30 November 2024 with weekend weight 0, and a branch whose
    run-rate is 0: both guards of the calculation are closed. *)
Definition guardedWorld : World :=
  loaded (localNoon 2024 10 30) 0
         [ [ JSString (Str.lit "B"); JSNumber 0; JSNumber 100; JSNumber 0.5 ] ]
         (Str.lit "B").

(** A report that lists the branch "A" twice. *)
Definition duplicateRows : list (list JSValue) :=
  [ [ JSString (Str.lit "A"); JSNumber 1; JSNumber 1; JSNumber 1 ];
    [ JSString (Str.lit " A"); JSNumber 2; JSNumber 2; JSNumber 2 ] ].

(** A row as a Czech spreadsheet exports it. *)
Definition czechRow : list JSValue :=
  [ JSString (Str.lit " Praha 1 "); JSString (Str.lit "12,5");
    JSString (Str.lit "1 234,56"); JSString (Str.lit "0,25") ].

(** The figures ingested for "A" in [scenarioWorld]. *)
Definition scenarioFigures : CalculationResult :=
  {| branchName := Str.lit "A";
     revenueRR := 10;
     planAsrServicesRevenue := 50;
     serviceAsistRevenue := 200;
     daysRemaining := 12;
     weekdaysRemaining := 8;
     weekendsRemaining := 4;
     isTodayWeekend := true;
     finalValue := 0;
     rawRow := [ JSString (Str.lit "A"); JSNumber 10; JSNumber 200; JSNumber 50 ] |}.

(** [scenarioWorld] after the user has typed 250 for the achieved revenue. *)
Definition overriddenWorld : World :=
  exec (App.handleUpdateOverride App.field_serviceAsistRevenue 250) scenarioWorld.

(** A report with two different branches. *)
Definition distinctRows : list (list JSValue) :=
  [ [ JSString (Str.lit "A"); JSNumber 1; JSNumber 1; JSNumber 1 ];
    [ JSString (Str.lit "B"); JSNumber 2; JSNumber 2; JSNumber 2 ] ].

(** The leap day of the year 0, which the [Date] constructor reads as a
    day of 1900. *)
Definition world_0000_02_29 : World := worldAt (localNoon 0 1 29) (App.initialState ∅).

(** * The rest of the program *)

(** ** More built-ins of ECMA-262: [parseInt], [Math.max], [Math.min] *)

Module MathLib.
Import Str Num.

(** The value of a digit of radix up to 36. *)
Definition digitValue (c : char16) : option Z :=
  if isDigit c then Some (Z.of_N c - 48)
  else if ((97 <=? c) && (c <=? 122))%N then Some (Z.of_N c - 87)
  else if ((65 <=? c) && (c <=? 90))%N then Some (Z.of_N c - 55)
  else None.

(** Reads a run of digits of radix [R]: its value after [acc] and its
    length after [n]. *)
Fixpoint readRadixDigits (R : Z) (s : jsstring) (acc n : Z) : Z * Z :=
  match s with
  | c :: r =>
      match digitValue c with
      | Some v => if v <? R then readRadixDigits R r (R * acc + v) (n + 1) else (acc, n)
      | None => (acc, n)
      end
  | [] => (acc, n)
  end.

(** [parseInt(string)], without a radix: leading white space and a sign are
    skipped, a prefix [0x] selects radix 16, and the digits up to the first
    other character are read; [NaN] when there is none.  The integer is
    converted exactly (ECMA-262 lets an implementation replace the digits
    after the 20th by zeros). *)
Definition parseInt (input : jsstring) : float :=
  let s := trimStart input in
  let '(neg, s) :=
    match s with
    | 45%N :: r => (true, r)
    | 43%N :: r => (false, r)
    | _ => (false, s)
    end in
  let '(R, s) :=
    match s with
    | 48%N :: 120%N :: r => (16, r)
    | 48%N :: 88%N :: r => (16, r)
    | _ => (10, s)
    end in
  let '(mathInt, n) := readRadixDigits R s 0 0 in
  if n =? 0 then nan
  else if mathInt =? 0 then signed neg 0%float
  else signed neg (ofZ mathInt).

Definition isPositiveZero (x : float) : bool := is_zero x && negb (get_sign x).
Definition isNegativeZero (x : float) : bool := is_zero x && get_sign x.

(** [Math.max(...args)] *)
Definition Math_max (args : list float) : float :=
  if existsb isNaN args then nan
  else
    fold_left
      (fun highest number =>
         if isPositiveZero number && isNegativeZero highest then number
         else if (highest <? number)%float then number
         else highest)
      args neg_infinity.

(** [Math.min(...args)] *)
Definition Math_min (args : list float) : float :=
  if existsb isNaN args then nan
  else
    fold_left
      (fun lowest number =>
         if isNegativeZero number && isPositiveZero lowest then number
         else if (number <? lowest)%float then number
         else lowest)
      args infinity.

End MathLib.

(** ** Array methods: [findIndex], the values of a [Set] of strings, and
    [sort] with the default order of strings *)

Module ArrayLib.

(** [array.findIndex(p)], counting from [i]: -1 when no element satisfies
    [p]. *)
Fixpoint findIndex {A : Type} (p : A -> bool) (array : list A) (i : Z) : Z :=
  match array with
  | [] => -1
  | x :: rest => if p x then i else findIndex p rest (i + 1)
  end.

(** [Array.from(new Set(array))]: the strings of [array], each once, in the
    order of their first occurrence. *)
Definition Set_values (array : list jsstring) : list jsstring :=
  fold_left (fun set x => if bool_decide (x ∈ set) then set else set ++ [x]) array [].

(** [a < b] on strings: the order of the code units. *)
Fixpoint lessThan (a b : jsstring) : bool :=
  match a, b with
  | _, [] => false
  | [], _ :: _ => true
  | x :: a', y :: b' =>
      if (x <? y)%N then true
      else if (y <? x)%N then false
      else lessThan a' b'
  end.

Fixpoint sort_insert (x : jsstring) (sorted : list jsstring) : list jsstring :=
  match sorted with
  | [] => [x]
  | y :: rest => if lessThan x y then x :: sorted else y :: sort_insert x rest
  end.

(** [array.sort()] on strings.  The result is the one ascending arrangement
    of the elements, whatever algorithm the engine runs; here, insertion. *)
Definition sort (array : list jsstring) : list jsstring :=
  fold_left (fun sorted x => sort_insert x sorted) array [].

End ArrayLib.

(** ** [src/App.tsx]: the derived values, handlers and effects outside the
    calculation *)

Module AppView.
Import Str Num Val MathLib ArrayLib App.
Local Open Scope float_scope.

(** [availableBranches] *)
Definition availableBranches (s : AppState) : list jsstring :=
  sort (Set_values (map branchName (allCalculations s))).

(** The effect that stores the weekend weight when it has changed. *)
Definition useEffect_weekendWeight : Eff unit :=
  s ← getState;
  localStorage_setItem (lit "weekendWeight") (Number_toString (weekendWeight s)).

(** [onChange] of the weekend-weight input, on the text [value] of the
    input. *)
Definition weekendWeight_onChange (value : jsstring) : Eff unit :=
  let val := parseInt value in
  if negb (isNaN val) then setWeekendWeight (val / 100) else mret tt.

(** The [value] shown in the weekend-weight input, and the percentage shown
    beside the weekend days. *)
Definition weekendWeight_percent (s : AppState) : float :=
  Math_round (weekendWeight s * 100).

(** The percentage shown as the loss of the weekends. *)
Definition weekendLoss_percent (s : AppState) : float :=
  Math_round ((1 - weekendWeight s) * 100).

(** The number shown as the target of a weekday, before
    [toLocaleString]. *)
Definition displayedTarget (filteredResult : CalculationResult) : float :=
  Math_max [0; Math_round (finalValue filteredResult)].

(** The number shown as the target of today when today is a weekend day. *)
Definition displayedWeekendTarget (filteredResult : CalculationResult) (s : AppState) : float :=
  Math_max [0; Math_round (finalValue filteredResult * weekendWeight s)].

(** The width of the progress bar, in per cent. *)
Definition progressBarWidth (stats : ProgressStats) : float :=
  Math_min [percent stats; 100].

(** The state of a [ValueRow]. *)
Record ValueRowState : Type := {
  isEditing : bool;
  tempValue : jsstring
}.

(** [handleFinishEdit] of a [ValueRow] with the props [value] and
    [onValueChange] ([None] when the prop is not given). *)
Definition ValueRow_handleFinishEdit (value : float)
    (onValueChange : option (float -> Eff unit)) (st : ValueRowState) : Eff ValueRowState :=
  let num := parseFloat (replaceFirst 44%N 46%N (removeWhiteSpace (tempValue st))) in
  if negb (isNaN num) then
    match onValueChange with
    | Some f => f num
    | None => mret tt
    end;;
    mret {| isEditing := false; tempValue := tempValue st |}
  else
    mret {| isEditing := false; tempValue := Number_toString value |}.

(** The two editable rows of the result card. *)
Definition editRevenueRR (filteredResult : CalculationResult) (st : ValueRowState)
    : Eff ValueRowState :=
  ValueRow_handleFinishEdit (revenueRR filteredResult)
    (Some (handleUpdateOverride field_revenueRR)) st.

Definition editServiceAsistRevenue (filteredResult : CalculationResult) (st : ValueRowState)
    : Eff ValueRowState :=
  ValueRow_handleFinishEdit (serviceAsistRevenue filteredResult)
    (Some (handleUpdateOverride field_serviceAsistRevenue)) st.

(** The result card is rendered when [filteredResult && !isProcessing]. *)
Definition showsResult : Eff bool :=
  r ← filteredResult;
  s ← getState;
  mret (match r with Some _ => negb (isProcessing s) | None => false end).

End AppView.

(** ** The header row of the sheet *)

Section HeaderLookup.
Import Str Num Val ArrayLib.

(** [String.prototype.toLowerCase], whose case tables are Unicode's: taken
    as given. *)
Variable toLowerCase : jsstring -> jsstring.

(** [findColIndex], on the header row [rows[4]]. *)
Definition findColIndex (headerRow : list JSValue) (names : list jsstring) : Z :=
  findIndex
    (fun cell =>
       ToBoolean cell
       && existsb (fun name =>
                     bool_decide (trim (toLowerCase (ToString cell))
                                  = trim (toLowerCase name)))
                  names)
    headerRow 0.

(** "Pobočka" *)
Definition name_Pobocka : jsstring := [80; 111; 98; 111; 269; 107; 97]%N.

(** The handler [reader.onload] of [processFile], on the rows
    [XLSX.utils.sheet_to_json] returned. *)
Definition processFile_onload (name : jsstring) (rows : list (list JSValue)) : Eff unit :=
  let headerRow := default [] (rows !! 4%nat) in
  App.processFile name rows
    (findColIndex headerRow [lit "BranchName"; name_Pobocka])
    (findColIndex headerRow [lit "Revenue RR"])
    (findColIndex headerRow [lit "Service Asist Revenue"])
    (findColIndex headerRow [lit "Plan ASR Services/Revenue"]).

End HeaderLookup.

(** Lower case of the letters A to Z only, for the examples. *)
Definition asciiLowerCase (s : jsstring) : jsstring :=
  map (fun c => if ((65 <=? c) && (c <=? 90))%N then (c + 32)%N else c) s.

(** * More vocabulary *)

(** A value of the override set is a number when it is there: not [NaN]. *)
Definition isNumber (v : option float) : Prop :=
  match v with
  | Some x => Num.isNaN x = false
  | None => True
  end.

Definition overridesAreNumbers (s : AppState) : Prop :=
  map_Forall (fun _ entry => isNumber (Override.serviceAsistRevenue entry)
                             /\ isNumber (Override.revenueRR entry))
             (manualOverrides s).

(** The field of an override entry. *)
Definition Override_get (field : App.OverrideField) (entry : Override.t) : option float :=
  match field with
  | App.field_serviceAsistRevenue => Override.serviceAsistRevenue entry
  | App.field_revenueRR => Override.revenueRR entry
  end.

(** * Properties *)

(** ** Calendar arithmetic *)

Module DateFacts.
Import ES dateUtils.

Ltac dlia := Z.to_euclidean_division_equations; lia.

Ltac case_tests :=
  repeat match goal with
  | |- context [?a <? ?b] => destruct (Z.ltb_spec a b)
  | |- context [?a <=? ?b] => destruct (Z.leb_spec a b)
  | |- context [?a =? ?b] => destruct (Z.eqb_spec a b)
  end; cbn [negb andb orb].


Lemma DayFromYear_succ y : DayFromYear (y + 1) = DayFromYear y + DaysInYear y.
Proof. unfold DayFromYear, DaysInYear. case_tests; dlia. Qed.

Lemma DayFromYear_mono a b : a <= b -> DayFromYear a <= DayFromYear b.
Proof. unfold DayFromYear. dlia. Qed.

Lemma YearFromDay_spec d :
  DayFromYear (YearFromDay d) <= d < DayFromYear (YearFromDay d + 1).
Proof.
  unfold YearFromDay; cbv zeta. case_tests; unfold DayFromYear in *; dlia.
Qed.

Lemma YearFromDay_unique d y :
  DayFromYear y <= d < DayFromYear (y + 1) -> YearFromDay d = y.
Proof.
  intros H. pose proof (YearFromDay_spec d) as S.
  destruct (Z.lt_trichotomy (YearFromDay d) y) as [L | [E | G]]; [| exact E |].
  - pose proof (DayFromYear_mono (YearFromDay d + 1) y ltac:(lia)). lia.
  - pose proof (DayFromYear_mono (y + 1) (YearFromDay d) ltac:(lia)). lia.
Qed.

Lemma DaysInYear_leap y : DaysInYear y = if Gregorian.isLeapYear y then 366 else 365.
Proof. unfold DaysInYear, Gregorian.isLeapYear. case_tests; reflexivity || lia. Qed.

Lemma Day_MakeDate d : Day (MakeDate d 0) = d.
Proof. unfold Day, MakeDate, msPerDay. dlia. Qed.


Lemma DayFromYear_by_prev y :
  DayFromYear y = 365 * (y - 1970) + ((y - 1) / 4 - 492) - ((y - 1) / 100 - 19) + ((y - 1) / 400 - 4).
Proof. unfold DayFromYear. dlia. Qed.

Lemma DayFromYear_leap_start y :
  DayFromYear y + (if Gregorian.isLeapYear y then 1 else 0)
  = 365 * (y - 1970) + (y / 4 - 492) - (y / 100 - 19) + (y / 400 - 4).
Proof. unfold DayFromYear, Gregorian.isLeapYear. case_tests; dlia. Qed.

Lemma century_split x :
  x mod 100 = x - 100 * (x / 100)
  /\ (x - 100 * (x / 100)) / 4 = x / 4 - 25 * (x / 100)
  /\ (x / 100) / 4 = x / 400.
Proof. dlia. Qed.

Lemma dayOfWeek_MakeDay y m d :
  0 <= m <= 11 -> (MakeDay y m d + 4) mod 7 = Gregorian.dayOfWeek y m d.
Proof.
  intros Hm. unfold MakeDay, Gregorian.dayOfWeek. cbv zeta.
  replace (m / 12) with 0 by dlia. replace (m mod 12) with m by dlia.
  rewrite Z.add_0_r, DaysInYear_leap.
  destruct (Z.ltb_spec m 2) as [Hlt | Hge]; cbv iota.
  - destruct (century_split (y - 1)) as (-> & -> & ->).
    rewrite DayFromYear_by_prev.
    assert (m = 0 \/ m = 1) as [-> | ->] by lia; cbn [monthStart].
    all: generalize ((y - 1) / 4) ((y - 1) / 100) ((y - 1) / 400); intros.
    all: dlia.
  - destruct (century_split y) as (-> & -> & ->).
    assert (DayFromYear y + monthStart m (if (if Gregorian.isLeapYear y then 366 else 365) =? 366 then 1 else 0)
            = 365 * (y - 1970) + (y / 4 - 492) - (y / 100 - 19) + (y / 400 - 4) + monthStart m 0) as ->.
    { rewrite <- DayFromYear_leap_start.
      assert (m = 2 \/ m = 3 \/ m = 4 \/ m = 5 \/ m = 6 \/ m = 7 \/ m = 8 \/ m = 9 \/ m = 10 \/ m = 11) as C by lia.
      decompose [or] C; subst m; cbn [monthStart]; destruct (Gregorian.isLeapYear y); cbn; lia. }
    assert (m = 2 \/ m = 3 \/ m = 4 \/ m = 5 \/ m = 6 \/ m = 7 \/ m = 8 \/ m = 9 \/ m = 10 \/ m = 11) as C by lia.
    decompose [or] C; subst m; cbn [monthStart].
    all: generalize (y / 4) (y / 100) (y / 400); intros; dlia.
Qed.

Lemma InLeapYear_leap t :
  InLeapYear t = if Gregorian.isLeapYear (YearFromTime t) then 1 else 0.
Proof. unfold InLeapYear. rewrite DaysInYear_leap. destruct (Gregorian.isLeapYear _); reflexivity. Qed.

Lemma DayWithinYear_range t :
  0 <= DayWithinYear t < (if Gregorian.isLeapYear (YearFromTime t) then 366 else 365).
Proof.
  unfold DayWithinYear, YearFromTime.
  pose proof (YearFromDay_spec (Day t)) as S.
  rewrite DayFromYear_succ, DaysInYear_leap in S. lia.
Qed.

Lemma MakeDay_in_year y m d :
  0 <= m <= 11 ->
  MakeDay y m d = DayFromYear y + monthStart m (if Gregorian.isLeapYear y then 1 else 0) + d - 1.
Proof.
  intros Hm. unfold MakeDay; cbv zeta.
  replace (m / 12) with 0 by dlia. replace (m mod 12) with m by dlia.
  rewrite Z.add_0_r, DaysInYear_leap. destruct (Gregorian.isLeapYear y); reflexivity.
Qed.

Ltac month_cases m :=
  let C := fresh "C" in
  assert (m = 0 \/ m = 1 \/ m = 2 \/ m = 3 \/ m = 4 \/ m = 5 \/ m = 6
          \/ m = 7 \/ m = 8 \/ m = 9 \/ m = 10 \/ m = 11) as C by lia;
  decompose [or] C; clear C; subst m.

Lemma decompose t :
  0 <= MonthFromTime t <= 11
  /\ 1 <= DateFromTime t <= Gregorian.daysInMonth (YearFromTime t) (MonthFromTime t)
  /\ Day t = MakeDay (YearFromTime t) (MonthFromTime t) (DateFromTime t).
Proof.
  assert (0 <= MonthFromTime t <= 11) as Hm.
  { unfold MonthFromTime; cbv zeta. case_tests; lia. }
  split; [exact Hm |]. rewrite MakeDay_in_year by exact Hm.
  pose proof (DayWithinYear_range t) as R.
  assert (Day t = DayFromYear (YearFromTime t) + DayWithinYear t) as -> by (unfold DayWithinYear; lia).
  unfold DateFromTime, MonthFromTime, Gregorian.daysInMonth in *; cbv zeta in *.
  rewrite InLeapYear_leap in *.
  generalize dependent (DayWithinYear t). intros dwy _ R.
  destruct (Gregorian.isLeapYear (YearFromTime t)); case_tests; cbn; lia.
Qed.

Lemma compose y m d t :
  0 <= m <= 11 -> 1 <= d <= Gregorian.daysInMonth y m -> Day t = MakeDay y m d ->
  YearFromTime t = y /\ MonthFromTime t = m /\ DateFromTime t = d.
Proof.
  intros Hm Hd E. rewrite MakeDay_in_year in E by exact Hm.
  assert (YearFromTime t = y) as Hy.
  { unfold YearFromTime. apply YearFromDay_unique.
    rewrite DayFromYear_succ, DaysInYear_leap, E.
    unfold Gregorian.daysInMonth in Hd.
    month_cases m; cbn [monthStart] in *; destruct (Gregorian.isLeapYear y); lia. }
  split; [exact Hy |].
  assert (DayWithinYear t = monthStart m (if Gregorian.isLeapYear y then 1 else 0) + d - 1) as W.
  { unfold DayWithinYear. rewrite Hy. lia. }
  unfold DateFromTime, MonthFromTime; cbv zeta.
  rewrite InLeapYear_leap, Hy, W. clear W E Hy.
  unfold Gregorian.daysInMonth in Hd.
  month_cases m; cbn [monthStart] in *; destruct (Gregorian.isLeapYear y); case_tests; cbn; lia.
Qed.

Lemma MakeDay_next_month_0 y m :
  0 <= m <= 11 -> MakeDay y (m + 1) 0 = MakeDay y m (Gregorian.daysInMonth y m).
Proof.
  intros Hm. rewrite (MakeDay_in_year y m) by exact Hm.
  destruct (Z.eq_dec m 11) as [-> | Hne].
  - unfold MakeDay; cbv zeta. change ((11 + 1) / 12) with 1. change ((11 + 1) mod 12) with 0.
    rewrite DayFromYear_succ, DaysInYear_leap. cbn [monthStart Gregorian.daysInMonth].
    destruct (Gregorian.isLeapYear y); lia.
  - rewrite MakeDay_in_year by lia. unfold Gregorian.daysInMonth.
    month_cases m; try lia;
      match goal with
      | |- context [monthStart ?a _] =>
          let v := eval vm_compute in a in change a with v
      end;
      cbn [monthStart]; destruct (Gregorian.isLeapYear y); lia.
Qed.





Lemma countDays_empty p from to : to < from -> countDays p from to = 0.
Proof.
  intros H. unfold countDays. rewrite seqZ_nil by lia. reflexivity.
Qed.

Lemma countDays_step p from to :
  from <= to ->
  countDays p from to = (if p from then 1 else 0) + countDays p (from + 1) to.
Proof.
  intros H. unfold countDays. rewrite (seqZ_cons from) by lia.
  replace (Z.pred (to - from + 1)) with (to - (from + 1) + 1) by lia.
  replace (Z.succ from) with (from + 1) by lia.
  cbn [List.filter]. destruct (p from); cbn [length]; lia.
Qed.

Lemma countDays_ext p q from to :
  (forall d, from <= d <= to -> p d = q d) -> countDays p from to = countDays q from to.
Proof.
  intros H. unfold countDays. f_equal. f_equal.
  apply List.filter_ext_in. intros d Hd.
  apply list_elem_of_In, elem_of_seqZ in Hd. apply H. lia.
Qed.

Lemma countDays_split p from to :
  countDays p from to + countDays (fun d => negb (p d)) from to = Z.max 0 (to - from + 1).
Proof.
  unfold countDays. generalize (length_seqZ from (to - from + 1)).
  generalize (seqZ from (to - from + 1)). intros l Hl.
  assert (length (List.filter p l) + length (List.filter (fun d => negb (p d)) l) = length l)%nat.
  { clear Hl. induction l as [| a l IH]; [reflexivity |]. cbn [List.filter].
    destruct (p a); cbn [negb length]; lia. }
  lia.
Qed.

(** The executable definitions meet the wording of ECMA-262: the year of a
    time value is the largest year that starts at or before it, and
    [MakeDay] counts from the first day of the month it is given. *)
Lemma YearFromTime_largest t :
  TimeFromYear (YearFromTime t) <= t
  /\ forall y, TimeFromYear y <= t -> y <= YearFromTime t.
Proof.
  unfold TimeFromYear, YearFromTime.
  pose proof (YearFromDay_spec (Day t)) as [Lo Hi]. unfold Day, msPerDay in *.
  split.
  - pose proof (Z.mul_div_le t 86400000 ltac:(lia)). nia.
  - intros y Hy.
    assert (DayFromYear y <= t / 86400000) as Hd
      by (apply Z.div_le_lower_bound; lia).
    destruct (Z_le_gt_dec y (YearFromDay (t / 86400000))) as [L | G]; [exact L |].
    pose proof (DayFromYear_mono (YearFromDay (t / 86400000) + 1) y ltac:(lia)). lia.
Qed.

Lemma MakeDay_first_of_month ym mn :
  0 <= mn <= 11 ->
  YearFromTime (MakeDate (MakeDay ym mn 1) 0) = ym
  /\ MonthFromTime (MakeDate (MakeDay ym mn 1) 0) = mn
  /\ DateFromTime (MakeDate (MakeDay ym mn 1) 0) = 1.
Proof.
  intros Hm. apply (compose ym mn 1); [exact Hm | | apply Day_MakeDate].
  unfold Gregorian.daysInMonth. month_cases mn; destruct (Gregorian.isLeapYear ym); lia.
Qed.

Lemma getRemainingDaysInfo_loop_counts year month lastDay d weekdays weekends :
  getRemainingDaysInfo_loop year month lastDay d weekdays weekends =
  (weekdays + countDays (fun x => negb (isWeekend (ES.getDay (ES.Date_new year month x)))) d lastDay,
   weekends + countDays (fun x => isWeekend (ES.getDay (ES.Date_new year month x))) d lastDay).
Proof.
  funelim (getRemainingDaysInfo_loop year month lastDay d weekdays weekends).
  - rewrite !(countDays_step _ d lastDay) by lia.
    fold (isWeekend (ES.getDay (ES.Date_new year month d))).
    fold (isWeekend (ES.getDay (ES.Date_new year month d))) in Heqcall.
    destruct (isWeekend (ES.getDay (ES.Date_new year month d))); cbn [negb].
    + match goal with
      | IH : getRemainingDaysInfo_loop _ _ _ _ _ _ = (_, _) |- _ => rewrite IH
      end.
      f_equal; lia.
    + match goal with
      | IH : getRemainingDaysInfo_loop _ _ _ _ _ _ = (_, _) |- _ => rewrite IH
      end.
      f_equal; lia.
  - rewrite !countDays_empty by lia. f_equal; lia.
Qed.

Lemma Day_Date_new year month d :
  twoDigitYear year = false -> Day (Date_new year month d) = MakeDay year month d.
Proof.
  unfold twoDigitYear, Date_new. intros ->. cbv zeta iota.
  change (MakeTime 0 0 0 0) with 0. apply Day_MakeDate.
Qed.

Lemma getDay_Date_new year month d :
  twoDigitYear year = false -> 0 <= month <= 11 ->
  getDay (Date_new year month d) = Gregorian.dayOfWeek year month d.
Proof.
  intros Hy Hm. unfold getDay, WeekDay. rewrite Day_Date_new by exact Hy.
  apply dayOfWeek_MakeDay, Hm.
Qed.

Lemma getDay_dayOfWeek now :
  getDay now = Gregorian.dayOfWeek (getFullYear now) (getMonth now) (getDate now).
Proof.
  destruct (decompose now) as (Hm & _ & E).
  unfold getDay, WeekDay, getFullYear, getMonth, getDate. rewrite E.
  apply dayOfWeek_MakeDay, Hm.
Qed.

Lemma lastDay_daysInMonth now :
  twoDigitYear (getFullYear now) = false ->
  getDate (Date_new (getFullYear now) (getMonth now + 1) 0)
  = Gregorian.daysInMonth (getFullYear now) (getMonth now).
Proof.
  intros Hy. destruct (decompose now) as (Hm & Hd & _).
  unfold getFullYear, getMonth, getDate in *.
  eapply (compose (YearFromTime now) (MonthFromTime now)); [exact Hm | lia |].
  rewrite Day_Date_new by exact Hy. apply MakeDay_next_month_0, Hm.
Qed.


Lemma dayOfWeek_range y m d : 0 <= Gregorian.dayOfWeek y m d < 7.
Proof. unfold Gregorian.dayOfWeek; cbv zeta. apply Z.mod_pos_bound. lia. Qed.

Lemma isWeekday_not_isWeekend y m d :
  negb (isWeekend (Gregorian.dayOfWeek y m d)) = isWeekday (Gregorian.dayOfWeek y m d).
Proof.
  pose proof (dayOfWeek_range y m d) as R. unfold isWeekend, isWeekday.
  case_tests; reflexivity || lia.
Qed.

Lemma countDays_week y m from to :
  countDays (fun d => isWeekday (Gregorian.dayOfWeek y m d)) from to
  + countDays (fun d => isWeekend (Gregorian.dayOfWeek y m d)) from to
  = Z.max 0 (to - from + 1).
Proof.
  rewrite <- (countDays_split (fun d => isWeekend (Gregorian.dayOfWeek y m d)) from to).
  rewrite Z.add_comm. f_equal. apply countDays_ext. intros d _.
  symmetry. apply isWeekday_not_isWeekend.
Qed.

Lemma getRemainingDaysInfo_spec w :
  twoDigitYear (getFullYear (clock w)) = false ->
  getRemainingDaysInfo w = (remainingDays (clock w), w).
Proof.
  intros Hy. unfold getRemainingDaysInfo, remainingDays, mbind, Eff_bind, Date_now, mret, Eff_ret.
  cbv zeta. rewrite getRemainingDaysInfo_loop_counts, lastDay_daysInMonth by exact Hy.
  destruct (decompose (clock w)) as (Hm & _ & _).
  rewrite getDay_dayOfWeek, !Z.add_0_l.
  f_equal. f_equal.
  - apply countDays_ext. intros d _.
    rewrite getDay_Date_new by assumption. apply isWeekday_not_isWeekend.
  - apply countDays_ext. intros d _. rewrite getDay_Date_new by assumption. reflexivity.
Qed.

(** The result depends on the clock through its local calendar day only. *)
Lemma getRemainingDaysInfo_day w1 w2 :
  Day (clock w1) = Day (clock w2) ->
  run getRemainingDaysInfo w1 = run getRemainingDaysInfo w2.
Proof.
  intros E.
  assert (getFullYear (clock w1) = getFullYear (clock w2)) as Ey
    by (unfold getFullYear, YearFromTime; rewrite E; reflexivity).
  assert (DayWithinYear (clock w1) = DayWithinYear (clock w2)) as Ew
    by (unfold DayWithinYear; unfold getFullYear in Ey; rewrite E, Ey; reflexivity).
  assert (InLeapYear (clock w1) = InLeapYear (clock w2)) as El
    by (unfold InLeapYear; unfold getFullYear in Ey; rewrite Ey; reflexivity).
  assert (getMonth (clock w1) = getMonth (clock w2)) as Em
    by (unfold getMonth, MonthFromTime; rewrite Ew, El; reflexivity).
  assert (getDate (clock w1) = getDate (clock w2)) as Ed
    by (unfold getDate, DateFromTime; unfold getMonth in Em; rewrite Ew, El, Em; reflexivity).
  assert (getDay (clock w1) = getDay (clock w2)) as Eg
    by (unfold getDay, WeekDay; rewrite E; reflexivity).
  unfold run, getRemainingDaysInfo, mbind, Eff_bind, Date_now, mret, Eff_ret.
  cbv zeta. rewrite Ey, Em, Ed, Eg.
  destruct (getRemainingDaysInfo_loop _ _ _ _ _ _). reflexivity.
Qed.

Lemma getRemainingDaysInfo_pure w : exec getRemainingDaysInfo w = w.
Proof.
  unfold exec, getRemainingDaysInfo, mbind, Eff_bind, Date_now, mret, Eff_ret. cbv zeta.
  destruct (getRemainingDaysInfo_loop _ _ _ _ _ _). reflexivity.
Qed.

End DateFacts.

(** ** The Calendar Analyzer *)

Module CalendarAnalyzer.
Import ES dateUtils DateFacts.
Import RemainingDaysInfo.

(** C2: for every reference date (a clock reading outside the two-digit
    years), the returned record satisfies [weekdays + weekends = total] and
    [total = (lastDayOfMonth - currentDayOfMonth) + 1], where [weekdays]
    counts the days from the reference day to the end of the month that fall
    on Monday to Friday, and [weekends] those that fall on Saturday or
    Sunday. *)
Theorem remaining_days_partition (w : World) :
  let now := clock w in
  let info := run getRemainingDaysInfo w in
  let year := getFullYear now in
  let month := getMonth now in
  let currentDayOfMonth := getDate now in
  let lastDayOfMonth := Gregorian.daysInMonth year month in
  twoDigitYear year = false ->
  weekdays info + weekends info = total info
  /\ total info = (lastDayOfMonth - currentDayOfMonth) + 1
  /\ weekdays info
     = countDays (fun d => isWeekday (Gregorian.dayOfWeek year month d))
                 currentDayOfMonth lastDayOfMonth
  /\ weekends info
     = countDays (fun d => isWeekend (Gregorian.dayOfWeek year month d))
                 currentDayOfMonth lastDayOfMonth.
Proof.
  intros now info year month currentDayOfMonth lastDayOfMonth Hy.
  subst info. unfold run. rewrite getRemainingDaysInfo_spec by exact Hy.
  cbn [fst remainingDays total weekdays weekends].
  fold now year month currentDayOfMonth lastDayOfMonth.
  split; [| repeat split; reflexivity].
  destruct (decompose now) as (_ & Hd & _).
  fold (getFullYear now) (getMonth now) (getDate now) in Hd.
  fold year month currentDayOfMonth lastDayOfMonth in Hd.
  pose proof (countDays_week year month currentDayOfMonth lastDayOfMonth) as S.
  lia.
Qed.

Lemma remaining_days_partition_witness :
  twoDigitYear (getFullYear (clock world_2024_02_10)) = false
  /\ (let info := run getRemainingDaysInfo world_2024_02_10 in
      weekdays info + weekends info = total info
      /\ total info = (29 - 10) + 1
      /\ weekdays info = 14
      /\ weekends info = 6).
Proof.
  split; [reflexivity |].
  apply (remaining_days_partition world_2024_02_10). reflexivity.
Defined.

(** C10: for every reference date (a clock reading outside the two-digit
    years) the returned [total] is at least 1, so the Calendar Analyzer
    never returns a record with [weekdays = 0] and [weekends = 0]. *)
Theorem total_at_least_one (w : World) :
  let info := run getRemainingDaysInfo w in
  twoDigitYear (getFullYear (clock w)) = false ->
  1 <= total info /\ ~ (weekdays info = 0 /\ weekends info = 0).
Proof.
  intros info Hy. subst info. unfold run. rewrite getRemainingDaysInfo_spec by exact Hy.
  cbn [fst remainingDays total weekdays weekends].
  destruct (decompose (clock w)) as (_ & Hd & _).
  unfold getFullYear, getMonth, getDate.
  split; [lia |]. intros [H0 H1].
  pose proof (countDays_week (YearFromTime (clock w)) (MonthFromTime (clock w))
                (DateFromTime (clock w))
                (Gregorian.daysInMonth (YearFromTime (clock w)) (MonthFromTime (clock w)))) as S.
  lia.
Qed.

Lemma total_at_least_one_witness :
  twoDigitYear (getFullYear (clock world_2023_02_10)) = false
  /\ (let info := run getRemainingDaysInfo world_2023_02_10 in
      1 <= total info /\ ~ (weekdays info = 0 /\ weekends info = 0)).
Proof.
  split; [reflexivity |].
  apply (total_at_least_one world_2023_02_10). reflexivity.
Defined.

(** Why the two-digit years are set apart: on the leap day of the year 0
    the month length is that of February 1900, and no day is left. *)
Remark leap_day_of_year_0 :
  twoDigitYear (getFullYear (clock world_0000_02_29)) = true
  /\ (getFullYear (clock world_0000_02_29), getMonth (clock world_0000_02_29),
      getDate (clock world_0000_02_29)) = (0, 1, 29)
  /\ total (run getRemainingDaysInfo world_0000_02_29) = 0.
Proof. vm_compute. repeat split; reflexivity. Qed.

(** C6: the month length the Calendar Analyzer uses follows the Gregorian
    leap-year rule: for a reference date in February the last day of the
    month (and with it [total]) is 29 in a leap year, such as 2024, and 28
    otherwise, as in 2023. *)
Theorem february_length (w : World) :
  let now := clock w in
  let lastDay := getDate (Date_new (getFullYear now) (getMonth now + 1) 0) in
  twoDigitYear (getFullYear now) = false ->
  getMonth now = 1 ->
  lastDay = (if Gregorian.isLeapYear (getFullYear now) then 29 else 28)
  /\ total (run getRemainingDaysInfo w) = (lastDay - getDate now) + 1
  /\ (getFullYear now = 2024 -> lastDay = 29)
  /\ (getFullYear now = 2023 -> lastDay = 28).
Proof.
  intros now lastDay Hy Hm.
  assert (lastDay = if Gregorian.isLeapYear (getFullYear now) then 29 else 28) as E.
  { subst lastDay. rewrite lastDay_daysInMonth by exact Hy. rewrite Hm. reflexivity. }
  split; [exact E |]. split.
  - unfold run. rewrite getRemainingDaysInfo_spec by exact Hy.
    cbn [fst remainingDays total]. fold now. rewrite E, Hm. reflexivity.
  - split; intros Y; rewrite E, Y; reflexivity.
Qed.

Lemma february_length_witness :
  (twoDigitYear (getFullYear (clock world_2024_02_10)) = false
   /\ getMonth (clock world_2024_02_10) = 1)
  /\ getDate (Date_new (getFullYear (clock world_2024_02_10))
                       (getMonth (clock world_2024_02_10) + 1) 0) = 29
  /\ total (run getRemainingDaysInfo world_2024_02_10) = 20.
Proof.
  split; [split; reflexivity |].
  destruct (february_length world_2024_02_10 eq_refl eq_refl) as (E & T & _).
  split; [exact E | exact T].
Defined.

(** C5, as the code has it: [getRemainingDaysInfo] takes no argument; it
    reads the reference date from the clock, changes nothing, and its result
    depends on the clock through the local calendar day only: two
    evaluations on the same local day return the same record. *)
Theorem calendar_reads_clock_day_only (w1 w2 : World) :
  Day (clock w1) = Day (clock w2) ->
  run getRemainingDaysInfo w1 = run getRemainingDaysInfo w2
  /\ exec getRemainingDaysInfo w1 = w1.
Proof.
  intros E. split; [apply getRemainingDaysInfo_day, E | apply getRemainingDaysInfo_pure].
Qed.

Lemma calendar_reads_clock_day_only_witness :
  Day (clock world_2024_02_10) = Day (clock (worldAt (clock world_2024_02_10 + 3600000) (app world_2023_02_10)))
  /\ run getRemainingDaysInfo world_2024_02_10
     = run getRemainingDaysInfo (worldAt (clock world_2024_02_10 + 3600000) (app world_2023_02_10)).
Proof.
  split; [reflexivity |].
  apply (calendar_reads_clock_day_only world_2024_02_10
           (worldAt (clock world_2024_02_10 + 3600000) (app world_2023_02_10))).
  reflexivity.
Defined.

(** C5, as stated: the result would be the same whatever the world, since
    the function has no input; it is not. *)
Lemma calendar_without_input_counterexample :
  run getRemainingDaysInfo world_2024_02_10 <> run getRemainingDaysInfo world_2023_02_10.
Proof. vm_compute. discriminate. Qed.

End CalendarAnalyzer.

(** ** The Target Calculator and override resolution *)

Module TargetCalculator.
Import Str Num Val App.
Local Open Scope float_scope.

Ltac unfold_eff :=
  unfold run, exec, mbind, Eff_bind, mret, Eff_ret, getState, setState in *.

(** [filteredResult] when a branch is selected and found. *)
Lemma filteredResult_found w b :
  selectedBranch (app w) <> [] ->
  baseData (app w) = Some b ->
  run filteredResult w =
  Some {| branchName := branchName b;
          revenueRR := nullish (branchOverrides (app w) ≫= Override.revenueRR) (revenueRR b);
          planAsrServicesRevenue := planAsrServicesRevenue b;
          serviceAsistRevenue :=
            nullish (branchOverrides (app w) ≫= Override.serviceAsistRevenue)
                    (serviceAsistRevenue b);
          daysRemaining := daysRemaining b;
          weekdaysRemaining := weekdaysRemaining b;
          weekendsRemaining := weekendsRemaining b;
          isTodayWeekend := isTodayWeekend b;
          finalValue :=
            recalculatedFinalValue
              (weightedDays (run dateUtils.getRemainingDaysInfo w) (weekendWeight (app w)))
              (remainingTotalRevenue
                 (nullish (branchOverrides (app w) ≫= Override.revenueRR) (revenueRR b))
                 (planAsrServicesRevenue b)
                 (nullish (branchOverrides (app w) ≫= Override.serviceAsistRevenue)
                          (serviceAsistRevenue b)));
          rawRow := rawRow b |}.
Proof.
  intros Hsel Hb. unfold baseData, branchOverrides in *.
  unfold filteredResult. unfold_eff. cbn [fst snd].
  destruct (selectedBranch (app w)) as [| c sel] eqn:Esel; [congruence |].
  cbn [ToBoolean negb]. rewrite Hb.
  destruct (dateUtils.getRemainingDaysInfo w) as [di w']. reflexivity.
Qed.

Lemma filteredResult_Some w r :
  run filteredResult w = Some r ->
  selectedBranch (app w) <> [] /\ exists b, baseData (app w) = Some b.
Proof.
  unfold baseData, filteredResult. unfold_eff. cbn [fst snd].
  destruct (selectedBranch (app w)) as [| c sel] eqn:Esel; cbn [ToBoolean negb fst].
  - discriminate.
  - destruct (List.find _ _) as [b |]; cbn [fst]; [| discriminate].
    intros _. split; [discriminate | eauto].
Qed.

(** C1: for every figures record, weekend weight and days record the target
    calculation computes [weightedDays = weekdays + weekendWeight * weekends],
    [targetTotal = revenueRR * planAsrServicesRevenue],
    [remainingGap = targetTotal - serviceAsistRevenue] and
    [finalValue = remainingGap / weightedDays] when [weightedDays > 0], and 0
    otherwise; [filteredResult] returns that [finalValue] for its effective
    figures; and the figures 10, 50, 200 with 8 weekdays, 4 weekend days and
    weight 0.6 give 500, 300, 10.4 and 300 / 10.4. *)
Theorem target_calculation
    (currentRevenueRR planAsr currentServiceAsist weight : float)
    (daysInfo : RemainingDaysInfo.t) (w : World) :
  let weighted := weightedDays daysInfo weight in
  let targetTotal := currentRevenueRR * planAsr in
  let remainingGap := remainingTotalRevenue currentRevenueRR planAsr currentServiceAsist in
  let final := recalculatedFinalValue weighted remainingGap in
  (weighted
   = ofZ (RemainingDaysInfo.weekdays daysInfo)
     + weight * ofZ (RemainingDaysInfo.weekends daysInfo)
   /\ remainingGap = targetTotal - currentServiceAsist
   /\ final = (if 0 <? weighted then remainingGap / weighted else 0))
  /\ match run filteredResult w with
     | Some r =>
         finalValue r
         = recalculatedFinalValue
             (weightedDays (run dateUtils.getRemainingDaysInfo w) (weekendWeight (app w)))
             (remainingTotalRevenue (revenueRR r) (planAsrServicesRevenue r)
                                    (serviceAsistRevenue r))
     | None => True
     end
  /\ ((10 * 50 = 500)%float
      /\ remainingTotalRevenue 10 50 200 = 300
      /\ weightedDays scenarioDays 0.6 = 10.4
      /\ recalculatedFinalValue 10.4 300 = 300 / 10.4)
  /\ (run dateUtils.getRemainingDaysInfo scenarioWorld = scenarioDays
      /\ finalValue <$> run filteredResult scenarioWorld = Some (300 / 10.4)).
Proof.
  cbv zeta. split; [repeat split |]. split.
  - destruct (run filteredResult w) as [r |] eqn:E; [| exact I].
    destruct (filteredResult_Some w r E) as (Hsel & b & Hb).
    rewrite (filteredResult_found w b Hsel Hb) in E.
    injection E as <-. reflexivity.
  - split; [repeat split |]; split; vm_compute; reflexivity.
Qed.

(** C3: for every figures record [percentComplete] is
    [(serviceAsistRevenue / targetTotal) * 100] when [targetTotal > 0] and 0
    otherwise, with no clamping to the range 0..100: a target of 1000 with
    1500 achieved gives exactly 150. *)
Theorem percent_complete_unclamped (r : CalculationResult) :
  let targetTotal := revenueRR r * planAsrServicesRevenue r in
  let stats := progressStats (Some r) in
  target stats = targetTotal
  /\ percent stats
     = (if 0 <? targetTotal then (serviceAsistRevenue r / targetTotal) * 100 else 0)
  /\ (targetTotal = 1000 -> serviceAsistRevenue r = 1500 -> percent stats = 150)
  /\ (targetTotal = 1000 -> serviceAsistRevenue r = -500 -> percent stats = -50)
  /\ progressStats (run filteredResult overTargetWorld) = {| percent := 150; target := 1000 |}.
Proof.
  cbv zeta. split; [reflexivity |]. split; [reflexivity |].
  split; [| split].
  - intros Ht Hs. cbn [progressStats percent]. rewrite Ht, Hs. reflexivity.
  - intros Ht Hs. cbn [progressStats percent]. rewrite Ht, Hs. reflexivity.
  - vm_compute. reflexivity.
Qed.

Lemma percent_complete_unclamped_witness :
  percent (progressStats (run filteredResult overTargetWorld)) = 150.
Proof.
  destruct (run filteredResult overTargetWorld) as [r |] eqn:E; [| vm_compute in E; discriminate].
  destruct (percent_complete_unclamped r) as (_ & _ & H & _ & _).
  apply H; vm_compute in E; injection E as <-; reflexivity.
Defined.

(** C4: for every selected branch of the loaded report, [filteredResult]
    takes [revenueRR] and [serviceAsistRevenue] from the override entry of
    that branch when the entry has the field and from the ingested figures
    otherwise, takes [planAsrServicesRevenue] from the ingested figures
    always, and computes the target from these effective figures. *)
Theorem override_resolution (w : World) (b : CalculationResult) :
  selectedBranch (app w) <> [] ->
  baseData (app w) = Some b ->
  exists r,
    run filteredResult w = Some r
    /\ revenueRR r
       = match branchOverrides (app w) ≫= Override.revenueRR with
         | Some v => v
         | None => revenueRR b
         end
    /\ serviceAsistRevenue r
       = match branchOverrides (app w) ≫= Override.serviceAsistRevenue with
         | Some v => v
         | None => serviceAsistRevenue b
         end
    /\ planAsrServicesRevenue r = planAsrServicesRevenue b
    /\ finalValue r
       = recalculatedFinalValue
           (weightedDays (run dateUtils.getRemainingDaysInfo w) (weekendWeight (app w)))
           (remainingTotalRevenue (revenueRR r) (planAsrServicesRevenue r)
                                  (serviceAsistRevenue r)).
Proof.
  intros Hsel Hb. eexists. split; [apply (filteredResult_found w b Hsel Hb) |].
  cbn [revenueRR serviceAsistRevenue planAsrServicesRevenue finalValue].
  unfold nullish. repeat split; reflexivity.
Qed.

Lemma override_resolution_witness :
  (selectedBranch (app overriddenWorld) <> []
   /\ baseData (app overriddenWorld) = Some scenarioFigures)
  /\ exists r,
      run filteredResult overriddenWorld = Some r
      /\ revenueRR r = 10
      /\ serviceAsistRevenue r = 250
      /\ planAsrServicesRevenue r = 50
      /\ finalValue r
         = recalculatedFinalValue (weightedDays scenarioDays 0.6)
                                  (remainingTotalRevenue 10 50 250).
Proof.
  split; [split; [vm_compute; discriminate | vm_compute; reflexivity] |].
  destruct (override_resolution overriddenWorld scenarioFigures) as (r & E & Hrr & Hs & Hp & Hf);
    [vm_compute; discriminate | vm_compute; reflexivity |].
  exists r. split; [exact E |]. split; [exact Hrr |]. split; [exact Hs |].
  split; [exact Hp |]. rewrite Hf, Hrr, Hs, Hp. vm_compute. reflexivity.
Defined.

(** [handleUpdateOverride] writes the override set and nothing else. *)
Lemma handleUpdateOverride_frame field v w :
  let w' := exec (handleUpdateOverride field v) w in
  clock w' = clock w
  /\ localStorage w' = localStorage w
  /\ allCalculations (app w') = allCalculations (app w)
  /\ selectedBranch (app w') = selectedBranch (app w)
  /\ weekendWeight (app w') = weekendWeight (app w).
Proof.
  cbv zeta. unfold handleUpdateOverride, setManualOverrides. unfold_eff. cbn [fst snd].
  destruct (selectedBranch (app w)) eqn:E; cbn; rewrite ?E; repeat split; reflexivity.
Qed.

Lemma handleUpdateOverride_entry field v w :
  selectedBranch (app w) <> [] ->
  branchOverrides (app (exec (handleUpdateOverride field v) w))
  = Some (Override_set field v (nullish (branchOverrides (app w)) Override.empty)).
Proof.
  intros Hsel. unfold branchOverrides, handleUpdateOverride, setManualOverrides.
  unfold_eff. cbn [fst snd].
  destruct (selectedBranch (app w)) as [| c sel] eqn:E; [congruence |].
  cbn [ToBoolean negb snd app manualOverrides selectedBranch]. rewrite ?E.
  apply lookup_insert_eq.
Qed.

Lemma getRemainingDaysInfo_clock w1 w2 :
  clock w1 = clock w2 ->
  run dateUtils.getRemainingDaysInfo w1 = run dateUtils.getRemainingDaysInfo w2.
Proof. intros E. apply DateFacts.getRemainingDaysInfo_day. rewrite E. reflexivity. Qed.

(** C8, as the code has it: for every selected branch of the loaded report
    and every value, an override of [serviceAsistRevenue] leaves the
    ingested figures as they were, and the next recomputation uses the
    value: it is the effective [serviceAsistRevenue], [finalValue] is
    [(revenueRR * plan - value) / weightedDays] when [weightedDays > 0] and 0
    otherwise, and [percentComplete] is [(value / target) * 100] when
    [target > 0] and 0 otherwise. *)
Theorem override_recomputation (w : World) (b : CalculationResult) (v : float) :
  selectedBranch (app w) <> [] ->
  baseData (app w) = Some b ->
  let w' := exec (handleUpdateOverride field_serviceAsistRevenue v) w in
  allCalculations (app w') = allCalculations (app w)
  /\ baseData (app w') = Some b
  /\ exists r r',
      run filteredResult w = Some r
      /\ run filteredResult w' = Some r'
      /\ serviceAsistRevenue r' = v
      /\ revenueRR r' = revenueRR r
      /\ planAsrServicesRevenue r' = planAsrServicesRevenue b
      /\ finalValue r'
         = recalculatedFinalValue
             (weightedDays (run dateUtils.getRemainingDaysInfo w) (weekendWeight (app w)))
             (remainingTotalRevenue (revenueRR r) (planAsrServicesRevenue b) v)
      /\ percent (progressStats (Some r'))
         = (if 0 <? revenueRR r * planAsrServicesRevenue b
            then (v / (revenueRR r * planAsrServicesRevenue b)) * 100
            else 0).
Proof.
  intros Hsel Hb w'.
  destruct (handleUpdateOverride_frame field_serviceAsistRevenue v w)
    as (Hc & _ & Ha & Hs & Hw). fold w' in Hc, Ha, Hs, Hw.
  assert (baseData (app w') = Some b) as Hb'
    by (unfold baseData in *; rewrite Ha, Hs; exact Hb).
  assert (selectedBranch (app w') <> []) as Hsel' by (rewrite Hs; exact Hsel).
  split; [exact Ha |]. split; [exact Hb' |].
  eexists. eexists.
  split; [apply (filteredResult_found w b Hsel Hb) |].
  split; [apply (filteredResult_found w' b Hsel' Hb') |].
  subst w'. rewrite (handleUpdateOverride_entry _ _ _ Hsel), Hw.
  rewrite (getRemainingDaysInfo_clock _ w Hc).
  cbn [serviceAsistRevenue revenueRR planAsrServicesRevenue finalValue progressStats percent].
  destruct (branchOverrides (app w)) as [e |]; cbn; repeat split; reflexivity.
Qed.

Lemma override_recomputation_witness :
  allCalculations (app overriddenWorld) = allCalculations (app scenarioWorld)
  /\ baseData (app overriddenWorld) = Some scenarioFigures.
Proof.
  destruct (override_recomputation scenarioWorld scenarioFigures 250) as (Ha & Hb & _);
    [vm_compute; discriminate | vm_compute; reflexivity |].
  split; [exact Ha | exact Hb].
Defined.

(** C8, as stated: every override of [serviceAsistRevenue] would change
    [finalValue] and [percentComplete].  In [guardedWorld] the override of
    100 by 200 changes neither. *)
Lemma override_without_change_counterexample :
  serviceAsistRevenue <$> run filteredResult guardedWorld = Some 100
  /\ serviceAsistRevenue
       <$> run filteredResult (exec (handleUpdateOverride field_serviceAsistRevenue 200) guardedWorld)
     = Some 200
  /\ finalValue
       <$> run filteredResult (exec (handleUpdateOverride field_serviceAsistRevenue 200) guardedWorld)
     = finalValue <$> run filteredResult guardedWorld
  /\ percent (progressStats
       (run filteredResult (exec (handleUpdateOverride field_serviceAsistRevenue 200) guardedWorld)))
     = percent (progressStats (run filteredResult guardedWorld)).
Proof. repeat split; vm_compute; reflexivity. Qed.

End TargetCalculator.

(** ** Report ingestion *)

Module Ingestion.
Import Str Num Val App.
Local Open Scope float_scope.

Lemma processFile_row_cases daysInfo cB cR cS cP results row :
  processFile_row daysInfo cB cR cS cP results row = results
  \/ exists c,
      processFile_row daysInfo cB cR cS cP results row = results ++ [c]
      /\ branchName c <> []
      /\ branchVal row cB = Some (branchName c).
Proof.
  unfold processFile_row.
  destruct (branchVal row cB) as [[| ch name] |]; [left; reflexivity | | left; reflexivity].
  destruct ((_ =? 0) && (_ =? 0)); [left; reflexivity |].
  right. eexists. split; [reflexivity |]. cbn [branchName]. split; [discriminate | reflexivity].
Qed.

Lemma processFile_rows_names daysInfo cB cR cS cP rows acc :
  exists added,
    fold_left (processFile_row daysInfo cB cR cS cP) rows acc = acc ++ added
    /\ Forall (fun c => branchName c <> []) added
    /\ sublist (map branchName added) (omap (fun row => branchVal row cB) rows).
Proof.
  revert acc. induction rows as [| row rows IH]; intros acc.
  - exists []. rewrite app_nil_r. repeat split; constructor.
  - cbn [fold_left omap list_omap].
    destruct (processFile_row_cases daysInfo cB cR cS cP acc row) as [-> | (c & -> & Hne & Hb)].
    + destruct (IH acc) as (added & -> & Hf & Hs).
      exists added. split; [reflexivity |]. split; [exact Hf |].
      destruct (branchVal row cB); [apply sublist_cons |]; exact Hs.
    + destruct (IH (acc ++ [c])) as (added & -> & Hf & Hs).
      exists (c :: added). rewrite <- app_assoc. split; [reflexivity |].
      split; [constructor; assumption |].
      rewrite Hb. cbn [map]. apply sublist_skip, Hs.
Qed.

Lemma processFile_loop_names daysInfo cB cR cS cP rows :
  Forall (fun c => branchName c <> []) (processFile_loop daysInfo cB cR cS cP rows)
  /\ sublist (map branchName (processFile_loop daysInfo cB cR cS cP rows))
             (sheetBranchNames cB rows).
Proof.
  unfold processFile_loop, sheetBranchNames.
  destruct (processFile_rows_names daysInfo cB cR cS cP (drop 5 rows) []) as (added & -> & Hf & Hs).
  split; assumption.
Qed.

Lemma exec_bind {A B : Type} (m : Eff A) (k : A -> Eff B) w :
  exec (m ≫= k) w = exec (k (run m w)) (exec m w).
Proof. unfold exec, run, mbind, Eff_bind. destruct (m w). reflexivity. Qed.

Lemma app_setState f w : app (exec (setState f) w) = f (app w).
Proof. reflexivity. Qed.

Lemma clock_setState f w : clock (exec (setState f) w) = clock w.
Proof. reflexivity. Qed.

Lemma localStorage_setState f w : localStorage (exec (setState f) w) = localStorage w.
Proof. reflexivity. Qed.

Lemma exec_localStorage_getItem key w : exec (localStorage_getItem key) w = w.
Proof. reflexivity. Qed.

Lemma run_localStorage_getItem key w :
  run (localStorage_getItem key) w = localStorage w !! key.
Proof. reflexivity. Qed.

Ltac setters :=
  unfold setIsProcessing, setError, setFileName, setAllCalculations,
    setManualOverrides, setSelectedBranch, setDefaultBranch, setWeekendWeight.

Ltac run_setters :=
  repeat first
    [ progress cbn [app clock localStorage allCalculations selectedBranch manualOverrides
                    isProcessing error fileName defaultBranch weekendWeight]
    | match goal with
      | |- context [exec (_ ≫= _) _] => rewrite exec_bind
      | |- context [exec (localStorage_getItem _) _] => rewrite exec_localStorage_getItem
      | |- context [run (localStorage_getItem _) _] => rewrite run_localStorage_getItem
      | |- context [exec dateUtils.getRemainingDaysInfo _] =>
          rewrite DateFacts.getRemainingDaysInfo_pure
      | |- context [app (exec (setState _) _)] => rewrite app_setState
      | |- context [clock (exec (setState _) _)] => rewrite clock_setState
      | |- context [localStorage (exec (setState _) _)] => rewrite localStorage_setState
      end ].

(** What [processFile] leaves in [allCalculations]. *)
Lemma processFile_allCalculations name rows cB cR cS cP w :
  allCalculations (app (exec (processFile name rows cB cR cS cP) w))
  = if ((Z.of_nat (length rows) <? 5)
        || ((cB =? -1) || (cR =? -1) || (cS =? -1) || (cP =? -1)))%Z
    then []
    else processFile_loop (run dateUtils.getRemainingDaysInfo w)
                          (Z.to_nat cB) (Z.to_nat cR) (Z.to_nat cS) (Z.to_nat cP) rows.
Proof.
  unfold processFile. setters. run_setters.
  destruct (Z.of_nat (length rows) <? 5)%Z; cbn [orb].
  { run_setters. reflexivity. }
  destruct ((cB =? -1) || (cR =? -1) || (cS =? -1) || (cP =? -1))%Z.
  { run_setters. reflexivity. }
  run_setters.
  match goal with
  | |- context [run dateUtils.getRemainingDaysInfo ?w'] =>
      rewrite (TargetCalculator.getRemainingDaysInfo_clock w' w)
        by (run_setters; reflexivity)
  end.
  destruct (localStorage w !! lit "defaultBranch") as [[| ch saved] |];
    run_setters; try reflexivity.
  all: match goal with
       | |- context [if ?c then _ else _] => destruct c
       end; run_setters; reflexivity.
Qed.

(** C9, as the code has it: after any report ingestion every entry of the
    produced list has a non-empty branch name, and the names are those of
    the data rows of the sheet, trimmed and in order; ingestion removes no
    duplicate, so the names are pairwise distinct when those of the sheet
    are. *)
Theorem ingested_branch_names
    (name : jsstring) (rows : list (list JSValue)) (cB cR cS cP : Z) (w : World) :
  let results := allCalculations (app (exec (processFile name rows cB cR cS cP) w)) in
  Forall (fun c => branchName c <> []) results
  /\ sublist (map branchName results) (sheetBranchNames (Z.to_nat cB) rows)
  /\ (NoDup (sheetBranchNames (Z.to_nat cB) rows) -> NoDup (map branchName results)).
Proof.
  cbv zeta. rewrite processFile_allCalculations.
  assert (Forall (fun c => branchName c <> [])
            (if ((Z.of_nat (length rows) <? 5)
                 || ((cB =? -1) || (cR =? -1) || (cS =? -1) || (cP =? -1)))%Z
             then []
             else processFile_loop (run dateUtils.getRemainingDaysInfo w)
                    (Z.to_nat cB) (Z.to_nat cR) (Z.to_nat cS) (Z.to_nat cP) rows)
          /\ sublist
               (map branchName
                  (if ((Z.of_nat (length rows) <? 5)
                       || ((cB =? -1) || (cR =? -1) || (cS =? -1) || (cP =? -1)))%Z
                   then []
                   else processFile_loop (run dateUtils.getRemainingDaysInfo w)
                          (Z.to_nat cB) (Z.to_nat cR) (Z.to_nat cS) (Z.to_nat cP) rows))
               (sheetBranchNames (Z.to_nat cB) rows)) as [Hf Hs].
  { destruct (_ || _)%Z.
    - split; [constructor | apply sublist_nil_l].
    - apply processFile_loop_names. }
  split; [exact Hf |]. split; [exact Hs |].
  intros Hn. eapply sublist_NoDup; eassumption.
Qed.

Lemma ingested_branch_names_witness :
  NoDup (sheetBranchNames 0 (sheet distinctRows))
  /\ NoDup (map branchName
              (allCalculations
                 (app (exec (processFile (lit "report.xlsx") (sheet distinctRows) 0 1 2 3)
                            world_2024_02_10)))).
Proof.
  assert (NoDup (sheetBranchNames 0 (sheet distinctRows))) as Hn
    by (apply (bool_decide_unpack _); vm_compute; exact I).
  split; [exact Hn |].
  destruct (ingested_branch_names (lit "report.xlsx") (sheet distinctRows) 0 1 2 3
              world_2024_02_10) as (_ & _ & H).
  apply H. exact Hn.
Defined.

(** C9, as stated: the branch names of the produced list would be pairwise
    distinct for every sheet.  A sheet that lists "A" twice gives two
    entries named "A". *)
Lemma duplicate_branch_names_counterexample :
  map branchName
      (allCalculations
         (app (exec (processFile (lit "report.xlsx") (sheet duplicateRows) 0 1 2 3)
                    world_2024_02_10)))
  = [lit "A"; lit "A"]
  /\ ~ NoDup (map branchName
                (allCalculations
                   (app (exec (processFile (lit "report.xlsx") (sheet duplicateRows) 0 1 2 3)
                              world_2024_02_10)))).
Proof.
  assert (map branchName
            (allCalculations
               (app (exec (processFile (lit "report.xlsx") (sheet duplicateRows) 0 1 2 3)
                          world_2024_02_10)))
          = [lit "A"; lit "A"]) as E by (vm_compute; reflexivity).
  split; [exact E |]. rewrite E. intros H.
  apply NoDup_cons in H as [H _]. apply H. left.
Qed.

(** The integer [Math_round] converts back is the nearest one to the
    argument [sm * 2^e], the larger one at a tie: it differs from it by at
    most a half. *)
Lemma roundHalfUp_nearest sm e :
  (e < 0)%Z ->
  (2 * sm - 2 ^ (- e) < 2 * roundHalfUp sm e * 2 ^ (- e) <= 2 * sm + 2 ^ (- e))%Z.
Proof.
  intros He. unfold roundHalfUp.
  replace (1 - e)%Z with (Z.succ (- e)) by lia. rewrite Z.pow_succ_r by lia.
  assert (0 < 2 ^ (- e))%Z as Hp by (apply Z.pow_pos_nonneg; lia).
  generalize dependent (2 ^ (- e))%Z. intros p Hp.
  pose proof (Z.div_mod (2 * sm + p) (2 * p) ltac:(lia)) as E.
  pose proof (Z.mod_pos_bound (2 * sm + p) (2 * p) ltac:(lia)) as B.
  nia.
Qed.

(** C7: for every raw cell value, [parseVal] returns a number as it is;
    gives 0 for an absent value; otherwise removes the white space, turns
    the decimal comma into a point and parses, giving 0 when the text does
    not parse.  The ingestion loop rounds [revenueRR] and
    [serviceAsistRevenue] with [Math.round] and keeps
    [planAsrServicesRevenue] as parsed, and it leaves out a row whose
    [revenueRR] and [planAsrServicesRevenue] are both 0. *)
Theorem numeric_ingestion
    (daysInfo : RemainingDaysInfo.t) (cB cR cS cP : nat)
    (results : list CalculationResult) (row : list JSValue) :
  (forall n, parseVal (JSNumber n) = n)
  /\ (parseVal JSUndefined = 0 /\ parseVal JSNull = 0 /\ parseVal (JSString []) = 0)
  /\ (forall val,
        match val with JSNumber _ => False | _ => ToBoolean val = true end ->
        let num := parseFloat (replaceFirst 44%N 46%N (removeWhiteSpace (ToString val))) in
        parseVal val = if isNaN num then 0 else num)
  /\ (let revRR := Math_round (parseVal (index row cR)) in
      let planAsr := parseVal (index row cP) in
      let serAsist := Math_round (parseVal (index row cS)) in
      ((revRR =? 0) && (planAsr =? 0) = true ->
       processFile_row daysInfo cB cR cS cP results row = results)
      /\ (forall name,
            branchVal row cB = Some name -> name <> [] ->
            (revRR =? 0) && (planAsr =? 0) = false ->
            exists c,
              processFile_row daysInfo cB cR cS cP results row = results ++ [c]
              /\ branchName c = name
              /\ revenueRR c = revRR
              /\ planAsrServicesRevenue c = planAsr
              /\ serviceAsistRevenue c = serAsist)).
Proof.
  split; [reflexivity |]. split; [repeat split |]. split.
  - intros [| | b | n | s] H; cbv zeta; try contradiction; try discriminate.
    + cbn in H. subst b. reflexivity.
    + unfold parseVal. rewrite H. reflexivity.
  - cbv zeta. split.
    + intros H. unfold processFile_row.
      destruct (branchVal row cB) as [[| ch name] |]; try reflexivity. rewrite H. reflexivity.
    + intros name Hb Hne H. unfold processFile_row. rewrite Hb.
      destruct name as [| ch name]; [congruence |]. rewrite H.
      eexists. split; [reflexivity |]. repeat split.
Qed.

Lemma numeric_ingestion_witness :
  parseVal (JSString (lit "1 234,56")) = 1234.56
  /\ exists c,
      processFile_row scenarioDays 0 1 2 3 [] czechRow = [c]
      /\ branchName c = lit "Praha 1"
      /\ revenueRR c = 13
      /\ planAsrServicesRevenue c = 0.25
      /\ serviceAsistRevenue c = 1235.
Proof.
  destruct (numeric_ingestion scenarioDays 0 1 2 3 [] czechRow) as (_ & _ & Hp & _ & Hr).
  split.
  - rewrite (Hp (JSString (lit "1 234,56")) eq_refl). vm_compute. reflexivity.
  - destruct (Hr (lit "Praha 1")) as (c & E & Hn & Hrr & Hpl & Hs);
      [vm_compute; reflexivity | discriminate | vm_compute; reflexivity |].
    exists c. split; [exact E |]. split; [exact Hn |].
    split; [rewrite Hrr; vm_compute; reflexivity |].
    split; [rewrite Hpl; vm_compute; reflexivity | rewrite Hs; vm_compute; reflexivity].
Defined.

End Ingestion.

(** ** The built-ins on sample inputs *)

Module BuiltinExamples.
Import Str Num Val ES.
Local Open Scope float_scope.

Example Math_round_ties_up :
  map Math_round [2.5; -2.5; 2.4; -2.6; 0.5; 1.5; 0.49999999999999994; 12.5; 1234.56]
  = [3; -2; 2; -3; 1; 2; 0; 13; 1235].
Proof. vm_compute. reflexivity. Qed.

Example Math_round_keeps_large_and_special :
  map Math_round [4503599627370496; 1e300; infinity; neg_infinity]
  = [4503599627370496; 1e300; infinity; neg_infinity]
  /\ isNaN (Math_round nan) = true.
Proof. vm_compute. split; reflexivity. Qed.

Example parseFloat_decimal :
  map (fun s => parseFloat (lit s)) ["0.1"; "10.4"; "1234.56"; "  -12.5e2x"; "5."; ".5"; "1e3"]%string
  = [0.1; 10.4; 1234.56; -1250; 5; 0.5; 1000].
Proof. vm_compute. reflexivity. Qed.

Example parseFloat_prefix_only :
  map (fun s => parseFloat (lit s)) ["1.234,5"; "12abc"; "5e"; "Infinityx"]%string
  = [1.234; 12; 5; infinity].
Proof. vm_compute. reflexivity. Qed.

Example parseFloat_not_a_number :
  forallb (fun s => isNaN (parseFloat (lit s))) ["abc"; ""; "."; "-"; "e5"; "true"]%string = true.
Proof. vm_compute. reflexivity. Qed.

Example parseFloat_rounds_to_nearest_even :
  map (fun s => parseFloat (lit s))
      ["9007199254740993"; "9007199254740995"; "2.4703282292062327e-324";
       "2.4703282292062329e-324"; "1.7976931348623159e308"]%string
  = [9007199254740992; 9007199254740996; 0; 5e-324; infinity].
Proof. vm_compute. reflexivity. Qed.

Example Number_toString_samples :
  map Number_toString [0.1; 1203; -1.5; 1e21; 123456789012345680000; 1e-7; 0.000001; 0.6; 10.4]
  = map lit ["0.1"; "1203"; "-1.5"; "1e+21"; "123456789012345680000"; "1e-7"; "0.000001";
             "0.6"; "10.4"]%string.
Proof. vm_compute. reflexivity. Qed.

Example trim_and_clean :
  trim (lit "  Praha 1 ") = lit "Praha 1"
  /\ replaceFirst 44%N 46%N (removeWhiteSpace ([49; 160; 50; 51; 52; 44; 53]%N)) = lit "1234.5".
Proof. vm_compute. split; reflexivity. Qed.

Example epoch_is_thursday_1_january_1970 :
  (getFullYear 0%Z, getMonth 0%Z, getDate 0%Z, getDay 0%Z) = (1970, 0, 1, 4)%Z.
Proof. vm_compute. reflexivity. Qed.

Example before_epoch :
  (getFullYear (-1)%Z, getMonth (-1)%Z, getDate (-1)%Z, getDay (-1)%Z) = (1969, 11, 31, 3)%Z.
Proof. vm_compute. reflexivity. Qed.

Example leap_day_2000 :
  let t := Date_new 2000%Z 1%Z 29%Z in
  (getFullYear t, getMonth t, getDate t, getDay t) = (2000, 1, 29, 2)%Z.
Proof. vm_compute. reflexivity. Qed.

Example no_leap_day_1900 :
  let t := Date_new 1900%Z 1%Z 29%Z in
  (getFullYear t, getMonth t, getDate t, getDay t) = (1900, 2, 1, 4)%Z.
Proof. vm_compute. reflexivity. Qed.

Example two_digit_year_is_20th_century :
  getFullYear (Date_new 99%Z 11%Z 31%Z) = 1999%Z.
Proof. vm_compute. reflexivity. Qed.

Example last_day_of_month :
  RemainingDaysInfo.total
    (run dateUtils.getRemainingDaysInfo
         (worldAt (localNoon 2024%Z 1%Z 29%Z) (App.initialState ∅)))
  = 1%Z.
Proof. vm_compute. reflexivity. Qed.

End BuiltinExamples.

(** * Properties of the rest of the program *)

(** ** Finite checks *)

Module Finite.

Lemma forallb_seqZ (f : Z -> bool) a n :
  forallb f (seqZ a n) = true -> forall x, a <= x < a + n -> f x = true.
Proof.
  intros H x Hx. rewrite forallb_forall in H. apply H.
  apply list_elem_of_In, elem_of_seqZ. lia.
Qed.

Lemma float_eq (x y : float) : PrimFloat.Leibniz.eqb x y = true -> x = y.
Proof. apply FloatAxioms.Leibniz.eqb_spec. Qed.

End Finite.

(** ** The calendar functions *)

Module CalendarMore.
Import ES dateUtils DateFacts.
Import RemainingDaysInfo.

Lemma countDays_nonneg p from to : 0 <= countDays p from to.
Proof. unfold countDays. lia. Qed.

Lemma daysInMonth_range y m : 28 <= Gregorian.daysInMonth y m <= 31.
Proof.
  unfold Gregorian.daysInMonth.
  repeat match goal with
         | |- context [match ?x with _ => _ end] => destruct x
         end; lia.
Qed.

(** The day of the week advances with the day of the month. *)
Lemma dayOfWeek_shift y m d :
  Gregorian.dayOfWeek y m d = (d + Gregorian.dayOfWeek y m 0) mod 7.
Proof.
  unfold Gregorian.dayOfWeek; cbv zeta.
  destruct (m <? 2); rewrite Z.add_mod_idemp_r by lia; f_equal; lia.
Qed.

(** X1: [getDaysRemainingInMonth] changes nothing and always returns at
    least 1; for a clock reading outside the two-digit years it is the
    [total] of [getRemainingDaysInfo], the number of days from today to the
    end of the month. *)
Theorem getDaysRemainingInMonth_total (w : World) :
  1 <= run getDaysRemainingInMonth w
  /\ exec getDaysRemainingInMonth w = w
  /\ (twoDigitYear (getFullYear (clock w)) = false ->
      run getDaysRemainingInMonth w = total (run getRemainingDaysInfo w)
      /\ run getDaysRemainingInMonth w
         = Gregorian.daysInMonth (getFullYear (clock w)) (getMonth (clock w))
           - getDate (clock w) + 1).
Proof.
  assert (run getDaysRemainingInMonth w
          = let remaining :=
              getDate (Date_new (getFullYear (clock w)) (getMonth (clock w) + 1) 0)
              - getDate (clock w) + 1 in
            if 0 <? remaining then remaining else 1) as E by reflexivity.
  split; [| split; [reflexivity |]].
  - rewrite E. cbv zeta. destruct (Z.ltb_spec 0
      (getDate (Date_new (getFullYear (clock w)) (getMonth (clock w) + 1) 0)
       - getDate (clock w) + 1)); lia.
  - intros Hy. unfold run at 2. rewrite getRemainingDaysInfo_spec by exact Hy.
    cbn [fst remainingDays total]. rewrite E. cbv zeta.
    rewrite lastDay_daysInMonth by exact Hy.
    destruct (decompose (clock w)) as (_ & Hd & _).
    unfold getFullYear, getMonth, getDate in *.
    destruct (Z.ltb_spec 0 (Gregorian.daysInMonth (YearFromTime (clock w))
                              (MonthFromTime (clock w)) - DateFromTime (clock w) + 1)); lia.
Qed.

Lemma getDaysRemainingInMonth_total_witness :
  run getDaysRemainingInMonth world_2024_02_10 = 20.
Proof.
  destruct (getDaysRemainingInMonth_total world_2024_02_10) as (_ & _ & H).
  destruct (H eq_refl) as [_ E]. rewrite E. reflexivity.
Defined.

(** X2: [isTodayWeekend] tells whether the day of the clock is a Saturday
    or a Sunday, and today is counted in its own tally: at least one
    weekend day remains when today is a weekend day, and at least one
    weekday otherwise. *)
Theorem today_is_counted (w : World) :
  let now := clock w in
  let info := run getRemainingDaysInfo w in
  twoDigitYear (getFullYear now) = false ->
  isTodayWeekend info
  = isWeekend (Gregorian.dayOfWeek (getFullYear now) (getMonth now) (getDate now))
  /\ (isTodayWeekend info = true -> 1 <= weekends info)
  /\ (isTodayWeekend info = false -> 1 <= weekdays info).
Proof.
  intros now info Hy. subst info. unfold run.
  rewrite getRemainingDaysInfo_spec by exact Hy.
  cbn [fst remainingDays isTodayWeekend weekdays weekends]. fold now.
  destruct (decompose now) as (_ & Hd & _).
  fold (getFullYear now) (getMonth now) (getDate now) in Hd.
  split; [reflexivity |].
  rewrite !(countDays_step _ (getDate now)) by lia.
  rewrite <- isWeekday_not_isWeekend.
  pose proof (countDays_nonneg
    (fun d => isWeekend (Gregorian.dayOfWeek (getFullYear now) (getMonth now) d))
    (getDate now + 1) (Gregorian.daysInMonth (getFullYear now) (getMonth now))).
  pose proof (countDays_nonneg
    (fun d => isWeekday (Gregorian.dayOfWeek (getFullYear now) (getMonth now) d))
    (getDate now + 1) (Gregorian.daysInMonth (getFullYear now) (getMonth now))).
  split; intros ->; cbn [negb]; lia.
Qed.

Lemma today_is_counted_witness :
  isTodayWeekend (run getRemainingDaysInfo world_2024_02_10) = true
  /\ 1 <= weekends (run getRemainingDaysInfo world_2024_02_10).
Proof.
  destruct (today_is_counted world_2024_02_10 eq_refl) as (E & H & _).
  split; [rewrite E; reflexivity | apply H; rewrite E; reflexivity].
Defined.

Lemma tallies_bounded c from to :
  0 <= c < 7 -> 1 <= from <= 31 -> 1 <= to <= 31 ->
  countDays (fun d => isWeekday ((d + c) mod 7)) from to <= 23
  /\ countDays (fun d => isWeekend ((d + c) mod 7)) from to <= 10.
Proof.
  intros Hc Hf Ht.
  assert (forallb (fun c =>
            forallb (fun from =>
              forallb (fun to =>
                (countDays (fun d => isWeekday ((d + c) mod 7)) from to <=? 23)
                && (countDays (fun d => isWeekend ((d + c) mod 7)) from to <=? 10))
                (seqZ 1 31)) (seqZ 1 31)) (seqZ 0 7) = true) as H
    by (vm_compute; reflexivity).
  pose proof (Finite.forallb_seqZ _ _ _ H c ltac:(lia)) as H1. cbv beta in H1.
  pose proof (Finite.forallb_seqZ _ _ _ H1 from ltac:(lia)) as H2. cbv beta in H2.
  pose proof (Finite.forallb_seqZ _ _ _ H2 to ltac:(lia)) as H3. cbv beta in H3.
  apply andb_true_iff in H3 as [A B]. split; lia.
Qed.

(** The three counts are bounded, and the tallies add up to the total. *)
Lemma remaining_days_bounds_aux (w : World) :
  twoDigitYear (getFullYear (clock w)) = false ->
  1 <= total (run getRemainingDaysInfo w) <= 31
  /\ 0 <= weekdays (run getRemainingDaysInfo w) <= 23
  /\ 0 <= weekends (run getRemainingDaysInfo w) <= 10
  /\ weekdays (run getRemainingDaysInfo w) + weekends (run getRemainingDaysInfo w)
     = total (run getRemainingDaysInfo w).
Proof.
  intros Hy. unfold run.
  rewrite getRemainingDaysInfo_spec by exact Hy.
  cbn [fst remainingDays total weekdays weekends].
  destruct (decompose (clock w)) as (_ & Hd & _).
  fold (getFullYear (clock w)) (getMonth (clock w)) (getDate (clock w)) in Hd.
  pose proof (daysInMonth_range (getFullYear (clock w)) (getMonth (clock w))) as Hm.
  pose proof (dayOfWeek_range (getFullYear (clock w)) (getMonth (clock w)) 0) as Hc.
  pose proof (countDays_week (getFullYear (clock w)) (getMonth (clock w)) (getDate (clock w))
                (Gregorian.daysInMonth (getFullYear (clock w)) (getMonth (clock w)))) as Hs.
  destruct (tallies_bounded
              (Gregorian.dayOfWeek (getFullYear (clock w)) (getMonth (clock w)) 0)
              (getDate (clock w))
              (Gregorian.daysInMonth (getFullYear (clock w)) (getMonth (clock w))))
    as [A B]; [lia | lia | lia |].
  rewrite (countDays_ext
             (fun d => isWeekday (Gregorian.dayOfWeek (getFullYear (clock w))
                                    (getMonth (clock w)) d))
             (fun d => isWeekday ((d + Gregorian.dayOfWeek (getFullYear (clock w))
                                          (getMonth (clock w)) 0) mod 7))) in *
    by (intros d _; rewrite dayOfWeek_shift; reflexivity).
  rewrite (countDays_ext
             (fun d => isWeekend (Gregorian.dayOfWeek (getFullYear (clock w))
                                    (getMonth (clock w)) d))
             (fun d => isWeekend ((d + Gregorian.dayOfWeek (getFullYear (clock w))
                                          (getMonth (clock w)) 0) mod 7))) in *
    by (intros d _; rewrite dayOfWeek_shift; reflexivity).
  pose proof (countDays_nonneg
    (fun d => isWeekday ((d + Gregorian.dayOfWeek (getFullYear (clock w))
                                (getMonth (clock w)) 0) mod 7))
    (getDate (clock w)) (Gregorian.daysInMonth (getFullYear (clock w)) (getMonth (clock w)))).
  pose proof (countDays_nonneg
    (fun d => isWeekend ((d + Gregorian.dayOfWeek (getFullYear (clock w))
                                (getMonth (clock w)) 0) mod 7))
    (getDate (clock w)) (Gregorian.daysInMonth (getFullYear (clock w)) (getMonth (clock w)))).
  lia.
Qed.

(** X3: for a clock reading outside the two-digit years, between 1 and 31
    days remain, at most 23 of them weekdays and at most 10 of them weekend
    days. *)
Theorem remaining_days_bounds (w : World) :
  let info := run getRemainingDaysInfo w in
  twoDigitYear (getFullYear (clock w)) = false ->
  1 <= total info <= 31
  /\ 0 <= weekdays info <= 23
  /\ 0 <= weekends info <= 10.
Proof.
  intros info Hy. subst info.
  destruct (remaining_days_bounds_aux w Hy) as (A & B & C & _). repeat split; lia.
Qed.

Lemma remaining_days_bounds_witness :
  1 <= total (run getRemainingDaysInfo world_2023_02_10) <= 31
  /\ 0 <= weekdays (run getRemainingDaysInfo world_2023_02_10) <= 23
  /\ 0 <= weekends (run getRemainingDaysInfo world_2023_02_10) <= 10.
Proof. apply (remaining_days_bounds world_2023_02_10). reflexivity. Defined.

Lemma Day_next t : Day (t + msPerDay) = Day t + 1.
Proof. unfold Day, msPerDay. Z.to_euclidean_division_equations; lia. Qed.

(** Tomorrow's date, when today is not the last day of the month. *)
Lemma next_day_fields t :
  getDate t < Gregorian.daysInMonth (getFullYear t) (getMonth t) ->
  getFullYear (t + msPerDay) = getFullYear t
  /\ getMonth (t + msPerDay) = getMonth t
  /\ getDate (t + msPerDay) = getDate t + 1.
Proof.
  intros Hlt. destruct (decompose t) as (Hm & Hd & E).
  unfold getFullYear, getMonth, getDate in *.
  apply (compose (YearFromTime t) (MonthFromTime t) (DateFromTime t + 1));
    [exact Hm | lia |].
  rewrite Day_next, E, !MakeDay_in_year by exact Hm. lia.
Qed.

(** X4: from one day to the next within a month, for a clock reading
    outside the two-digit years: one day less remains, and it is today that
    leaves its tally. *)
Theorem next_day_same_month (w w' : World) :
  let today := run getRemainingDaysInfo w in
  let tomorrow := run getRemainingDaysInfo w' in
  twoDigitYear (getFullYear (clock w)) = false ->
  clock w' = clock w + msPerDay ->
  getDate (clock w) < Gregorian.daysInMonth (getFullYear (clock w)) (getMonth (clock w)) ->
  total tomorrow = total today - 1
  /\ weekdays tomorrow = weekdays today - (if isTodayWeekend today then 0 else 1)
  /\ weekends tomorrow = weekends today - (if isTodayWeekend today then 1 else 0).
Proof.
  intros today tomorrow Hy Hc Hlt. subst today tomorrow.
  destruct (next_day_fields (clock w) Hlt) as (Ey & Em & Ed).
  rewrite <- Hc in Ey, Em, Ed.
  assert (twoDigitYear (getFullYear (clock w')) = false) as Hy' by (rewrite Ey; exact Hy).
  unfold run. rewrite !getRemainingDaysInfo_spec by assumption.
  cbn [fst remainingDays total weekdays weekends isTodayWeekend].
  rewrite Ey, Em, Ed.
  destruct (decompose (clock w)) as (_ & Hd & _).
  fold (getFullYear (clock w)) (getMonth (clock w)) (getDate (clock w)) in Hd.
  rewrite !(countDays_step _ (getDate (clock w))) by lia.
  rewrite <- isWeekday_not_isWeekend.
  destruct (isWeekend _); cbn [negb]; lia.
Qed.

Lemma next_day_same_month_witness :
  total (run getRemainingDaysInfo (worldAt (clock world_2024_02_10 + msPerDay)
                                           (app world_2024_02_10)))
  = total (run getRemainingDaysInfo world_2024_02_10) - 1.
Proof.
  apply (next_day_same_month world_2024_02_10
           (worldAt (clock world_2024_02_10 + msPerDay) (app world_2024_02_10)));
    reflexivity.
Defined.

End CalendarMore.

(** ** The weekend weight: input, persistence, and the division guard *)

Module WeightFacts.
Import Str Num Val MathLib App AppView.
Import RemainingDaysInfo.
Local Open Scope float_scope.

(** The weights the input sets for the integers 0 to 100. *)
Lemma weight_checks (n : Z) :
  (0 <= n <= 100)%Z ->
  parseInt (decimal n) = ofZ n
  /\ isNaN (ofZ n) = false
  /\ Math_round ((ofZ n / 100) * 100) = ofZ n
  /\ Math_round ((ofZ n / 100) * 100) + Math_round ((1 - ofZ n / 100) * 100) = 100
  /\ Number_toString (ofZ n / 100) <> []
  /\ parseFloat (Number_toString (ofZ n / 100)) = ofZ n / 100.
Proof.
  intros Hn.
  assert (forallb (fun n =>
            PrimFloat.Leibniz.eqb (parseInt (decimal n)) (ofZ n)
            && negb (isNaN (ofZ n))
            && PrimFloat.Leibniz.eqb (Math_round ((ofZ n / 100) * 100)) (ofZ n)
            && PrimFloat.Leibniz.eqb
                 (Math_round ((ofZ n / 100) * 100) + Math_round ((1 - ofZ n / 100) * 100)) 100
            && match Number_toString (ofZ n / 100) with [] => false | _ :: _ => true end
            && PrimFloat.Leibniz.eqb (parseFloat (Number_toString (ofZ n / 100))) (ofZ n / 100))
            (seqZ 0 101) = true) as H
    by (vm_compute; reflexivity).
  pose proof (Finite.forallb_seqZ _ _ _ H n ltac:(lia)) as C. cbv beta in C.
  repeat (apply andb_true_iff in C as [C ?]).
  repeat split; try (apply Finite.float_eq; assumption).
  - destruct (isNaN (ofZ n)); [discriminate | reflexivity].
  - destruct (Number_toString (ofZ n / 100)); [discriminate | discriminate].
Qed.

Lemma weighted_check (n wd we : Z) :
  (0 <= n <= 100)%Z -> (0 <= wd <= 31)%Z -> (0 <= we <= 31)%Z -> (1 <= wd + we)%Z ->
  (0 <? ofZ wd + (ofZ n / 100) * ofZ we) = negb ((n =? 0)%Z && (wd =? 0)%Z).
Proof.
  intros Hn Hwd Hwe Ht.
  assert (forallb (fun n =>
            forallb (fun wd =>
              forallb (fun we =>
                (wd + we =? 0)%Z
                || Bool.eqb (0 <? ofZ wd + (ofZ n / 100) * ofZ we)
                            (negb ((n =? 0)%Z && (wd =? 0)%Z)))
                (seqZ 0 32)) (seqZ 0 32)) (seqZ 0 101) = true) as H
    by (vm_compute; reflexivity).
  pose proof (Finite.forallb_seqZ _ _ _ H n ltac:(lia)) as H1. cbv beta in H1.
  pose proof (Finite.forallb_seqZ _ _ _ H1 wd ltac:(lia)) as H2. cbv beta in H2.
  pose proof (Finite.forallb_seqZ _ _ _ H2 we ltac:(lia)) as H3. cbv beta in H3.
  apply orb_true_iff in H3 as [H3 | H3]; [lia |].
  apply Bool.eqb_prop in H3. exact H3.
Qed.

(** X5: with a weekend weight of n/100 for an integer n from 0 to 100, as
    the weight input sets it, and a clock reading outside the two-digit
    years, [weightedDays] is positive unless the weight is 0 and no weekday
    remains; only then does the guard of [filteredResult] answer 0, and
    otherwise [finalValue] is the quotient. *)
Theorem division_guard (w : World) (n : Z) (remainingTotalRevenue : float) :
  let info := run dateUtils.getRemainingDaysInfo w in
  let weight := ofZ n / 100 in
  twoDigitYear (ES.getFullYear (clock w)) = false ->
  (0 <= n <= 100)%Z ->
  (0 <? weightedDays info weight) = negb ((n =? 0)%Z && (weekdays info =? 0)%Z)
  /\ recalculatedFinalValue (weightedDays info weight) remainingTotalRevenue
     = (if (n =? 0)%Z && (weekdays info =? 0)%Z then 0
        else remainingTotalRevenue / weightedDays info weight).
Proof.
  intros info weight Hy Hn.
  destruct (CalendarMore.remaining_days_bounds_aux w Hy) as (Ht & Hwd & Hwe & Hs).
  fold info in Ht, Hwd, Hwe, Hs.
  assert ((0 <? weightedDays info weight) = negb ((n =? 0)%Z && (weekdays info =? 0)%Z)) as E.
  { unfold weightedDays, weight. apply weighted_check; lia. }
  split; [exact E |]. unfold recalculatedFinalValue. rewrite E.
  destruct ((n =? 0)%Z && (weekdays info =? 0)%Z); reflexivity.
Qed.

Lemma division_guard_witness :
  (0 <? weightedDays (run dateUtils.getRemainingDaysInfo world_2024_02_10) (ofZ 60 / 100)) = true.
Proof.
  destruct (division_guard world_2024_02_10 60 0 eq_refl) as [E _]; [lia |].
  rewrite E. reflexivity.
Defined.

(** X6: typing an integer n from 0 to 100 into the weight input sets the
    weight n/100 and nothing else; the input then shows n again, and the two
    percentages shown for the weekend days add up to 100.  A text from
    which [parseInt] reads no number changes nothing. *)
Theorem weekendWeight_input (w : World) (n : Z) (text : jsstring) :
  ((0 <= n <= 100)%Z ->
   let w' := exec (weekendWeight_onChange (decimal n)) w in
   w' = exec (setWeekendWeight (ofZ n / 100)) w
   /\ weekendWeight_percent (app w') = ofZ n
   /\ weekendWeight_percent (app w') + weekendLoss_percent (app w') = 100)
  /\ (isNaN (parseInt text) = true -> exec (weekendWeight_onChange text) w = w).
Proof.
  split.
  - intros Hn w'. destruct (weight_checks n Hn) as (Ep & En & Er & Es & _).
    assert (w' = exec (setWeekendWeight (ofZ n / 100)) w) as E.
    { subst w'. unfold weekendWeight_onChange. rewrite Ep, En. reflexivity. }
    split; [exact E |]. rewrite E.
    unfold weekendWeight_percent, weekendLoss_percent.
    change (weekendWeight (app (exec (setWeekendWeight (ofZ n / 100)) w))) with (ofZ n / 100).
    split; assumption.
  - intros H. unfold weekendWeight_onChange. rewrite H. reflexivity.
Qed.

Lemma weekendWeight_input_witness :
  weekendWeight (app (exec (weekendWeight_onChange (lit "35")) scenarioWorld)) = 0.35
  /\ exec (weekendWeight_onChange (lit "abc")) scenarioWorld = scenarioWorld.
Proof.
  destruct (weekendWeight_input scenarioWorld 35 (lit "abc")) as [A B].
  split.
  - destruct A as (E & _ & _); [lia |].
    change (decimal 35) with (lit "35") in E. rewrite E. vm_compute. reflexivity.
  - apply B. vm_compute. reflexivity.
Defined.

(** X7: the weight the effect stores is the weight the next session starts
    with, for every weight n/100 with n an integer from 0 to 100; without a
    stored weight a session starts with 0.6. *)
Theorem weekendWeight_persists (w : World) (n : Z) (storage : gmap jsstring jsstring) :
  ((0 <= n <= 100)%Z ->
   weekendWeight (app w) = ofZ n / 100 ->
   weekendWeight (initialState (localStorage (exec useEffect_weekendWeight w))) = ofZ n / 100)
  /\ (storage !! lit "weekendWeight" = None -> weekendWeight (initialState storage) = 0.6).
Proof.
  split.
  - intros Hn Hw. destruct (weight_checks n Hn) as (_ & _ & _ & _ & Hne & Ep).
    unfold useEffect_weekendWeight, localStorage_setItem, getState, initialState.
    unfold exec, mbind, Eff_bind. cbn [fst snd localStorage weekendWeight].
    rewrite lookup_insert_eq, Hw.
    destruct (Number_toString (ofZ n / 100)) as [| c s] eqn:E; [congruence |]. exact Ep.
  - intros H. unfold initialState. cbn [weekendWeight].
    unfold jsstring in *. rewrite H. reflexivity.
Qed.

Lemma weekendWeight_persists_witness :
  weekendWeight (initialState (localStorage (exec useEffect_weekendWeight scenarioWorld))) = 0.6.
Proof.
  destruct (weekendWeight_persists scenarioWorld 60 ∅) as [A _].
  rewrite A; [vm_compute; reflexivity | lia | vm_compute; reflexivity].
Defined.

Lemma ltb_0_asym (x : float) : (0 <? x) = true -> (x <? 0) = false.
Proof.
  rewrite !FloatAxioms.ltb_spec. change (Prim2SF 0) with (S754_zero false).
  unfold SFltb. destruct (Prim2SF x) as [s | s | | s m e]; cbn; try discriminate.
  - destruct s; [discriminate | reflexivity].
  - destruct s; [discriminate | reflexivity].
Qed.

Lemma Math_max_0 (x : float) :
  Math_max [0; x] = if isNaN x then nan else if 0 <? x then x else 0.
Proof.
  unfold Math_max. cbn [existsb fold_left].
  change (isNaN 0) with false. cbn [orb]. rewrite Bool.orb_false_r.
  destruct (isNaN x); [reflexivity |].
  change (isPositiveZero 0 && isNegativeZero neg_infinity) with false.
  change (neg_infinity <? 0) with true. cbv iota.
  change (isNegativeZero 0) with false. rewrite Bool.andb_false_r. reflexivity.
Qed.

(** X8: the targets shown for a weekday and for a weekend day are never
    negative: the weekday target is the rounded [finalValue] when that is
    positive, 0 when it is not, and [NaN] only when the rounded [finalValue]
    is.  The progress bar is never wider than 100 per cent. *)
Theorem displayed_values_clamped
    (r : CalculationResult) (s : AppState) (stats : ProgressStats) :
  (displayedTarget r <? 0) = false
  /\ (displayedWeekendTarget r s <? 0) = false
  /\ displayedTarget r
     = (if isNaN (Math_round (finalValue r)) then nan
        else if 0 <? Math_round (finalValue r) then Math_round (finalValue r)
        else 0)
  /\ (100 <? progressBarWidth stats) = false.
Proof.
  assert (forall x, (Math_max [0; x] <? 0) = false) as Hmax.
  { intros x. rewrite Math_max_0. destruct (isNaN x); [reflexivity |].
    destruct (0 <? x) eqn:E; [apply ltb_0_asym, E | reflexivity]. }
  unfold displayedTarget, displayedWeekendTarget.
  split; [apply Hmax |]. split; [apply Hmax |]. rewrite Math_max_0. split; [reflexivity |].
  - unfold progressBarWidth, Math_min. cbn [existsb fold_left].
    destruct (isNaN (percent stats) || (isNaN 100 || false)); [reflexivity |].
    destruct (isNegativeZero (percent stats) && isPositiveZero infinity);
      (destruct (isNegativeZero 100 && _); [reflexivity |]);
      match goal with
      | |- (100 <? (if 100 <? ?l then _ else _)) = false =>
          destruct (100 <? l) eqn:E; [reflexivity | exact E]
      end.
Qed.

End WeightFacts.

(** ** The state [processFile] leaves *)

Module IngestionMore.
Import Str Num Val ArrayLib App AppView.
Import DateFacts TargetCalculator Ingestion.
Local Open Scope float_scope.

Lemma World_ext (w1 w2 : World) :
  clock w1 = clock w2 -> localStorage w1 = localStorage w2 ->
  allCalculations (app w1) = allCalculations (app w2) ->
  selectedBranch (app w1) = selectedBranch (app w2) ->
  manualOverrides (app w1) = manualOverrides (app w2) ->
  isProcessing (app w1) = isProcessing (app w2) ->
  error (app w1) = error (app w2) ->
  fileName (app w1) = fileName (app w2) ->
  defaultBranch (app w1) = defaultBranch (app w2) ->
  weekendWeight (app w1) = weekendWeight (app w2) ->
  w1 = w2.
Proof.
  destruct w1 as [c1 l1 []], w2 as [c2 l2 []]. cbn. intros. congruence.
Qed.

(** The branch [processFile] selects: the stored default branch when the
    report has it. *)
Lemma processFile_exec name rows cB cR cS cP w :
  exec (processFile name rows cB cR cS cP) w
  = let failed :=
      if (Z.of_nat (length rows) <? 5)%Z then Some FileTooShort
      else if ((cB =? -1) || (cR =? -1) || (cS =? -1) || (cP =? -1))%Z
           then Some ColumnsNotFound
           else None in
    let results :=
      processFile_loop (run dateUtils.getRemainingDaysInfo w)
                       (Z.to_nat cB) (Z.to_nat cR) (Z.to_nat cS) (Z.to_nat cP) rows in
    {| clock := clock w;
       localStorage := localStorage w;
       app :=
         {| allCalculations := match failed with Some _ => [] | None => results end;
            selectedBranch :=
              match failed, localStorage w !! lit "defaultBranch" with
              | None, Some ((_ :: _) as saved) =>
                  if existsb (fun r => bool_decide (branchName r = saved)) results
                  then saved else []
              | _, _ => []
              end;
            manualOverrides := ∅;
            isProcessing := false;
            error := failed;
            fileName := Some name;
            defaultBranch := defaultBranch (app w);
            weekendWeight := weekendWeight (app w) |} |}.
Proof.
  cbv zeta. unfold processFile. setters.
  destruct (Z.of_nat (length rows) <? 5)%Z.
  { apply World_ext; run_setters; reflexivity. }
  destruct ((cB =? -1) || (cR =? -1) || (cS =? -1) || (cP =? -1))%Z.
  { apply World_ext; run_setters; reflexivity. }
  apply World_ext; run_setters;
    repeat match goal with
    | |- context [run dateUtils.getRemainingDaysInfo ?w'] =>
        lazymatch w' with
        | w => fail
        | _ => rewrite (getRemainingDaysInfo_clock w' w) by (run_setters; reflexivity)
        end
    end;
    try reflexivity.
  all: destruct (localStorage w !! lit "defaultBranch") as [[| ch saved] |];
    run_setters; try reflexivity.
  all: match goal with
       | |- context [if ?c then _ else _] => destruct c
       end; run_setters; reflexivity.
Qed.

(** X9: an upload that fails, because the sheet has fewer than five rows or
    a column is not found, leaves no report behind: the list of figures,
    the overrides and the selection are empty, nothing is offered and no
    result is computed; the error names the first failed check, the file
    name is recorded and processing has ended.  The clock, the storage, the
    default branch and the weekend weight are as before. *)
Theorem ingestion_failure
    (name : jsstring) (rows : list (list JSValue)) (cB cR cS cP : Z) (w : World) :
  let w' := exec (processFile name rows cB cR cS cP) w in
  ((length rows < 5)%nat \/ cB = -1 \/ cR = -1 \/ cS = -1 \/ cP = -1)%Z ->
  error (app w')
  = Some (if (Z.of_nat (length rows) <? 5)%Z then FileTooShort else ColumnsNotFound)
  /\ allCalculations (app w') = []
  /\ manualOverrides (app w') = ∅
  /\ selectedBranch (app w') = []
  /\ availableBranches (app w') = []
  /\ run filteredResult w' = None
  /\ fileName (app w') = Some name
  /\ isProcessing (app w') = false
  /\ clock w' = clock w
  /\ localStorage w' = localStorage w
  /\ defaultBranch (app w') = defaultBranch (app w)
  /\ weekendWeight (app w') = weekendWeight (app w).
Proof.
  intros w' H. subst w'. rewrite processFile_exec. cbv zeta.
  assert ((if (Z.of_nat (length rows) <? 5)%Z then Some FileTooShort
           else if ((cB =? -1) || (cR =? -1) || (cS =? -1) || (cP =? -1))%Z
                then Some ColumnsNotFound else None)
          = Some (if (Z.of_nat (length rows) <? 5)%Z then FileTooShort else ColumnsNotFound))
    as ->.
  { destruct (Z.ltb_spec (Z.of_nat (length rows)) 5); [reflexivity |].
    destruct H as [H | H]; [lia |].
    replace ((cB =? -1) || (cR =? -1) || (cS =? -1) || (cP =? -1))%Z with true; [reflexivity |].
    symmetry. rewrite !Bool.orb_true_iff, !Z.eqb_eq. tauto. }
  cbn [app clock localStorage allCalculations selectedBranch manualOverrides isProcessing
       error fileName defaultBranch weekendWeight].
  repeat split; reflexivity.
Qed.

Lemma ingestion_failure_witness :
  error (app (exec (processFile (lit "report.xlsx") [ []; [] ] 0 1 2 3) scenarioWorld))
  = Some FileTooShort
  /\ allCalculations
       (app (exec (processFile (lit "report.xlsx") (sheet distinctRows) 0 (-1) 2 3)
                  scenarioWorld)) = [].
Proof.
  split.
  - destruct (ingestion_failure (lit "report.xlsx") [ []; [] ] 0 1 2 3 scenarioWorld)
      as [E _]; [left; cbn; lia |]. exact E.
  - destruct (ingestion_failure (lit "report.xlsx") (sheet distinctRows) 0 (-1) 2 3
                scenarioWorld) as (_ & E & _); [right; right; left; reflexivity |]. exact E.
Defined.

(** X10: an upload that succeeds drops the overrides entered for the
    previous report and clears the error; the storage, the default branch
    and the weekend weight are as before.  It selects the stored default
    branch when the new report has a branch of that name, and no branch
    otherwise: a branch selected after the upload is the stored default and
    has a result. *)
Theorem ingestion_success
    (name : jsstring) (rows : list (list JSValue)) (cB cR cS cP : Z) (w : World) :
  let w' := exec (processFile name rows cB cR cS cP) w in
  (5 <= length rows)%nat -> (cB <> -1)%Z -> (cR <> -1)%Z -> (cS <> -1)%Z -> (cP <> -1)%Z ->
  error (app w') = None
  /\ manualOverrides (app w') = ∅
  /\ fileName (app w') = Some name
  /\ isProcessing (app w') = false
  /\ clock w' = clock w
  /\ localStorage w' = localStorage w
  /\ defaultBranch (app w') = defaultBranch (app w)
  /\ weekendWeight (app w') = weekendWeight (app w)
  /\ (forall saved,
        localStorage w !! lit "defaultBranch" = Some saved ->
        saved ∈ map branchName (allCalculations (app w')) ->
        selectedBranch (app w') = saved)
  /\ (selectedBranch (app w') <> [] ->
      localStorage w !! lit "defaultBranch" = Some (selectedBranch (app w'))
      /\ exists r, run filteredResult w' = Some r /\ branchName r = selectedBranch (app w')).
Proof.
  intros w' Hl HB HR HS HP.
  assert (exists results sel,
            w' = {| clock := clock w; localStorage := localStorage w;
                    app := {| allCalculations := results; selectedBranch := sel;
                              manualOverrides := ∅; isProcessing := false; error := None;
                              fileName := Some name;
                              defaultBranch := defaultBranch (app w);
                              weekendWeight := weekendWeight (app w) |} |}
            /\ sel = match localStorage w !! lit "defaultBranch" with
                     | Some ((_ :: _) as saved) =>
                         if existsb (fun r => bool_decide (branchName r = saved)) results
                         then saved else []
                     | _ => []
                     end) as (results & sel & E & Esel).
  { subst w'. rewrite processFile_exec. cbv zeta.
    destruct (Z.ltb_spec (Z.of_nat (length rows)) 5); [lia |].
    replace ((cB =? -1) || (cR =? -1) || (cS =? -1) || (cP =? -1))%Z with false.
    - eexists _, _. split; reflexivity.
    - symmetry. rewrite !Bool.orb_false_iff, !Z.eqb_neq. tauto. }
  clearbody w'. subst w'.
  cbn [app clock localStorage allCalculations selectedBranch manualOverrides isProcessing
       error fileName defaultBranch weekendWeight].
  do 8 (split; [reflexivity |]). split.
  - intros saved Hs Hin. subst sel. unfold jsstring in *. rewrite Hs.
    apply list_elem_of_fmap in Hin as (c & -> & Hc).
    destruct (branchName c) as [| ch nm] eqn:En.
    + reflexivity.
    + replace (existsb (fun r => bool_decide (branchName r = ch :: nm)) results) with true;
        [reflexivity |].
      symmetry. apply existsb_exists. exists c. split; [apply list_elem_of_In, Hc |].
      apply bool_decide_eq_true. exact En.
  - intros Hne.
    destruct (localStorage w !! lit "defaultBranch") as [[| ch saved] |] eqn:Es;
      try (subst sel; congruence).
    destruct (existsb (fun r => bool_decide (branchName r = ch :: saved)) results) eqn:Ex;
      [| subst sel; congruence].
    subst sel. split; [reflexivity |].
    apply existsb_exists in Ex as (c & Hc & Hn). apply bool_decide_eq_true in Hn.
    destruct (List.find (fun c => bool_decide (branchName c = ch :: saved)) results)
      as [b |] eqn:Ef.
    + pose proof (find_some _ _ Ef) as [_ Hb]. apply bool_decide_eq_true in Hb.
      erewrite filteredResult_found; [| discriminate | exact Ef].
      eexists. split; [reflexivity |]. exact Hb.
    + exfalso. pose proof (find_none _ _ Ef c Hc) as Hx.
      apply bool_decide_eq_false in Hx. contradiction.
Qed.

Lemma ingestion_success_witness :
  manualOverrides
    (app (exec (processFile (lit "report.xlsx") (sheet distinctRows) 0 1 2 3)
               (exec handleSetDefaultBranch overriddenWorld))) = ∅
  /\ selectedBranch
       (app (exec (processFile (lit "report.xlsx") (sheet distinctRows) 0 1 2 3)
                  (exec handleSetDefaultBranch overriddenWorld))) = lit "A".
Proof.
  destruct (ingestion_success (lit "report.xlsx") (sheet distinctRows) 0 1 2 3
              (exec handleSetDefaultBranch overriddenWorld))
    as (_ & E & _ & _ & _ & _ & _ & _ & S & _); [cbn; lia | lia | lia | lia | lia |].
  split; [exact E |]. apply S.
  - vm_compute. reflexivity.
  - apply (bool_decide_unpack _). vm_compute. exact I.
Defined.

(** X11: what an upload leaves depends on the state before it through the
    default branch and the weekend weight only: from two worlds that agree
    on the clock, the storage and these two, the same upload leads to the
    same world, whatever report, selection, overrides and error were there
    before.  So uploading the same file twice is the same as uploading it
    once. *)
Theorem ingestion_forgets_previous_report
    (name : jsstring) (rows : list (list JSValue)) (cB cR cS cP : Z) (w1 w2 : World) :
  clock w1 = clock w2 ->
  localStorage w1 = localStorage w2 ->
  defaultBranch (app w1) = defaultBranch (app w2) ->
  weekendWeight (app w1) = weekendWeight (app w2) ->
  exec (processFile name rows cB cR cS cP) w1 = exec (processFile name rows cB cR cS cP) w2
  /\ exec (processFile name rows cB cR cS cP) (exec (processFile name rows cB cR cS cP) w1)
     = exec (processFile name rows cB cR cS cP) w1.
Proof.
  assert (forall v1 v2,
            clock v1 = clock v2 -> localStorage v1 = localStorage v2 ->
            defaultBranch (app v1) = defaultBranch (app v2) ->
            weekendWeight (app v1) = weekendWeight (app v2) ->
            exec (processFile name rows cB cR cS cP) v1
            = exec (processFile name rows cB cR cS cP) v2) as H.
  { intros v1 v2 Hc Hl Hd Hw. rewrite !processFile_exec. cbv zeta.
    rewrite (getRemainingDaysInfo_clock v1 v2 Hc), Hc, Hl, Hd, Hw. reflexivity. }
  intros Hc Hl Hd Hw. split; [apply H; assumption |].
  apply H; rewrite processFile_exec; reflexivity.
Qed.

Lemma ingestion_forgets_previous_report_witness :
  exec (processFile (lit "report.xlsx") (sheet distinctRows) 0 1 2 3) overriddenWorld
  = exec (processFile (lit "report.xlsx") (sheet distinctRows) 0 1 2 3) scenarioWorld.
Proof.
  apply (ingestion_forgets_previous_report (lit "report.xlsx") (sheet distinctRows) 0 1 2 3
           overriddenWorld scenarioWorld); vm_compute; reflexivity.
Defined.

(** X12: making the selected branch the default stores its name and shows
    it as the default, and changes nothing else; the next session starts
    with it as the default, and the next successful upload selects it when
    the report has a branch of that name and selects nothing when it has
    not.  With no branch selected the handler does nothing. *)
Theorem default_branch_round_trip
    (name : jsstring) (rows : list (list JSValue)) (cB cR cS cP : Z) (w : World) :
  let w1 := exec handleSetDefaultBranch w in
  let w2 := exec (processFile name rows cB cR cS cP) w1 in
  (selectedBranch (app w) = [] -> w1 = w)
  /\ (selectedBranch (app w) <> [] ->
      defaultBranch (app w1) = Some (selectedBranch (app w))
      /\ defaultBranch (initialState (localStorage w1)) = Some (selectedBranch (app w))
      /\ localStorage w1 = <[lit "defaultBranch" := selectedBranch (app w)]> (localStorage w)
      /\ clock w1 = clock w
      /\ allCalculations (app w1) = allCalculations (app w)
      /\ selectedBranch (app w1) = selectedBranch (app w)
      /\ manualOverrides (app w1) = manualOverrides (app w)
      /\ weekendWeight (app w1) = weekendWeight (app w)
      /\ ((5 <= length rows)%nat ->
          (cB <> -1)%Z -> (cR <> -1)%Z -> (cS <> -1)%Z -> (cP <> -1)%Z ->
          selectedBranch (app w2)
          = if bool_decide (selectedBranch (app w) ∈ map branchName (allCalculations (app w2)))
            then selectedBranch (app w) else [])).
Proof.
  cbv zeta. split.
  - intros E. unfold handleSetDefaultBranch. unfold_eff. cbn [fst snd]. rewrite E. reflexivity.
  - intros Hne.
    assert (exec handleSetDefaultBranch w
            = {| clock := clock w;
                 localStorage := <[lit "defaultBranch" := selectedBranch (app w)]> (localStorage w);
                 app := {| allCalculations := allCalculations (app w);
                           selectedBranch := selectedBranch (app w);
                           manualOverrides := manualOverrides (app w);
                           isProcessing := isProcessing (app w);
                           error := error (app w);
                           fileName := fileName (app w);
                           defaultBranch := Some (selectedBranch (app w));
                           weekendWeight := weekendWeight (app w) |} |}) as E.
    { unfold handleSetDefaultBranch, setDefaultBranch, localStorage_setItem. unfold_eff.
      cbn [fst snd]. destruct (selectedBranch (app w)) as [| ch sel] eqn:Es; [congruence |].
      cbn [ToBoolean]. cbn. rewrite ?Es. reflexivity. }
    rewrite E.
    cbn [app clock localStorage allCalculations selectedBranch manualOverrides isProcessing
         error fileName defaultBranch weekendWeight initialState].
    split; [reflexivity |]. split; [apply lookup_insert_eq |].
    do 6 (split; [reflexivity |]).
    intros Hl HB HR HS HP. rewrite processFile_exec. cbv zeta.
    destruct (Z.ltb_spec (Z.of_nat (length rows)) 5); [lia |].
    replace ((cB =? -1) || (cR =? -1) || (cS =? -1) || (cP =? -1))%Z with false
      by (symmetry; rewrite !Bool.orb_false_iff, !Z.eqb_neq; tauto).
    cbn [app clock localStorage allCalculations selectedBranch manualOverrides isProcessing
         error fileName defaultBranch weekendWeight].
    rewrite lookup_insert_eq.
    destruct (selectedBranch (app w)) as [| ch sel] eqn:Es; [congruence |].
    match goal with
    | |- (if existsb ?p ?l then _ else _) = _ =>
        destruct (existsb p l) eqn:Ex
    end.
    + rewrite bool_decide_eq_true_2; [reflexivity |].
      apply existsb_exists in Ex as (c & Hc & Hn). apply bool_decide_eq_true in Hn.
      apply list_elem_of_fmap. exists c. split; [congruence | apply list_elem_of_In, Hc].
    + rewrite bool_decide_eq_false_2; [reflexivity |].
      intros Hin. apply list_elem_of_fmap in Hin as (c & Hn & Hc).
      apply Bool.not_true_iff_false in Ex. apply Ex. apply existsb_exists.
      exists c. split; [apply list_elem_of_In, Hc | apply bool_decide_eq_true; congruence].
Qed.

Lemma default_branch_round_trip_witness :
  defaultBranch (initialState (localStorage (exec handleSetDefaultBranch scenarioWorld)))
  = Some (lit "A")
  /\ selectedBranch
       (app (exec (processFile (lit "report.xlsx") (sheet distinctRows) 0 1 2 3)
                  (exec handleSetDefaultBranch scenarioWorld))) = lit "A".
Proof.
  destruct (default_branch_round_trip (lit "report.xlsx") (sheet distinctRows) 0 1 2 3
              scenarioWorld) as [_ H].
  destruct H as (_ & E & _ & _ & _ & _ & _ & _ & S); [vm_compute; discriminate |].
  split; [exact E |].
  rewrite S; [vm_compute; reflexivity | cbn; lia | lia | lia | lia | lia].
Defined.

(** The loop treats each row on its own. *)
Lemma processFile_row_acc daysInfo cB cR cS cP results row :
  processFile_row daysInfo cB cR cS cP results row
  = results ++ processFile_row daysInfo cB cR cS cP [] row.
Proof.
  unfold processFile_row.
  destruct (branchVal row cB) as [[| ch nm] |]; rewrite ?app_nil_r; try reflexivity.
  destruct (_ && _); rewrite ?app_nil_r; reflexivity.
Qed.

Lemma processFile_rows_flat daysInfo cB cR cS cP rows acc :
  fold_left (processFile_row daysInfo cB cR cS cP) rows acc
  = acc ++ flat_map (processFile_row daysInfo cB cR cS cP []) rows.
Proof.
  revert acc. induction rows as [| row rows IH]; intros acc; cbn [fold_left flat_map].
  - rewrite app_nil_r. reflexivity.
  - rewrite IH, processFile_row_acc, <- app_assoc. reflexivity.
Qed.

(** The entries carry the day counts the loop was given. *)
Lemma ingested_entries_aux daysInfo cB cR cS cP rows :
  Forall (fun c =>
       daysRemaining c = RemainingDaysInfo.total daysInfo
       /\ weekdaysRemaining c = RemainingDaysInfo.weekdays daysInfo
       /\ weekendsRemaining c = RemainingDaysInfo.weekends daysInfo
       /\ isTodayWeekend c = RemainingDaysInfo.isTodayWeekend daysInfo)
    (processFile_loop daysInfo cB cR cS cP rows).
Proof.
  unfold processFile_loop. rewrite processFile_rows_flat, app_nil_l.
  apply Forall_forall. intros c Hc. apply list_elem_of_In, in_flat_map in Hc.
  destruct Hc as (row & _ & Hc). unfold processFile_row in Hc.
  destruct (branchVal row cB) as [[| ch nm] |]; try (destruct Hc; fail).
  destruct (_ && _); [destruct Hc |].
  destruct Hc as [<- | []]. repeat split.
Qed.

(** The name of an entry is the trimmed branch cell of its row. *)
Lemma ingested_entries_names daysInfo cB cR cS cP rows :
  Forall (fun c => branchVal (rawRow c) cB = Some (branchName c))
         (processFile_loop daysInfo cB cR cS cP rows).
Proof.
  unfold processFile_loop. rewrite processFile_rows_flat, app_nil_l.
  apply Forall_forall. intros c Hc. apply list_elem_of_In, in_flat_map in Hc.
  destruct Hc as (row & _ & Hc). unfold processFile_row in Hc.
  destruct (branchVal row cB) as [[| ch nm] |] eqn:Eb; try (destruct Hc; fail).
  destruct (_ && _); [destruct Hc |].
  destruct Hc as [<- | []]. exact Eb.
Qed.

(** X13: the ingestion loop keeps the rows of the sheet after the header in
    their order, one entry for each row it keeps, at most as many as the
    sheet has rows after the fifth; an entry is made from its own row
    alone (the trimmed branch cell, the rounded and the parsed figures,
    never both [revenueRR] and the plan 0), carries the day counts of the
    upload and the [finalValue] 0; and every row with a non-empty branch
    name and not both figures 0 has its entry. *)
Theorem ingested_entries
    (daysInfo : RemainingDaysInfo.t) (cB cR cS cP : nat) (rows : list (list JSValue)) :
  let results := processFile_loop daysInfo cB cR cS cP rows in
  sublist (map rawRow results) (drop 5 rows)
  /\ (length results <= length rows - 5)%nat
  /\ Forall (fun c =>
       branchVal (rawRow c) cB = Some (branchName c)
       /\ revenueRR c = Math_round (parseVal (index (rawRow c) cR))
       /\ planAsrServicesRevenue c = parseVal (index (rawRow c) cP)
       /\ serviceAsistRevenue c = Math_round (parseVal (index (rawRow c) cS))
       /\ (revenueRR c =? 0) && (planAsrServicesRevenue c =? 0) = false
       /\ daysRemaining c = RemainingDaysInfo.total daysInfo
       /\ weekdaysRemaining c = RemainingDaysInfo.weekdays daysInfo
       /\ weekendsRemaining c = RemainingDaysInfo.weekends daysInfo
       /\ isTodayWeekend c = RemainingDaysInfo.isTodayWeekend daysInfo
       /\ finalValue c = 0) results
  /\ (forall row ch nm,
        row ∈ drop 5 rows ->
        branchVal row cB = Some (ch :: nm) ->
        (Math_round (parseVal (index row cR)) =? 0) && (parseVal (index row cP) =? 0) = false ->
        exists c, c ∈ results /\ rawRow c = row /\ branchName c = ch :: nm).
Proof.
  cbv zeta. unfold processFile_loop. rewrite processFile_rows_flat, app_nil_l.
  assert (sublist
            (map rawRow (flat_map (processFile_row daysInfo cB cR cS cP []) (drop 5 rows)))
            (drop 5 rows)) as Hs.
  { induction (drop 5 rows) as [| row l IH]; cbn [flat_map]; [constructor |].
    rewrite map_app. unfold processFile_row at 1.
    destruct (branchVal row cB) as [[| ch nm] |]; cbn [map app];
      try (apply sublist_cons, IH).
    destruct (_ && _); cbn [map app rawRow]; [apply sublist_cons, IH | apply sublist_skip, IH]. }
  split; [exact Hs |]. split.
  { apply sublist_length in Hs. rewrite length_map, length_drop in Hs. exact Hs. }
  split.
  - apply Forall_forall. intros c Hc. apply list_elem_of_In, in_flat_map in Hc.
    destruct Hc as (row & _ & Hc). unfold processFile_row in Hc.
    destruct (branchVal row cB) as [[| ch nm] |] eqn:Eb; try (destruct Hc; fail).
    destruct (_ && _) eqn:Ez; [destruct Hc |].
    destruct Hc as [<- | []].
    cbn [rawRow branchName revenueRR planAsrServicesRevenue serviceAsistRevenue daysRemaining
         weekdaysRemaining weekendsRemaining isTodayWeekend finalValue].
    repeat split; assumption.
  - intros row ch nm Hin Hb Hz. eexists. split; [| split].
    + apply list_elem_of_In, in_flat_map. exists row. split; [apply list_elem_of_In, Hin |].
      unfold processFile_row. rewrite Hb, Hz. left. reflexivity.
    + reflexivity.
    + reflexivity.
Qed.

(** X14: the day counts a result shows are those of the day of the upload,
    while its [finalValue] is computed from the days that remain on the day
    it is shown: for a branch of an uploaded report, selected and shown at
    any later clock reading and weekend weight. *)
Theorem shown_days_are_those_of_the_upload
    (name : jsstring) (rows : list (list JSValue)) (cB cR cS cP : Z)
    (w : World) (branch : jsstring) (later : ES.Date) (weight : float) (r : CalculationResult) :
  let upload := run dateUtils.getRemainingDaysInfo w in
  let shown :=
    {| clock := later;
       localStorage := localStorage w;
       app := app (exec (processFile name rows cB cR cS cP;;
                         setSelectedBranch branch;;
                         setWeekendWeight weight) w) |} in
  run filteredResult shown = Some r ->
  daysRemaining r = RemainingDaysInfo.total upload
  /\ weekdaysRemaining r = RemainingDaysInfo.weekdays upload
  /\ weekendsRemaining r = RemainingDaysInfo.weekends upload
  /\ isTodayWeekend r = RemainingDaysInfo.isTodayWeekend upload
  /\ finalValue r
     = recalculatedFinalValue
         (weightedDays (run dateUtils.getRemainingDaysInfo shown) weight)
         (remainingTotalRevenue (revenueRR r) (planAsrServicesRevenue r)
                                (serviceAsistRevenue r)).
Proof.
  intros upload shown Hr.
  assert (weekendWeight (app shown) = weight) as Hw.
  { subst shown. unfold setSelectedBranch, setWeekendWeight. run_setters. reflexivity. }
  assert (allCalculations (app shown)
          = allCalculations (app (exec (processFile name rows cB cR cS cP) w))) as Hc.
  { subst shown. unfold setSelectedBranch, setWeekendWeight. run_setters. reflexivity. }
  clearbody shown.
  destruct (filteredResult_Some _ _ Hr) as (Hsel & b & Hb).
  rewrite (filteredResult_found shown b Hsel Hb) in Hr. injection Hr as <-.
  cbn [daysRemaining weekdaysRemaining weekendsRemaining isTodayWeekend finalValue
       revenueRR planAsrServicesRevenue serviceAsistRevenue].
  rewrite Hw.
  assert (b ∈ allCalculations (app (exec (processFile name rows cB cR cS cP) w))) as Hin.
  { unfold baseData in Hb. apply find_some in Hb as [Hb _]. apply list_elem_of_In.
    rewrite <- Hc. exact Hb. }
  rewrite processFile_allCalculations in Hin.
  destruct (_ || _)%Z; [inversion Hin |].
  pose proof (ingested_entries_aux upload (Z.to_nat cB) (Z.to_nat cR) (Z.to_nat cS)
                (Z.to_nat cP) rows) as Hf.
  rewrite Forall_forall in Hf. destruct (Hf b Hin) as (E1 & E2 & E3 & E4).
  repeat split; assumption.
Qed.

Lemma shown_days_are_those_of_the_upload_witness :
  exists r,
    run filteredResult
        {| clock := localNoon 2024 6 25;
           localStorage := ∅;
           app := app scenarioWorld |} = Some r
    /\ daysRemaining r = 12%Z
    /\ finalValue r = 300 / 6.2.
Proof.
  assert (exists r,
            run filteredResult
                {| clock := localNoon 2024 6 25;
                   localStorage := localStorage (worldAt (localNoon 2024 6 20) (initialState ∅));
                   app := app (exec (processFile (lit "report.xlsx")
                                       (sheet [ [ JSString (lit "A"); JSNumber 10;
                                                  JSNumber 200; JSNumber 50 ] ]) 0 1 2 3;;
                                     setSelectedBranch (lit "A");;
                                     setWeekendWeight 0.6)
                                    (worldAt (localNoon 2024 6 20) (initialState ∅))) |}
            = Some r) as [r Hr] by (vm_compute; eexists; reflexivity).
  exists r.
  destruct (shown_days_are_those_of_the_upload _ _ _ _ _ _ _ _ _ _ _ Hr) as (E & _ & _ & _ & F).
  split; [| split].
  - rewrite <- Hr. vm_compute. reflexivity.
  - rewrite E. vm_compute. reflexivity.
  - rewrite F. vm_compute in Hr. injection Hr as <-. vm_compute. reflexivity.
Defined.

End IngestionMore.

(** ** The override set and the editable rows *)

Module OverrideFacts.
Import Str Num Val App AppView.
Import TargetCalculator Ingestion.
Local Open Scope float_scope.

Lemma handleUpdateOverride_none field v w :
  selectedBranch (app w) = [] -> exec (handleUpdateOverride field v) w = w.
Proof.
  intros E. unfold handleUpdateOverride. unfold_eff. cbn [fst snd]. rewrite E. reflexivity.
Qed.

Lemma handleUpdateOverride_exec field v w :
  selectedBranch (app w) <> [] ->
  exec (handleUpdateOverride field v) w
  = {| clock := clock w;
       localStorage := localStorage w;
       app := {| allCalculations := allCalculations (app w);
                 selectedBranch := selectedBranch (app w);
                 manualOverrides :=
                   <[ selectedBranch (app w) :=
                        Override_set field v
                          (nullish (manualOverrides (app w) !! selectedBranch (app w))
                                   Override.empty) ]> (manualOverrides (app w));
                 isProcessing := isProcessing (app w);
                 error := error (app w);
                 fileName := fileName (app w);
                 defaultBranch := defaultBranch (app w);
                 weekendWeight := weekendWeight (app w) |} |}.
Proof.
  intros Hne. unfold handleUpdateOverride, setManualOverrides. unfold_eff. cbn [fst snd].
  destruct (selectedBranch (app w)) as [| ch sel] eqn:E; [congruence |].
  cbn [ToBoolean negb snd]. rewrite ?E. reflexivity.
Qed.

Lemma Override_get_set field field' v entry :
  Override_get field' (Override_set field v entry)
  = match field, field' with
    | field_revenueRR, field_revenueRR
    | field_serviceAsistRevenue, field_serviceAsistRevenue => Some v
    | _, _ => Override_get field' entry
    end.
Proof. destruct field, field'; reflexivity. Qed.

(** X15: an override is entered for the selected branch and for one figure:
    with no branch selected nothing happens; otherwise the entry of the
    selected branch holds the value in the field, its other field is as
    before, the entry of every other branch is as before, and so is
    everything but the override set. *)
Theorem override_is_local (field other : OverrideField) (v : float) (w : World) :
  let w' := exec (handleUpdateOverride field v) w in
  (selectedBranch (app w) = [] -> w' = w)
  /\ (selectedBranch (app w) <> [] ->
      (branchOverrides (app w') ≫= Override_get field) = Some v
      /\ (other <> field ->
          (branchOverrides (app w') ≫= Override_get other)
          = (branchOverrides (app w) ≫= Override_get other))
      /\ (forall branch,
            branch <> selectedBranch (app w) ->
            manualOverrides (app w') !! branch = manualOverrides (app w) !! branch)
      /\ dom (manualOverrides (app w'))
         = {[ selectedBranch (app w) ]} ∪ dom (manualOverrides (app w)))
  /\ clock w' = clock w
  /\ localStorage w' = localStorage w
  /\ allCalculations (app w') = allCalculations (app w)
  /\ selectedBranch (app w') = selectedBranch (app w)
  /\ defaultBranch (app w') = defaultBranch (app w)
  /\ weekendWeight (app w') = weekendWeight (app w).
Proof.
  cbv zeta. split; [apply handleUpdateOverride_none |].
  destruct (decide (selectedBranch (app w) = [])) as [E | Hne].
  { rewrite (handleUpdateOverride_none field v w E). split; [congruence |].
    repeat split; reflexivity. }
  rewrite (handleUpdateOverride_exec field v w Hne).
  cbn [app clock localStorage allCalculations selectedBranch manualOverrides isProcessing
       error fileName defaultBranch weekendWeight].
  split; [| repeat split; reflexivity].
  intros _. unfold branchOverrides.
  cbn [app clock localStorage allCalculations selectedBranch manualOverrides isProcessing
       error fileName defaultBranch weekendWeight].
  rewrite lookup_insert_eq. cbn [mbind option_bind]. rewrite !Override_get_set.
  split; [destruct field; reflexivity |]. split; [| split].
  - intros Ho. destruct (manualOverrides (app w) !! selectedBranch (app w)) as [e |];
      destruct field, other; try congruence; reflexivity.
  - intros branch Hb. apply lookup_insert_ne. congruence.
  - apply dom_insert_L.
Qed.

Lemma override_is_local_witness :
  (branchOverrides (app overriddenWorld) ≫= Override_get field_serviceAsistRevenue) = Some 250
  /\ (branchOverrides (app overriddenWorld) ≫= Override_get field_revenueRR) = None.
Proof.
  destruct (override_is_local field_serviceAsistRevenue field_revenueRR 250 scenarioWorld)
    as (_ & H & _).
  destruct H as (E & F & _); [vm_compute; discriminate |].
  split; [exact E |]. unfold overriddenWorld. rewrite F; [vm_compute; reflexivity | discriminate].
Defined.

(** X16: of two overrides of the same figure of a branch the later one
    counts, and overrides of the two figures can be entered in either
    order. *)
Theorem override_order (field1 field2 : OverrideField) (v1 v2 : float) (w : World) :
  exec (handleUpdateOverride field1 v2) (exec (handleUpdateOverride field1 v1) w)
  = exec (handleUpdateOverride field1 v2) w
  /\ (field1 <> field2 ->
      exec (handleUpdateOverride field2 v2) (exec (handleUpdateOverride field1 v1) w)
      = exec (handleUpdateOverride field1 v1) (exec (handleUpdateOverride field2 v2) w)).
Proof.
  destruct (decide (selectedBranch (app w) = [])) as [E | Hne].
  { rewrite !(handleUpdateOverride_none _ _ w E). split; reflexivity. }
  assert (forall f v, selectedBranch (app (exec (handleUpdateOverride f v) w)) <> []) as Hs.
  { intros f v. rewrite (handleUpdateOverride_exec f v w Hne). exact Hne. }
  split.
  - rewrite (handleUpdateOverride_exec field1 v2 _ (Hs field1 v1)).
    rewrite !(handleUpdateOverride_exec _ _ w Hne).
    cbn [app clock localStorage allCalculations selectedBranch manualOverrides isProcessing
         error fileName defaultBranch weekendWeight].
    rewrite lookup_insert_eq, insert_insert_eq. cbn [nullish].
    do 3 f_equal.
    destruct (manualOverrides (app w) !! selectedBranch (app w)), field1; reflexivity.
  - intros Hf.
    rewrite (handleUpdateOverride_exec field2 v2 _ (Hs field1 v1)).
    rewrite (handleUpdateOverride_exec field1 v1 _ (Hs field2 v2)).
    rewrite !(handleUpdateOverride_exec _ _ w Hne).
    cbn [app clock localStorage allCalculations selectedBranch manualOverrides isProcessing
         error fileName defaultBranch weekendWeight].
    rewrite !lookup_insert_eq, !insert_insert_eq. cbn [nullish].
    do 3 f_equal.
    destruct (manualOverrides (app w) !! selectedBranch (app w)), field1, field2;
      try congruence; reflexivity.
Qed.

End OverrideFacts.

(** ** The branches offered for selection *)

Module BranchList.
Import Str Num Val ArrayLib App AppView.
Import TargetCalculator Ingestion.

Lemma lessThan_irrefl a : lessThan a a = false.
Proof.
  induction a as [| x a IH]; cbn; [reflexivity |]. rewrite N.ltb_irrefl. exact IH.
Qed.

Lemma lessThan_trans a b c :
  lessThan a b = true -> lessThan b c = true -> lessThan a c = true.
Proof.
  revert b c. induction a as [| x a IH]; intros [| y b] [| z c]; cbn; try congruence.
  destruct (N.ltb_spec x y), (N.ltb_spec y x), (N.ltb_spec y z), (N.ltb_spec z y),
    (N.ltb_spec x z), (N.ltb_spec z x); try lia; try congruence.
  apply IH.
Qed.

Lemma lessThan_asym a b : lessThan a b = true -> lessThan b a = false.
Proof.
  intros H. destruct (lessThan b a) eqn:E; [| reflexivity].
  pose proof (lessThan_trans _ _ _ H E) as T. rewrite lessThan_irrefl in T. discriminate.
Qed.

Lemma lessThan_total a b : lessThan a b = false -> lessThan b a = false -> a = b.
Proof.
  revert b. induction a as [| x a IH]; intros [| y b]; cbn; try congruence.
  destruct (N.ltb_spec x y), (N.ltb_spec y x); try lia; try congruence.
  intros H1 H2. f_equal; [lia | apply IH; assumption].
Qed.

Lemma sort_insert_perm x l : sort_insert x l ≡ₚ x :: l.
Proof.
  induction l as [| y l IH]; cbn; [reflexivity |].
  destruct (lessThan x y); [reflexivity |]. rewrite IH. apply Permutation_swap.
Qed.

Lemma sort_insert_sorted x l :
  x ∉ l ->
  StronglySorted (fun a b => lessThan a b = true) l ->
  StronglySorted (fun a b => lessThan a b = true) (sort_insert x l).
Proof.
  intros Hx Hs. induction Hs as [| y l Hs IH Hy]; cbn.
  - repeat constructor.
  - destruct (lessThan x y) eqn:E.
    + constructor; [constructor; assumption |]. constructor; [exact E |].
      eapply Forall_impl; [exact Hy |]. intros z Hz. cbn in Hz.
      eapply lessThan_trans; eassumption.
    + constructor.
      * apply IH. intros Hin. apply Hx. right. exact Hin.
      * rewrite sort_insert_perm. constructor; [| exact Hy].
        destruct (lessThan y x) eqn:F; [reflexivity |].
        exfalso. apply Hx. rewrite (lessThan_total _ _ E F). left.
Qed.

Lemma sort_fold_perm l acc : fold_left (fun sorted x => sort_insert x sorted) l acc ≡ₚ acc ++ l.
Proof.
  revert acc. induction l as [| x l IH]; intros acc; cbn [fold_left].
  - rewrite app_nil_r. reflexivity.
  - rewrite IH, sort_insert_perm. rewrite (Permutation_middle acc l x). reflexivity.
Qed.

Lemma sort_perm l : sort l ≡ₚ l.
Proof. unfold sort. rewrite sort_fold_perm. reflexivity. Qed.

Lemma sort_fold_sorted l acc :
  NoDup (acc ++ l) ->
  StronglySorted (fun a b => lessThan a b = true) acc ->
  StronglySorted (fun a b => lessThan a b = true)
                 (fold_left (fun sorted x => sort_insert x sorted) l acc).
Proof.
  revert acc. induction l as [| x l IH]; intros acc Hn Hs; cbn [fold_left]; [exact Hs |].
  apply NoDup_app in Hn as (Ha & Hd & Hl). apply NoDup_cons in Hl as [Hx Hl].
  apply IH.
  - rewrite sort_insert_perm. cbn. apply NoDup_cons. split.
    + rewrite elem_of_app. intros [H | H]; [| contradiction].
      apply (Hd x H). left.
    + apply NoDup_app. split; [exact Ha |]. split; [| exact Hl].
      intros y Hy Hin. apply (Hd y Hy). right. exact Hin.
  - apply sort_insert_sorted; [| exact Hs]. intros H. apply (Hd x H). left.
Qed.

Lemma Set_values_fold (l acc : list jsstring) :
  NoDup acc ->
  NoDup (fold_left (fun set x => if bool_decide (x ∈ set) then set else set ++ [x]) l acc)
  /\ forall y,
       y ∈ fold_left (fun set x => if bool_decide (x ∈ set) then set else set ++ [x]) l acc
       <-> y ∈ acc \/ y ∈ l.
Proof.
  revert acc. induction l as [| x l IH]; intros acc Hn; cbn [fold_left].
  - split; [exact Hn |]. intros y. rewrite elem_of_nil. tauto.
  - destruct (bool_decide_reflect (x ∈ acc)) as [Hx | Hx].
    + destruct (IH acc Hn) as [N E]. split; [exact N |]. intros y. rewrite E, elem_of_cons.
      split; [tauto |]. intros [H | [-> | H]]; tauto.
    + assert (NoDup (acc ++ [x])) as Hn'.
      { apply NoDup_app. split; [exact Hn |]. split; [| apply NoDup_singleton].
        intros y Hy Hin. apply list_elem_of_singleton in Hin. subst y. contradiction. }
      destruct (IH (acc ++ [x]) Hn') as [N E]. split; [exact N |]. intros y.
      rewrite E, elem_of_app, list_elem_of_singleton, elem_of_cons. tauto.
Qed.

Lemma strictly_sorted_NoDup l :
  StronglySorted (fun a b => lessThan a b = true) l -> NoDup l.
Proof.
  induction 1 as [| x l Hs IH Hx]; constructor; [| exact IH].
  intros Hin. rewrite Forall_forall in Hx. specialize (Hx x Hin).
  rewrite lessThan_irrefl in Hx. discriminate.
Qed.

Lemma availableBranches_elem (s : AppState) (b : jsstring) :
  b ∈ availableBranches s <-> b ∈ map branchName (allCalculations s).
Proof.
  unfold availableBranches.
  destruct (Set_values_fold (map branchName (allCalculations s)) [] (NoDup_nil_2))
    as [_ He].
  fold (Set_values (map branchName (allCalculations s))) in He.
  rewrite sort_perm, He, elem_of_nil. tauto.
Qed.

(** X17: the branches offered for selection are the branch names of the
    report, each once, in the ascending order of their code units; they are
    the only such arrangement, so the list does not depend on the sorting
    algorithm. *)
Theorem availableBranches_sorted_distinct (s : AppState) :
  (forall b, b ∈ availableBranches s <-> b ∈ map branchName (allCalculations s))
  /\ NoDup (availableBranches s)
  /\ StronglySorted (fun a b => lessThan a b = true) (availableBranches s)
  /\ (forall l,
        (forall b, b ∈ l <-> b ∈ map branchName (allCalculations s)) ->
        StronglySorted (fun a b => lessThan a b = true) l ->
        l = availableBranches s).
Proof.
  unfold availableBranches.
  destruct (Set_values_fold (map branchName (allCalculations s)) [] (NoDup_nil_2))
    as [Hn He].
  fold (Set_values (map branchName (allCalculations s))) in Hn, He.
  assert (forall b, b ∈ sort (Set_values (map branchName (allCalculations s)))
                    <-> b ∈ map branchName (allCalculations s)) as Hel.
  { intros b. rewrite sort_perm, He, elem_of_nil. tauto. }
  assert (StronglySorted (fun a b => lessThan a b = true)
            (sort (Set_values (map branchName (allCalculations s))))) as Hs.
  { apply sort_fold_sorted; [exact Hn | constructor]. }
  split; [exact Hel |]. split; [rewrite sort_perm; exact Hn |]. split; [exact Hs |].
  intros l Hl Hsl.
  assert (AntiSymm eq (fun a b : jsstring => lessThan a b = true)) as Ha.
  { intros a b H1 H2. apply lessThan_asym in H1. congruence. }
  apply (@StronglySorted_unique _ (fun a b => lessThan a b = true) Ha); try assumption.
  apply NoDup_Permutation; [apply strictly_sorted_NoDup, Hsl | rewrite sort_perm; exact Hn |].
  intros b. rewrite Hl, Hel. reflexivity.
Qed.

Lemma filteredResult_pure w : exec filteredResult w = w.
Proof.
  unfold filteredResult. unfold_eff. cbn [fst snd].
  destruct (selectedBranch (app w)) as [| ch sel]; cbn [ToBoolean negb snd]; [reflexivity |].
  destruct (List.find _ _); [| reflexivity].
  pose proof (DateFacts.getRemainingDaysInfo_pure w) as P. unfold exec in P.
  destruct (dateUtils.getRemainingDaysInfo w) as [di w']. cbn [snd] in *. exact P.
Qed.

Lemma filteredResult_None w :
  run filteredResult w = None
  <-> selectedBranch (app w) = [] \/ baseData (app w) = None.
Proof.
  destruct (decide (selectedBranch (app w) = [])) as [E | Hne].
  - split; [tauto |]. intros _. unfold filteredResult. unfold_eff. cbn [fst snd].
    rewrite E. reflexivity.
  - destruct (baseData (app w)) as [b |] eqn:Eb.
    + rewrite (filteredResult_found w b Hne Eb). split; [discriminate |].
      intros [H | H]; congruence.
    + split; [tauto |]. intros _.
      destruct (run filteredResult w) as [r |] eqn:Er; [| reflexivity].
      apply filteredResult_Some in Er as (_ & b & Hb). congruence.
Qed.

Lemma baseData_Some_iff (s : AppState) :
  (exists b, baseData s = Some b) <-> selectedBranch s ∈ map branchName (allCalculations s).
Proof.
  unfold baseData. split.
  - intros [b Hb]. apply find_some in Hb as [Hin Hn]. apply bool_decide_eq_true in Hn.
    apply list_elem_of_fmap. exists b. split; [congruence | apply list_elem_of_In, Hin].
  - intros Hin. apply list_elem_of_fmap in Hin as (c & Hn & Hc).
    destruct (List.find (fun c => bool_decide (branchName c = selectedBranch s))
                        (allCalculations s)) as [b |] eqn:Ef; [eauto |].
    exfalso. apply list_elem_of_In in Hc. pose proof (find_none _ _ Ef c Hc) as Hx.
    apply bool_decide_eq_false in Hx. congruence.
Qed.

(** X18: a result is computed exactly when a branch is selected that is
    among the branches offered; it carries the name of the selected branch,
    and computing it changes nothing. *)
Theorem result_iff_branch_offered (w : World) :
  (run filteredResult w <> None
   <-> selectedBranch (app w) <> []
       /\ selectedBranch (app w) ∈ availableBranches (app w))
  /\ (forall r, run filteredResult w = Some r -> branchName r = selectedBranch (app w))
  /\ exec filteredResult w = w.
Proof.
  pose proof (availableBranches_elem (app w) (selectedBranch (app w))) as Hel.
  split; [| split; [| apply filteredResult_pure]].
  - rewrite filteredResult_None, Hel, <- baseData_Some_iff.
    destruct (baseData (app w)) as [b |].
    + split.
      * intros H. split; [tauto | eauto].
      * intros [H _] [E | E]; congruence.
    + split; [tauto |]. intros [_ [b Hb]]. congruence.
  - intros r Hr. destruct (filteredResult_Some _ _ Hr) as (Hsel & b & Hb).
    rewrite (filteredResult_found w b Hsel Hb) in Hr. injection Hr as <-. cbn [branchName].
    unfold baseData in Hb. apply find_some in Hb as [_ Hn].
    apply bool_decide_eq_true in Hn. exact Hn.
Qed.

(** X19: after an upload, selecting any branch that is offered shows a
    result for that branch. *)
Theorem offered_branch_has_result
    (name : jsstring) (rows : list (list JSValue)) (cB cR cS cP : Z) (w : World)
    (branch : jsstring) :
  let w' := exec (processFile name rows cB cR cS cP;; setSelectedBranch branch) w in
  branch ∈ availableBranches (app w') ->
  run showsResult w' = true
  /\ exists r, run filteredResult w' = Some r /\ branchName r = branch.
Proof.
  intros w' Hin.
  assert (allCalculations (app w')
          = allCalculations (app (exec (processFile name rows cB cR cS cP) w))) as Hc.
  { subst w'. unfold setSelectedBranch. run_setters. reflexivity. }
  assert (selectedBranch (app w') = branch) as Hs.
  { subst w'. unfold setSelectedBranch. run_setters. reflexivity. }
  assert (isProcessing (app w') = false) as Hp.
  { subst w'. unfold setSelectedBranch. run_setters.
    rewrite IngestionMore.processFile_exec. reflexivity. }
  clearbody w'.
  assert (branch <> []) as Hne.
  { apply (availableBranches_elem (app w')) in Hin. rewrite Hc in Hin.
    rewrite processFile_allCalculations in Hin.
    destruct (_ || _)%Z; [inversion Hin |].
    apply list_elem_of_fmap in Hin as (c & -> & Hin).
    destruct (processFile_loop_names (run dateUtils.getRemainingDaysInfo w) (Z.to_nat cB)
                (Z.to_nat cR) (Z.to_nat cS) (Z.to_nat cP) rows) as [Hf _].
    rewrite Forall_forall in Hf. apply Hf, Hin. }
  apply (availableBranches_elem (app w')) in Hin. rewrite <- Hs in Hin at 1.
  apply baseData_Some_iff in Hin as [b Hb].
  assert (selectedBranch (app w') <> []) as Hsel by congruence.
  pose proof (filteredResult_found w' b Hsel Hb) as Hr.
  split.
  - unfold showsResult. unfold run. unfold mbind, Eff_bind.
    pose proof (filteredResult_pure w') as Hx. unfold exec in Hx. unfold run in Hr.
    destruct (filteredResult w') as [r w'']. cbn [fst snd] in *. subst w''. rewrite Hr.
    unfold getState, mret, Eff_ret. cbn [fst]. rewrite Hp. reflexivity.
  - eexists. split; [exact Hr |]. cbn [branchName].
    unfold baseData in Hb. apply find_some in Hb as [_ Hn].
    apply bool_decide_eq_true in Hn. congruence.
Qed.

Lemma offered_branch_has_result_witness :
  run showsResult
      (exec (processFile (lit "report.xlsx") (sheet distinctRows) 0 1 2 3;;
             setSelectedBranch (lit "B")) world_2024_02_10) = true.
Proof.
  destruct (offered_branch_has_result (lit "report.xlsx") (sheet distinctRows) 0 1 2 3
              world_2024_02_10 (lit "B")) as [E _]; [| exact E].
  apply (bool_decide_unpack _). vm_compute. exact I.
Defined.

End BranchList.

(** ** Editing a figure of the result *)

Module Editing.
Import Str Num Val App AppView.
Import TargetCalculator Ingestion OverrideFacts BranchList.
Local Open Scope float_scope.

(** What [filteredResult] reads. *)
Lemma filteredResult_ext w1 w2 :
  clock w1 = clock w2 ->
  allCalculations (app w1) = allCalculations (app w2) ->
  selectedBranch (app w1) = selectedBranch (app w2) ->
  weekendWeight (app w1) = weekendWeight (app w2) ->
  branchOverrides (app w1) = branchOverrides (app w2) ->
  run filteredResult w1 = run filteredResult w2.
Proof.
  intros Hc Ha Hs Hw Ho.
  assert (baseData (app w1) = baseData (app w2)) as Hb
    by (unfold baseData; rewrite Ha, Hs; reflexivity).
  destruct (decide (selectedBranch (app w1) = [])) as [E | Hne].
  { transitivity (@None CalculationResult); [| symmetry];
      apply filteredResult_None; left; congruence. }
  destruct (baseData (app w1)) as [b |] eqn:Eb.
  - rewrite (filteredResult_found w1 b Hne Eb).
    rewrite (filteredResult_found w2 b) by congruence.
    rewrite Ho, Hw, (getRemainingDaysInfo_clock w1 w2 Hc). reflexivity.
  - transitivity (@None CalculationResult); [| symmetry];
      apply filteredResult_None; right; congruence.
Qed.

(** X20: the overrides are kept per branch: selecting another branch,
    entering an override there and selecting the first branch again gives
    the result the first branch had, with its own overrides. *)
Theorem overrides_are_per_branch
    (field : OverrideField) (v : float) (other : jsstring) (w : World) :
  let w' := exec (setSelectedBranch other;;
                  handleUpdateOverride field v;;
                  setSelectedBranch (selectedBranch (app w))) w in
  other <> selectedBranch (app w) ->
  run filteredResult w' = run filteredResult w
  /\ branchOverrides (app w') = branchOverrides (app w)
  /\ (other <> [] ->
      (manualOverrides (app w') !! other ≫= Override_get field) = Some v).
Proof.
  intros w' Hne.
  assert (exists mo,
            w' = {| clock := clock w; localStorage := localStorage w;
                    app := {| allCalculations := allCalculations (app w);
                              selectedBranch := selectedBranch (app w);
                              manualOverrides := mo;
                              isProcessing := isProcessing (app w);
                              error := error (app w);
                              fileName := fileName (app w);
                              defaultBranch := defaultBranch (app w);
                              weekendWeight := weekendWeight (app w) |} |}
            /\ mo !! selectedBranch (app w) = manualOverrides (app w) !! selectedBranch (app w)
            /\ (other <> [] -> (mo !! other ≫= Override_get field) = Some v))
    as (mo & E & Hsel & Hother).
  { subst w'. rewrite !exec_bind.
    set (w1 := exec (setSelectedBranch other) w).
    assert (selectedBranch (app w1) = other) as Hs1 by reflexivity.
    destruct (decide (other = [])) as [E | Ho].
    - rewrite (handleUpdateOverride_none field v w1) by congruence.
      exists (manualOverrides (app w)). split; [reflexivity |]. split; [reflexivity | tauto].
    - rewrite (handleUpdateOverride_exec field v w1) by congruence.
      eexists. split; [reflexivity |]. rewrite Hs1.
      cbn [app manualOverrides w1 exec snd setSelectedBranch setState selectedBranch].
      split.
      + apply lookup_insert_ne. exact Hne.
      + intros _. rewrite lookup_insert_eq. cbn [mbind option_bind].
        rewrite Override_get_set. destruct field; reflexivity. }
  clearbody w'. subst w'.
  split; [| split].
  - apply filteredResult_ext; try reflexivity. exact Hsel.
  - exact Hsel.
  - exact Hother.
Qed.

Lemma overrides_are_per_branch_witness :
  run filteredResult
      (exec (setSelectedBranch (lit "B");;
             handleUpdateOverride field_revenueRR 7;;
             setSelectedBranch (lit "A")) overriddenWorld)
  = run filteredResult overriddenWorld.
Proof.
  destruct (overrides_are_per_branch field_revenueRR 7 (lit "B") overriddenWorld) as [E _].
  - vm_compute. discriminate.
  - exact E.
Defined.

Lemma parseVal_typed (text : jsstring) :
  isNaN (parseFloat (replaceFirst 44%N 46%N (removeWhiteSpace text))) = false ->
  parseVal (JSString text) = parseFloat (replaceFirst 44%N 46%N (removeWhiteSpace text)).
Proof.
  intros H. unfold parseVal. destruct text as [| ch text].
  - vm_compute in H. discriminate.
  - cbn [ToBoolean negb ToString]. rewrite H. reflexivity.
Qed.

(** X21: finishing the edit of a figure ends the editing.  A text that does
    not parse changes nothing and the row shows the figure again.  A text
    that parses is read as a cell of the sheet is, but is not rounded, and
    is entered as the override of that figure for the selected branch.  If
    the values of the override set were numbers before, they are numbers
    after. *)
Theorem finish_edit
    (field : OverrideField) (value : float) (st : ValueRowState) (w : World) :
  let num := parseFloat (replaceFirst 44%N 46%N (removeWhiteSpace (tempValue st))) in
  let edit := ValueRow_handleFinishEdit value (Some (handleUpdateOverride field)) st in
  isEditing (run edit w) = false
  /\ (isNaN num = true ->
      exec edit w = w /\ tempValue (run edit w) = Number_toString value)
  /\ (isNaN num = false ->
      exec edit w = exec (handleUpdateOverride field (parseVal (JSString (tempValue st)))) w
      /\ parseVal (JSString (tempValue st)) = num
      /\ tempValue (run edit w) = tempValue st)
  /\ (overridesAreNumbers (app w) -> overridesAreNumbers (app (exec edit w))).
Proof.
  cbv zeta. unfold ValueRow_handleFinishEdit.
  destruct (isNaN (parseFloat (replaceFirst 44%N 46%N (removeWhiteSpace (tempValue st)))))
    eqn:En; cbn [negb].
  - split; [reflexivity |]. split; [intros _; split; reflexivity |].
    split; [discriminate |]. intros H. exact H.
  - rewrite (parseVal_typed _ En).
    assert (forall (m : Eff unit) (x : ValueRowState), exec (m;; mret x) w = exec m w) as Hx.
    { intros m x. unfold exec, mbind, Eff_bind, mret, Eff_ret. destruct (m w). reflexivity. }
    assert (forall (m : Eff unit) (x : ValueRowState), run (m;; mret x) w = x) as Hr.
    { intros m x. unfold run, mbind, Eff_bind, mret, Eff_ret. destruct (m w). reflexivity. }
    rewrite Hx, Hr. cbn [isEditing tempValue].
    split; [reflexivity |]. split; [discriminate |].
    split; [intros _; repeat split; reflexivity |].
    intros Hnum. destruct (decide (selectedBranch (app w) = [])) as [E | Hne].
    + rewrite handleUpdateOverride_none by exact E. exact Hnum.
    + rewrite handleUpdateOverride_exec by exact Hne. unfold overridesAreNumbers in *.
      cbn [app manualOverrides]. apply map_Forall_insert_2; [| exact Hnum].
      destruct (manualOverrides (app w) !! selectedBranch (app w)) as [e |] eqn:El.
      * destruct (Hnum _ _ El) as [H1 H2]. destruct field; cbn; split; assumption.
      * destruct field; cbn; split; try exact I; exact En.
Qed.

Lemma finish_edit_witness :
  exec (editRevenueRR scenarioFigures {| isEditing := true; tempValue := lit "abc" |})
       scenarioWorld = scenarioWorld
  /\ exec (editRevenueRR scenarioFigures {| isEditing := true; tempValue := lit "12,5" |})
          scenarioWorld
     = exec (handleUpdateOverride field_revenueRR 12.5) scenarioWorld
  /\ overridesAreNumbers
       (app (exec (editRevenueRR scenarioFigures
                     {| isEditing := true; tempValue := lit "12,5" |}) scenarioWorld)).
Proof.
  split; [| split].
  - destruct (finish_edit field_revenueRR (revenueRR scenarioFigures)
                {| isEditing := true; tempValue := lit "abc" |} scenarioWorld)
      as (_ & H & _).
    destruct H as [E _]; [vm_compute; reflexivity | exact E].
  - destruct (finish_edit field_revenueRR (revenueRR scenarioFigures)
                {| isEditing := true; tempValue := lit "12,5" |} scenarioWorld)
      as (_ & _ & H & _).
    destruct H as (E & P & _); [vm_compute; reflexivity |].
    unfold editRevenueRR. rewrite E, P. f_equal.
  - destruct (finish_edit field_revenueRR (revenueRR scenarioFigures)
                {| isEditing := true; tempValue := lit "12,5" |} scenarioWorld)
      as (_ & _ & _ & H).
    apply H. unfold overridesAreNumbers.
    replace (manualOverrides (app scenarioWorld)) with (∅ : gmap jsstring Override.t)
      by (vm_compute; reflexivity).
    apply map_Forall_empty.
Defined.

End Editing.

(** ** Finding the columns *)

Module HeaderFacts.
Import Str Num Val ArrayLib App AppView.
Import Ingestion.

Lemma findIndex_range {A : Type} (p : A -> bool) (l : list A) (i : Z) :
  findIndex p l i = -1 \/ i <= findIndex p l i < i + Z.of_nat (length l).
Proof.
  revert i. induction l as [| x l IH]; intros i; cbn [findIndex length]; [left; reflexivity |].
  destruct (p x); [right; lia |].
  destruct (IH (i + 1)) as [H | H]; [left; exact H | right; lia].
Qed.

Lemma findIndex_none {A : Type} (p : A -> bool) (l : list A) (i : Z) :
  0 <= i -> (findIndex p l i = -1 <-> Forall (fun x => p x = false) l).
Proof.
  revert i. induction l as [| x l IH]; intros i Hi; cbn [findIndex].
  - split; [constructor | reflexivity].
  - destruct (p x) eqn:E.
    + split; [lia |]. intros H. apply Forall_cons in H as [H _]. congruence.
    + rewrite IH by lia. split; [intros H; constructor; assumption |].
      intros H. apply Forall_cons in H as [_ H]. exact H.
Qed.

Lemma findIndex_first {A : Type} (p : A -> bool) (l : list A) (i : Z) :
  findIndex p l i <> -1 ->
  exists (n : nat) (x : A),
    findIndex p l i = i + Z.of_nat n
    /\ l !! n = Some x /\ p x = true
    /\ forall (m : nat) (y : A), (m < n)%nat -> l !! m = Some y -> p y = false.
Proof.
  revert i. induction l as [| x l IH]; intros i; cbn [findIndex]; [congruence |].
  destruct (p x) eqn:E.
  - intros _. exists 0%nat, x. split; [lia |]. split; [reflexivity |]. split; [exact E |].
    intros m y Hm. lia.
  - intros H. destruct (IH (i + 1) H) as (n & y & Hn & Hl & Hp & Hm).
    exists (S n), y. split; [lia |]. split; [exact Hl |]. split; [exact Hp |].
    intros [| m] z Hlt Hz; cbn in Hz; [congruence |]. apply (Hm m z); [lia | exact Hz].
Qed.

(** X22: the column of a header name is the first cell of the header row
    that is not empty and equals one of the names up to case and
    surrounding white space; the index is -1 exactly when the row has no
    such cell, and a valid index of the row otherwise. *)
Theorem findColIndex_first_match
    (toLowerCase : jsstring -> jsstring) (headerRow : list JSValue) (names : list jsstring) :
  let isNamed := fun cell =>
    ToBoolean cell
    && existsb (fun name => bool_decide (trim (toLowerCase (ToString cell))
                                         = trim (toLowerCase name))) names in
  let col := findColIndex toLowerCase headerRow names in
  (col = -1 <-> Forall (fun cell => isNamed cell = false) headerRow)
  /\ (col <> -1 ->
      0 <= col < Z.of_nat (length headerRow)
      /\ exists cell,
          headerRow !! Z.to_nat col = Some cell /\ isNamed cell = true
          /\ forall (m : nat) (c : JSValue),
               Z.of_nat m < col -> headerRow !! m = Some c -> isNamed c = false).
Proof.
  cbv zeta. unfold findColIndex. split; [apply findIndex_none; lia |].
  intros H. destruct (findIndex_first _ _ _ H) as (n & x & Hn & Hl & Hp & Hm).
  rewrite Hn. split.
  - apply lookup_lt_Some in Hl. lia.
  - exists x. replace (Z.to_nat (0 + Z.of_nat n)) with n by lia.
    split; [exact Hl |]. split; [exact Hp |].
    intros m c Hlt. apply Hm. lia.
Qed.

Lemma findColIndex_first_match_witness :
  0 <= findColIndex asciiLowerCase
         [ JSNull; JSString (lit " revenue rr"); JSString (lit "Revenue RR") ]
         [ lit "Revenue RR" ] < 3
  /\ exists cell,
       [ JSNull; JSString (lit " revenue rr"); JSString (lit "Revenue RR") ] !! 1%nat = Some cell
       /\ ToString cell = lit " revenue rr".
Proof.
  destruct (findColIndex_first_match asciiLowerCase
              [ JSNull; JSString (lit " revenue rr"); JSString (lit "Revenue RR") ]
              [ lit "Revenue RR" ]) as [_ H].
  destruct H as [R (cell & Hc & _)]; [vm_compute; discriminate |].
  split; [exact R |]. exists cell. split; [exact Hc |].
  vm_compute in Hc. injection Hc as <-. reflexivity.
Defined.

(** X23: the handler of a loaded sheet reports no error exactly when the
    sheet has at least five rows and its fifth row has a cell for each of
    the four columns; it reports a sheet that is too short before it looks
    for the columns. *)
Theorem onload_checks
    (toLowerCase : jsstring -> jsstring) (name : jsstring) (rows : list (list JSValue))
    (w : World) :
  let w' := exec (processFile_onload toLowerCase name rows) w in
  let found := fun names =>
    negb (findColIndex toLowerCase (default [] (rows !! 4%nat)) names =? -1) in
  ((length rows < 5)%nat <-> error (app w') = Some FileTooShort)
  /\ (error (app w') = None
      <-> (5 <= length rows)%nat
          /\ found [lit "BranchName"; name_Pobocka] = true
          /\ found [lit "Revenue RR"] = true
          /\ found [lit "Service Asist Revenue"] = true
          /\ found [lit "Plan ASR Services/Revenue"] = true)
  /\ (error (app w') <> None -> allCalculations (app w') = []).
Proof.
  cbv zeta. unfold processFile_onload. rewrite IngestionMore.processFile_exec. cbv zeta.
  cbn [app error allCalculations].
  destruct (Z.ltb_spec (Z.of_nat (length rows)) 5).
  - split; [split; [reflexivity | lia] |]. split; [| reflexivity].
    split; [discriminate | lia].
  - split.
    { split; [lia |]. intros E.
      match type of E with context [if ?c then _ else _] => destruct c end; discriminate. }
    repeat match goal with
           | |- context [findColIndex ?t ?h ?n =? -1] =>
               destruct (findColIndex t h n =? -1)
           end;
      cbn [orb negb];
      (split;
       [ split;
         [ intros ?; first [discriminate | repeat split; first [lia | reflexivity]]
         | intros (_ & ? & ? & ? & ?); first [reflexivity | discriminate] ]
       | intros ?; first [reflexivity | congruence] ]).
Qed.

Lemma onload_checks_witness :
  error (app (exec (processFile_onload asciiLowerCase (lit "report.xlsx")
                      (sheet distinctRows)) world_2024_02_10)) = None
  /\ error (app (exec (processFile_onload asciiLowerCase (lit "report.xlsx") [ []; [] ])
                      world_2024_02_10)) = Some FileTooShort.
Proof.
  split.
  - apply (onload_checks asciiLowerCase (lit "report.xlsx") (sheet distinctRows)
             world_2024_02_10).
    repeat split; try (vm_compute; reflexivity). cbn. lia.
  - apply (onload_checks asciiLowerCase (lit "report.xlsx") [ []; [] ] world_2024_02_10).
    cbn. lia.
Defined.

End HeaderFacts.

(** ** The entries of the report *)

Module EntryFacts.
Import Str Num Val App AppView.
Import Ingestion.

Lemma trimStart_head s :
  match trimStart s with c :: _ => isWhiteSpace c = false | [] => True end.
Proof.
  induction s as [| c s IH]; cbn [trimStart]; [exact I |].
  destruct (isWhiteSpace c) eqn:E; [exact IH | exact E].
Qed.

Lemma trimStart_id s :
  match s with c :: _ => isWhiteSpace c = false | [] => True end -> trimStart s = s.
Proof. destruct s as [| c s]; cbn [trimStart]; [reflexivity |]. intros ->. reflexivity. Qed.

Lemma trimStart_snoc l c :
  isWhiteSpace c = false -> exists l', trimStart (l ++ [c]) = l' ++ [c].
Proof.
  intros Hc. induction l as [| x l IH]; cbn [Datatypes.app trimStart].
  - rewrite Hc. exists []. reflexivity.
  - destruct (isWhiteSpace x); [exact IH |]. exists (x :: l). reflexivity.
Qed.

Lemma trimEnd_head s :
  match s with c :: _ => isWhiteSpace c = false | [] => True end ->
  match trimEnd s with c :: _ => isWhiteSpace c = false | [] => True end.
Proof.
  unfold trimEnd. destruct s as [| c s]; [intros _; exact I |]. intros Hc.
  cbn [rev]. destruct (trimStart_snoc (rev s) c Hc) as [l' ->].
  rewrite rev_app_distr. cbn. exact Hc.
Qed.

Lemma trim_trim s : trim (trim s) = trim s.
Proof.
  unfold trim.
  rewrite (trimStart_id (trimEnd (trimStart s))) by apply trimEnd_head, trimStart_head.
  unfold trimEnd at 1. unfold trimEnd. rewrite rev_involutive.
  rewrite (trimStart_id (trimStart (rev (trimStart s)))) by apply trimStart_head.
  reflexivity.
Qed.

(** X24: the branch names of an uploaded report are trimmed: a name has no
    white space at its start or its end, so trimming it again changes
    nothing; and every entry of a report uploaded at a clock reading
    outside the two-digit years carries between 1 and 31 remaining days,
    which are its weekdays and weekend days together. *)
Theorem ingested_names_trimmed
    (name : jsstring) (rows : list (list JSValue)) (cB cR cS cP : Z) (w : World) :
  let results := allCalculations (app (exec (processFile name rows cB cR cS cP) w)) in
  Forall (fun c =>
            trim (branchName c) = branchName c
            /\ (forall ch, head (branchName c) = Some ch -> isWhiteSpace ch = false)
            /\ (forall ch, last (branchName c) = Some ch -> isWhiteSpace ch = false))
         results
  /\ (twoDigitYear (ES.getFullYear (clock w)) = false ->
      Forall (fun c =>
                1 <= daysRemaining c <= 31
                /\ daysRemaining c = weekdaysRemaining c + weekendsRemaining c)
             results).
Proof.
  cbv zeta. rewrite processFile_allCalculations.
  destruct (_ || _)%Z; [split; [constructor | intros _; constructor] |].
  split.
  - pose proof (IngestionMore.ingested_entries_names (run dateUtils.getRemainingDaysInfo w)
                  (Z.to_nat cB) (Z.to_nat cR) (Z.to_nat cS) (Z.to_nat cP) rows) as Hf.
    eapply Forall_impl; [exact Hf |]. intros c Hc. cbn beta in Hc.
    unfold branchVal in Hc.
    assert (exists s, branchName c = trim s) as [s Es].
    { destruct (index (rawRow c) (Z.to_nat cB)); try discriminate;
        injection Hc as <-; eexists; reflexivity. }
    rewrite Es. split; [apply trim_trim |]. split.
    + intros ch Hh. unfold trim in Hh.
      pose proof (trimEnd_head (trimStart s) (trimStart_head s)) as H.
      destruct (trimEnd (trimStart s)); [discriminate |]. injection Hh as <-. exact H.
    + intros ch Hl. unfold trim, trimEnd in Hl. apply last_Some in Hl as [l' Hl].
      apply (f_equal (@rev _)) in Hl. rewrite rev_involutive, rev_app_distr in Hl.
      pose proof (trimStart_head (rev (trimStart s))) as H. rewrite Hl in H. exact H.
  - intros Hy.
    pose proof (IngestionMore.ingested_entries_aux (run dateUtils.getRemainingDaysInfo w)
                  (Z.to_nat cB) (Z.to_nat cR) (Z.to_nat cS) (Z.to_nat cP) rows) as Hf.
    destruct (CalendarMore.remaining_days_bounds_aux w Hy) as (Ht & _ & _ & Hs).
    eapply Forall_impl; [exact Hf |]. intros c (E1 & E2 & E3 & _). cbn beta.
    rewrite E1, E2, E3. lia.
Qed.

Lemma ingested_names_trimmed_witness :
  Forall (fun c => (1 <= daysRemaining c <= 31)%Z
                   /\ daysRemaining c = (weekdaysRemaining c + weekendsRemaining c)%Z)
         (allCalculations
            (app (exec (processFile (lit "report.xlsx") (sheet [ czechRow ]) 0 1 2 3)
                       world_2024_02_10))).
Proof.
  apply (ingested_names_trimmed (lit "report.xlsx") (sheet [ czechRow ]) 0 1 2 3
           world_2024_02_10).
  reflexivity.
Defined.

End EntryFacts.
